(** * SecureShare: consent-gated disclosure, field encryption and audit chain

    A shallow embedding of the SecureShare backend (Node.js / Express /
    Mongoose) and of the partner-side decryption service, together with the
    properties its specification states about them.

    Conventions of the embedding.
    - A JavaScript string is a [string]; its UTF-8 encoding is the list of
      its bytes ([list_byte_of_string]).
    - A [Buffer] is a [list byte].
    - A JavaScript object used as a dictionary is a [gmap string _].
    - A function that may throw returns a [result]; code that also touches
      the random source or the database is a state transformer [M S A],
      and a state change made before a throw is kept, as in JavaScript.
    - The primitives of Node's [crypto] module, [JSON] and base64 are
      parameters of the section that embeds the services. *)

From Stdlib Require Import ZArith NArith Lia List Ascii String.
From Stdlib Require Import Strings.Byte.
From stdpp Require Import base option list strings pretty gmap fin_maps.

Local Open Scope string_scope.

(** ** Results and the state-and-exception monad *)

Inductive result (A : Type) : Type :=
| Ok (a : A)
| Throw (msg : string).
Arguments Ok {A} a.
Arguments Throw {A} msg.

Definition M (S A : Type) : Type := S -> result A * S.

Definition ret {S A} (a : A) : M S A := fun s => (Ok a, s).

Definition throw {S A} (msg : string) : M S A := fun s => (Throw msg, s).

Definition bind {S A B} (m : M S A) (k : A -> M S B) : M S B :=
  fun s => match m s with
           | (Ok a, s') => k a s'
           | (Throw e, s') => (Throw e, s')
           end.

(** [try { m } catch (error) { h error.message }] *)
Definition tryCatch {S A} (m : M S A) (h : string -> M S A) : M S A :=
  fun s => match m s with
           | (Ok a, s') => (Ok a, s')
           | (Throw e, s') => h e s'
           end.

Definition liftR {S A} (r : result A) : M S A := fun s => (r, s).

Definition gets {S A} (f : S -> A) : M S A := fun s => (Ok (f s), s).

Definition modify {S} (f : S -> S) : M S unit := fun s => (Ok tt, f s).

Global Instance M_ret {S} : MRet (M S) := fun A a => ret a.
Global Instance M_bind {S} : MBind (M S) := fun A B k m => bind m k.

Definition rbind {A B} (r : result A) (k : A -> result B) : result B :=
  match r with
  | Ok a => k a
  | Throw e => Throw e
  end.

(** [try { r } catch (error) { h error.message }] without state *)
Definition rcatch {A} (r : result A) (h : string -> result A) : result A :=
  match r with
  | Ok a => Ok a
  | Throw e => h e
  end.

(** ** JavaScript strings *)

(** JavaScript truthiness of a string: only the empty string is falsy. *)
Definition truthy (s : string) : bool :=
  match s with
  | EmptyString => false
  | String _ _ => true
  end.

(** [s.includes(sub)] *)
Fixpoint includes (sub s : string) : bool :=
  String.prefix sub s ||
  match s with
  | EmptyString => false
  | String _ r => includes sub r
  end.

(** [l.join(sep)] *)
Fixpoint join (sep : string) (l : list string) : string :=
  match l with
  | [] => ""
  | [x] => x
  | x :: r => x ++ sep ++ join sep r
  end.

(** [l.includes(x)] on an array of strings *)
Definition arrayIncludes (l : list string) (x : string) : bool :=
  bool_decide (x ∈ l).

(** ** Buffers *)

Abbreviation bytes := (list byte).

Global Instance byte_eq_decision : EqDecision byte := Byte.byte_eq_dec.

Definition utf8 (s : string) : bytes := list_byte_of_string s.
Definition fromUtf8 (b : bytes) : string := string_of_list_byte b.

Definition bits8 : Type :=
  (bool * (bool * (bool * (bool * (bool * (bool * (bool * bool)))))))%type.

Definition xor8 (x y : bits8) : bits8 :=
  let '(x0, (x1, (x2, (x3, (x4, (x5, (x6, x7))))))) := x in
  let '(y0, (y1, (y2, (y3, (y4, (y5, (y6, y7))))))) := y in
  (xorb x0 y0, (xorb x1 y1, (xorb x2 y2, (xorb x3 y3,
   (xorb x4 y4, (xorb x5 y5, (xorb x6 y6, xorb x7 y7))))))).

Definition bxor (a b : byte) : byte :=
  Byte.of_bits (xor8 (Byte.to_bits a) (Byte.to_bits b)).

(** The byte with only bit [j] set (bit 0 is the least significant one);
    the zero byte when [j] is not a bit position. *)
Definition bitMask (j : nat) : byte :=
  Byte.of_bits (Nat.eqb j 0, (Nat.eqb j 1, (Nat.eqb j 2, (Nat.eqb j 3,
               (Nat.eqb j 4, (Nat.eqb j 5, (Nat.eqb j 6, Nat.eqb j 7))))))).

(** Bytewise exclusive or, truncated to the shorter operand. *)
Fixpoint xorBytes (a b : bytes) : bytes :=
  match a, b with
  | x :: a', y :: b' => bxor x y :: xorBytes a' b'
  | _, _ => []
  end.

(** The buffer [b] with bit [j] of its byte [i] inverted. *)
Definition flipBit (b : bytes) (i j : nat) : bytes :=
  match b !! i with
  | Some x => <[i := bxor x (bitMask j)]> b
  | None => b
  end.

(** *** Hexadecimal encoding: [buf.toString('hex')], [Buffer.from(s, 'hex')] *)

Definition hexDigit (n : N) : ascii :=
  match n with
  | 0%N => "0" | 1%N => "1" | 2%N => "2" | 3%N => "3"
  | 4%N => "4" | 5%N => "5" | 6%N => "6" | 7%N => "7"
  | 8%N => "8" | 9%N => "9" | 10%N => "a" | 11%N => "b"
  | 12%N => "c" | 13%N => "d" | 14%N => "e" | _ => "f"
  end%char.

Definition hexValue (c : ascii) : option N :=
  let n := N_of_ascii c in
  if (48 <=? n)%N && (n <=? 57)%N then Some (n - 48)%N
  else if (97 <=? n)%N && (n <=? 102)%N then Some (n - 87)%N
  else if (65 <=? n)%N && (n <=? 70)%N then Some (n - 55)%N
  else None.

Definition byteOfN (n : N) : byte :=
  match Byte.of_N n with
  | Some b => b
  | None => x00
  end.

Fixpoint toHex (b : bytes) : string :=
  match b with
  | [] => ""
  | x :: r =>
      String (hexDigit (Byte.to_N x / 16)%N)
        (String (hexDigit (Byte.to_N x mod 16)%N) (toHex r))
  end.

(** Decoding stops at the first pair that is not two hexadecimal digits;
    a trailing single character is dropped. *)
Fixpoint fromHex (s : string) : bytes :=
  match s with
  | String c1 (String c2 r) =>
      match hexValue c1, hexValue c2 with
      | Some h, Some l => byteOfN (16 * h + l)%N :: fromHex r
      | _, _ => []
      end
  | _ => []
  end.

(** The line break and the double quote, by their character codes. *)
Definition newline : string := String (ascii_of_nat 10) "".
Definition quote : string := String (ascii_of_nat 34) "".

(** The text of a JSON key: the name between double quotes. *)
Definition quoted (name : string) : string := quote ++ name ++ quote.

(** ** Data model *)

(** The object returned by [encryptField] and stored, as JSON text, in the
    customer document. *)
Module EncryptedField.
Record t : Type := mk {
  encryptedValue : string;
  iv : string;
  authTag : string;
  hash : string
}.
End EncryptedField.

(** The package returned by [encryptWithPublicKey];
    [encryptCustomerFieldsSecure] spreads it and adds [encryptionType]. *)
Module Package.
Record t : Type := mk {
  encryptedData : string;
  iv : string;
  authTag : string;
  encryptedKey : string;
  algorithm : string;
  encryptionType : option string
}.
End Package.

(** The inner payload of the secure envelope. *)
Module Payload.
Record t : Type := mk {
  encryptedFields : gmap string EncryptedField.t;
  tempKey : string;
  algorithm : string
}.
End Payload.

(** [auditLogSchema] *)
Module AuditLog.
Record t : Type := mk {
  logId : string;
  eventType : string;
  actorType : string;
  actorId : string;
  consentId : option string;
  customerId : option string;
  partnerId : option string;
  actionDetails : string;
  metadata : string;
  eventHash : option string;
  previousHash : option string;
  digitalSignature : option string;
  createdAt : Z
}.
End AuditLog.

(** The argument of [logEvent], with its defaults filled in. *)
Module Event.
Record t : Type := mk {
  eventType : string;
  actorType : string;
  actorId : string;
  consentId : option string;
  customerId : option string;
  partnerId : option string;
  actionDetails : string;
  metadata : string
}.
End Event.

(** The object [logEvent] returns. *)
Module MockLog.
Record t : Type := mk {
  logId : string;
  eventType : string;
  actorType : string;
  actorId : string;
  timestamp : string
}.
End MockLog.

(** The object [verifyLogIntegrity] returns. *)
Module Verdict.
Record t : Type := mk {
  valid : bool;
  message : string
}.
End Verdict.

(** [consentSchema]; dates are milliseconds since the epoch. *)
Module Consent.
Record t : Type := mk {
  _id : string;
  consentId : string;
  customerId : string;
  partnerId : string;
  allowedDataFields : list string;
  purpose : string;
  retentionPeriod : Z;
  createdAt : Z;
  updatedAt : Z;
  expiresAt : Z;
  consentDuration : Z;
  status : string;
  contractId : string
}.

Definition setStatus (s : string) (c : t) : t :=
  mk (_id c) (consentId c) (customerId c) (partnerId c)
     (allowedDataFields c) (purpose c) (retentionPeriod c) (createdAt c)
     (updatedAt c) (expiresAt c) (consentDuration c) s (contractId c).

Definition setUpdatedAt (u : Z) (c : t) : t :=
  mk (_id c) (consentId c) (customerId c) (partnerId c)
     (allowedDataFields c) (purpose c) (retentionPeriod c) (createdAt c)
     u (expiresAt c) (consentDuration c) (status c) (contractId c).
End Consent.

(** The paths [updateConsent] collects in [updateData]; [None] is a path
    that is not set. *)
Module UpdateData.
Record t : Type := mk {
  allowedDataFields : option (list string);
  purpose : option string;
  status : option string;
  consentDuration : option Z;
  expiresAt : option Z;
  retentionPeriod : option Z;
  updatedAt : option Z
}.

Definition empty : t := mk None None None None None None None.
End UpdateData.

(** The body of [PUT /api/v1/consents/:consentId]. *)
Module UpdateBody.
Record t : Type := mk {
  allowedDataFields : option (list string);
  purpose : option string;
  retentionPeriod : option Z;
  consentDuration : option Z;
  status : option string
}.
End UpdateBody.

(** [req.user], set by the [protect] middleware. *)
Module User.
Record t : Type := mk {
  _id : string;
  role : string;
  customerId : option string
}.
End User.

(** [partnerSchema]: the paths the consent and disclosure operations read;
    [contractData] is kept as the allowed fields of the approved contract. *)
Module Partner.
Record t : Type := mk {
  partnerId : string;
  status : string;
  approvedContract : bool;
  contractData : option (list string);
  publicKey : option string;
  callbackUrl : option string
}.
End Partner.

(** [dataRequestSchema]; the schema has no [customerId] and no
    [requestedAt] path, so Mongoose drops them on [create]. *)
Module DataRequest.
Record t : Type := mk {
  requestId : string;
  consentId : string;
  partnerId : string;
  requestedFields : list string;
  status : string;
  createdAt : Z
}.
End DataRequest.

(** The body of [POST /api/v1/partners/data-request]. *)
Module RequestBody.
Record t : Type := mk {
  consentId : string;
  requestedFields : list string;
  requestId : option string;
  signature : option string
}.
End RequestBody.

(** What the disclosure response and the push carry as [data]. *)
Inductive DisclosureData : Type :=
| Encrypted (package : Package.t)
| Plain (fields : gmap string string).

(** The [data] of a [customer_data_shared] notification. *)
Module PushData.
Record t : Type := mk {
  consentId : string;
  requestedFields : list string;
  customerData : gmap string string;
  encrypted : bool;
  encryptionMethod : string;
  timestamp : string
}.
End PushData.

(** The [data] of a notification to a partner. *)
Inductive NotificationData : Type :=
| ConsentNotice (consentId customerId status : string)
| DisclosureNotice (data : PushData.t).

(** The request body posted to the callback URL: the secure envelope with
    the notification's [data] less its [customerData], or the notification
    in clear. *)
Inductive PushBody : Type :=
| PushSecure (data : Package.t) (consentId : string)
    (requestedFields : list string) (encrypted : bool)
    (encryptionMethod timestamp : string)
| PushClear (eventType timestamp partnerId : string) (data : NotificationData).

Module Push.
Record t : Type := mk {
  url : string;
  eventType : string;
  body : PushBody
}.
End Push.

Inductive Body : Type :=
| ErrorBody (message : string)
| ConsentBody (consent : Consent.t)
| DisclosureBody (encrypted : bool) (data : DisclosureData) (message : string).

(** What a controller does with [res] and [next]. *)
Inductive Response : Type :=
| Json (status : nat) (body : Body)
| Next (error : string).

(** The database, the clock, the position in the random source and the
    requests sent to partner callbacks. A customer document is the map from
    its paths to their values, by [_id]; the paths of the schema that hold
    text are the ones represented. *)
Module World.
Record t : Type := mk {
  consents : list Consent.t;
  customers : gmap string (gmap string string);
  partners : list Partner.t;
  dataRequests : list DataRequest.t;
  auditLogs : list AuditLog.t;
  pushed : list Push.t;
  now : Z;
  cursor : nat
}.

Definition setConsents (cs : list Consent.t) (w : t) : t :=
  mk cs (customers w) (partners w) (dataRequests w) (auditLogs w)
     (pushed w) (now w) (cursor w).

Definition setDataRequests (ds : list DataRequest.t) (w : t) : t :=
  mk (consents w) (customers w) (partners w) ds (auditLogs w)
     (pushed w) (now w) (cursor w).

Definition setPushed (ps : list Push.t) (w : t) : t :=
  mk (consents w) (customers w) (partners w) (dataRequests w) (auditLogs w)
     ps (now w) (cursor w).

Definition setCursor (c : nat) (w : t) : t :=
  mk (consents w) (customers w) (partners w) (dataRequests w) (auditLogs w)
     (pushed w) (now w) c.
End World.

(** Code that only draws random bytes, run inside a request. *)
Definition liftRng {A} (m : M nat A) : M World.t A :=
  fun w => let '(r, c) := m (World.cursor w) in (r, World.setCursor c w).

(** [customerSchema]: a path that holds [null], or is not set, is
    [None]. *)
Module CustomerDoc.
Record t : Type := mk {
  _id : string;
  encryptedPhone : option string;
  encryptedEmail : option string;
  encryptedPan : option string;
  encryptedAddress : option string;
  encryptedName : option string;
  phoneHash : option string;
  emailHash : option string;
  panHash : option string;
  createdAt : Z;
  updatedAt : Z;
  isActive : bool
}.
End CustomerDoc.

(** The body of [POST /api/v1/customers] and of
    [PUT /api/v1/customers/:customerId]; [None] is [undefined]. *)
Module CustomerBody.
Record t : Type := mk {
  phone : option string;
  email : option string;
  pan : option string;
  address : option string;
  name : option string;
  isActive : option bool
}.
End CustomerBody.

(** The object [decryptCustomerData] returns. *)
Module DecryptedCustomer.
Record t : Type := mk {
  _id : string;
  createdAt : Z;
  updatedAt : Z;
  isActive : bool;
  phone : option string;
  email : option string;
  pan : option string;
  address : option string;
  name : option string
}.
End DecryptedCustomer.

(** [partner.contractData]; a path that is not set is [None]. *)
Module ContractData.
Record t : Type := mk {
  allowedDataFields : list string;
  purpose : option string;
  retentionPeriod : option Z;
  legalBasis : option string;
  contractText : option string;
  contractId : option string;
  version : Z
}.
End ContractData.

(** [partnerSchema]: the paths that authentication, consent creation and
    disclosure read. *)
Module PartnerDoc.
Record t : Type := mk {
  _id : string;
  partnerId : string;
  partnerName : string;
  publicKey : option string;
  apiTokenHash : option string;
  callbackUrl : option string;
  status : string;
  approvedContract : bool;
  contractData : option ContractData.t
}.

(** The partner as the consent and disclosure operations see it. *)
Definition view (p : t) : Partner.t :=
  {| Partner.partnerId := partnerId p;
     Partner.status := status p;
     Partner.approvedContract := approvedContract p;
     Partner.contractData :=
       ContractData.allowedDataFields <$> contractData p;
     Partner.publicKey := publicKey p;
     Partner.callbackUrl := callbackUrl p |}.
End PartnerDoc.

(** The body of [POST /api/v1/consents]: the paths that reach the
    consent document as it is represented. *)
Module ConsentBody.
Record t : Type := mk {
  customerId : option string;
  partnerId : option string;
  consentDuration : option Z
}.
End ConsentBody.

(** What a handler does with [res] and [next] when its data are of type
    [A]. *)
Inductive Answer (A : Type) : Type :=
| Sent (status : nat) (data : A)
| Refused (status : nat) (message : string)
| Passed (error : string).
Arguments Sent {A} status data.
Arguments Refused {A} status message.
Arguments Passed {A} error.

(** What [partnerProtect] does: it sets [req.partner] and calls [next()],
    or calls [next] with an error of status 401. *)
Inductive Authentication : Type :=
| Authenticated (partner : PartnerDoc.t)
| Unauthorized (message : string).

(** The whole database: the customer and partner documents in full, and
    what [World] holds besides. *)
Module Registry.
Record t : Type := mk {
  customers : gmap string CustomerDoc.t;
  partners : list PartnerDoc.t;
  consents : list Consent.t;
  dataRequests : list DataRequest.t;
  auditLogs : list AuditLog.t;
  pushed : list Push.t;
  now : Z;
  cursor : nat
}.

Definition setCustomers (cs : gmap string CustomerDoc.t) (r : t) : t :=
  mk cs (partners r) (consents r) (dataRequests r) (auditLogs r)
     (pushed r) (now r) (cursor r).

Definition setConsents (cs : list Consent.t) (r : t) : t :=
  mk (customers r) (partners r) cs (dataRequests r) (auditLogs r)
     (pushed r) (now r) (cursor r).

Definition setCursor (c : nat) (r : t) : t :=
  mk (customers r) (partners r) (consents r) (dataRequests r) (auditLogs r)
     (pushed r) (now r) c.
End Registry.

(** The text paths of a customer document, which is how [World]
    represents it. *)
Definition putPath (name : string) (value : option string)
    (m : gmap string string) : gmap string string :=
  match value with
  | Some v => <[name := v]> m
  | None => m
  end.

Definition pathsOf (doc : CustomerDoc.t) : gmap string string :=
  putPath "encryptedPhone" (CustomerDoc.encryptedPhone doc)
    (putPath "encryptedEmail" (CustomerDoc.encryptedEmail doc)
       (putPath "encryptedPan" (CustomerDoc.encryptedPan doc)
          (putPath "encryptedAddress" (CustomerDoc.encryptedAddress doc)
             (putPath "encryptedName" (CustomerDoc.encryptedName doc)
                (putPath "phoneHash" (CustomerDoc.phoneHash doc)
                   (putPath "emailHash" (CustomerDoc.emailHash doc)
                      (putPath "panHash" (CustomerDoc.panHash doc)
                         (<["_id" := CustomerDoc._id doc]> ∅)))))))).

(** The database as the consent and disclosure operations see it, and
    the database after one of them has run. *)
Definition worldOf (r : Registry.t) : World.t :=
  {| World.consents := Registry.consents r;
     World.customers := pathsOf <$> Registry.customers r;
     World.partners := PartnerDoc.view <$> Registry.partners r;
     World.dataRequests := Registry.dataRequests r;
     World.auditLogs := Registry.auditLogs r;
     World.pushed := Registry.pushed r;
     World.now := Registry.now r;
     World.cursor := Registry.cursor r |}.

Definition absorb (w : World.t) (r : Registry.t) : Registry.t :=
  {| Registry.customers := Registry.customers r;
     Registry.partners := Registry.partners r;
     Registry.consents := World.consents w;
     Registry.dataRequests := World.dataRequests w;
     Registry.auditLogs := World.auditLogs w;
     Registry.pushed := World.pushed w;
     Registry.now := World.now w;
     Registry.cursor := World.cursor w |}.

Definition inWorld {A} (m : M World.t A) : M Registry.t A :=
  fun r => let '(a, w) := m (worldOf r) in (a, absorb w r).


(** ** A small instance of the parameters

    Executable stand-ins for the primitives, used to run the services on
    concrete inputs: a constant key stream, the ciphertext as its own tag,
    the identity as RSA, hexadecimal text as base64, and the binary digits
    of stdpp's [encode] as JSON text. *)
Module Toy.

Global Instance encryptedField_eq_dec : EqDecision EncryptedField.t.
Proof. solve_decision. Defined.

Global Instance encryptedField_countable : Countable EncryptedField.t.
Proof.
  refine (inj_countable'
    (fun e => (EncryptedField.encryptedValue e, EncryptedField.iv e,
               EncryptedField.authTag e, EncryptedField.hash e))
    (fun '(a, b, c, d) => EncryptedField.mk a b c d) _).
  by intros [].
Defined.

Global Instance payload_eq_dec : EqDecision Payload.t.
Proof. solve_decision. Defined.

Global Instance payload_countable : Countable Payload.t.
Proof.
  refine (inj_countable'
    (fun p => (Payload.encryptedFields p, Payload.tempKey p,
               Payload.algorithm p))
    (fun '(a, b, c) => Payload.mk a b c) _).
  by intros [].
Defined.

Fixpoint digits (p : positive) : string :=
  match p with
  | xH => ""
  | xO q => String "0" (digits q)
  | xI q => String "1" (digits q)
  end.

Fixpoint ofDigits (s : string) : option positive :=
  match s with
  | EmptyString => Some xH
  | String c r =>
      match ofDigits r with
      | Some q =>
          if Ascii.eqb c "0" then Some (xO q)
          else if Ascii.eqb c "1" then Some (xI q)
          else None
      | None => None
      end
  end.

Definition stringify {A} `{Countable A} (a : A) : string :=
  digits (encode a).

Definition parse {A} `{Countable A} (s : string) : result A :=
  match ofDigits s ≫= decode with
  | Some a => Ok a
  | None => Throw "Unexpected token in JSON"
  end.

Definition entropy (n : nat) : byte := byteOfN (N.of_nat n mod 256).

Definition gcm_keystream (key iv : bytes) (n : nat) : bytes :=
  repeat (hd x00 key) n.

Definition gcm_tag (key iv ciphertext : bytes) : bytes := ciphertext.

Definition sha256 (b : bytes) : bytes := b.

Definition rsa_oaep_encrypt (pub : string) (seed m : bytes) : result bytes :=
  Ok m.

Definition rsa_oaep_decrypt (priv : string) (c : bytes) : result bytes :=
  Ok c.

Definition rsa_keypair (pub priv : string) : Prop := True.

Definition rsa_sign (priv : string) (h : bytes) : bytes := h.

Definition rsa_verify (pub : string) (h s : bytes) : result bool :=
  Ok (bool_decide (s = h)).

Definition stringifySignaturePayload (requestId consentId : string)
    (requestedFields : list string) : string :=
  requestId ++ consentId ++ join "," requestedFields.

Definition toISOString (t : Z) : string := pretty t.

Definition addDays (t n : Z) : Z := (t + n * 86400000)%Z.

Definition minDuration : option Z := Some 3600000%Z.

Definition requiredArrayOk (l : list string) : bool := true.

Definition uuidText (b : bytes) : string := toHex b.

(** *** Sample data *)

(** An active consent of customer [cust1] for partner [p1], valid until
    time 5000000. *)
Definition consent : Consent.t :=
  {| Consent._id := "64b7f0";
     Consent.consentId := "c1";
     Consent.customerId := "cust1";
     Consent.partnerId := "p1";
     Consent.allowedDataFields := ["phone"; "email"];
     Consent.purpose := "kyc";
     Consent.retentionPeriod := 30;
     Consent.createdAt := 1000;
     Consent.updatedAt := 1000;
     Consent.expiresAt := 5000000;
     Consent.consentDuration := 3600000;
     Consent.status := "active";
     Consent.contractId := "k1" |}.

Definition revokedConsent : Consent.t := Consent.setStatus "revoked" consent.

Definition partner : Partner.t :=
  {| Partner.partnerId := "p1";
     Partner.status := "active";
     Partner.approvedContract := true;
     Partner.contractData := Some ["phone"; "email"];
     Partner.publicKey := Some "pk";
     Partner.callbackUrl := Some "https://partner.example/hook" |}.

(** The customer document holds no phone and no email. *)
Definition customer : gmap string string :=
  {[ "_id" := "cust1"; "panHash" := "9f86d0" ]}.

Definition world (consents : list Consent.t) (now : Z) : World.t :=
  {| World.consents := consents;
     World.customers := {[ "cust1" := customer ]};
     World.partners := [partner];
     World.dataRequests := [];
     World.auditLogs := [];
     World.pushed := [];
     World.now := now;
     World.cursor := 0 |}.

Definition request (requestedFields : list string) : RequestBody.t :=
  {| RequestBody.consentId := "c1";
     RequestBody.requestedFields := requestedFields;
     RequestBody.requestId := Some "r1";
     RequestBody.signature := None |}.

Definition admin : User.t :=
  {| User._id := "u1"; User.role := "admin"; User.customerId := None |}.

(** A customer who does not own the consent. *)
Definition stranger : User.t :=
  {| User._id := "u2"; User.role := "customer";
     User.customerId := Some "cust2" |}.

(** Two logs: the second is linked to the first and carries, as its
    signature, the hexadecimal text of its hash, which is what the
    instance accepts; the signature of the first is not that of its
    hash. *)
Definition firstLog : AuditLog.t :=
  {| AuditLog.logId := "a1";
     AuditLog.eventType := "consent_created";
     AuditLog.actorType := "admin";
     AuditLog.actorId := "u1";
     AuditLog.consentId := Some "c1";
     AuditLog.customerId := Some "cust1";
     AuditLog.partnerId := Some "p1";
     AuditLog.actionDetails := "";
     AuditLog.metadata := "";
     AuditLog.eventHash := Some "h1";
     AuditLog.previousHash := None;
     AuditLog.digitalSignature := Some "00";
     AuditLog.createdAt := 1000 |}.

Definition secondLog : AuditLog.t :=
  {| AuditLog.logId := "a2";
     AuditLog.eventType := "data_request";
     AuditLog.actorType := "partner";
     AuditLog.actorId := "p1";
     AuditLog.consentId := Some "c1";
     AuditLog.customerId := Some "cust1";
     AuditLog.partnerId := Some "p1";
     AuditLog.actionDetails := "";
     AuditLog.metadata := "";
     AuditLog.eventHash := Some "h2";
     AuditLog.previousHash := Some "h1";
     AuditLog.digitalSignature := Some "6832";
     AuditLog.createdAt := 2000 |}.

(** *** The text of an encrypted field *)

(** The text [JSON.stringify] gives for an encrypted field names its keys;
    the instance writes the three keys before the digits of the field. *)
Definition fieldKeys : string :=
  quoted "encryptedValue" ++ quoted "iv" ++ quoted "authTag".

Fixpoint stripPrefix (p s : string) : option string :=
  match p with
  | EmptyString => Some s
  | String a p' =>
      match s with
      | String b s' => if Ascii.eqb a b then stripPrefix p' s' else None
      | EmptyString => None
      end
  end.

Definition stringifyField (e : EncryptedField.t) : string :=
  fieldKeys ++ stringify e.

Definition parseField (s : string) : result EncryptedField.t :=
  match stripPrefix fieldKeys s with
  | Some rest => parse rest
  | None => Throw "Unexpected token in JSON"
  end.

(** *** More sample data *)

(** Partner [p1] without a public key. *)
Definition keylessPartner : Partner.t :=
  {| Partner.partnerId := "p1";
     Partner.status := "active";
     Partner.approvedContract := true;
     Partner.contractData := Some ["phone"; "email"];
     Partner.publicKey := None;
     Partner.callbackUrl := Some "https://partner.example/hook" |}.

(** A customer document that holds an email in clear. *)
Definition customerWithEmail : gmap string string :=
  {[ "_id" := "cust1"; "email" := "alice@example.com" ]}.

Definition worldWith (customer : gmap string string)
    (consents : list Consent.t) (now : Z) : World.t :=
  {| World.consents := consents;
     World.customers := {[ "cust1" := customer ]};
     World.partners := [partner];
     World.dataRequests := [];
     World.auditLogs := [];
     World.pushed := [];
     World.now := now;
     World.cursor := 0 |}.

(** A third log, which is not linked to the second. *)
Definition thirdLog : AuditLog.t :=
  {| AuditLog.logId := "a3";
     AuditLog.eventType := "consent_revoked";
     AuditLog.actorType := "admin";
     AuditLog.actorId := "u1";
     AuditLog.consentId := Some "c1";
     AuditLog.customerId := Some "cust1";
     AuditLog.partnerId := Some "p1";
     AuditLog.actionDetails := "";
     AuditLog.metadata := "";
     AuditLog.eventHash := Some "h3";
     AuditLog.previousHash := Some "h0";
     AuditLog.digitalSignature := Some "6833";
     AuditLog.createdAt := 3000 |}.

Definition worldOfLogs (logs : list AuditLog.t) : World.t :=
  {| World.consents := [];
     World.customers := ∅;
     World.partners := [];
     World.dataRequests := [];
     World.auditLogs := logs;
     World.pushed := [];
     World.now := 4000;
     World.cursor := 0 |}.

(** The body of a request that creates a customer with an email and a
    name. *)
Definition customerBody : CustomerBody.t :=
  {| CustomerBody.phone := None;
     CustomerBody.email := Some "alice@example.com";
     CustomerBody.pan := None;
     CustomerBody.address := None;
     CustomerBody.name := Some "Alice";
     CustomerBody.isActive := None |}.

Definition contract : ContractData.t :=
  {| ContractData.allowedDataFields := ["phone"; "email"];
     ContractData.purpose := Some "kyc";
     ContractData.retentionPeriod := Some 30%Z;
     ContractData.legalBasis := Some "consent";
     ContractData.contractText := Some "terms";
     ContractData.contractId := Some "k1";
     ContractData.version := 1 |}.

(** The document of partner [p1]; its token is the 32 bytes drawn at
    position 0, and, the instance's digest being the identity, the digest
    stored is the hexadecimal text of the token's bytes. *)
Definition partnerDoc : PartnerDoc.t :=
  {| PartnerDoc._id := "64b7f1";
     PartnerDoc.partnerId := "p1";
     PartnerDoc.partnerName := "Partner One";
     PartnerDoc.publicKey := Some "pk";
     PartnerDoc.apiTokenHash :=
       Some (toHex (utf8 (toHex (map entropy (seq 0 32)))));
     PartnerDoc.callbackUrl := Some "https://partner.example/hook";
     PartnerDoc.status := "active";
     PartnerDoc.approvedContract := true;
     PartnerDoc.contractData := Some contract |}.

Definition registry (customers : gmap string CustomerDoc.t)
    (consents : list Consent.t) (now : Z) : Registry.t :=
  {| Registry.customers := customers;
     Registry.partners := [partnerDoc];
     Registry.consents := consents;
     Registry.dataRequests := [];
     Registry.auditLogs := [];
     Registry.pushed := [];
     Registry.now := now;
     Registry.cursor := 0 |}.

Definition consentBody : ConsentBody.t :=
  {| ConsentBody.customerId := Some "cust1";
     ConsentBody.partnerId := Some "p1";
     ConsentBody.consentDuration := Some 7200000%Z |}.


(** A customer document with no field but its identifier. *)
Definition customerDoc : CustomerDoc.t :=
  {| CustomerDoc._id := "cust1";
     CustomerDoc.encryptedPhone := None;
     CustomerDoc.encryptedEmail := None;
     CustomerDoc.encryptedPan := None;
     CustomerDoc.encryptedAddress := None;
     CustomerDoc.encryptedName := None;
     CustomerDoc.phoneHash := None;
     CustomerDoc.emailHash := None;
     CustomerDoc.panHash := None;
     CustomerDoc.createdAt := 1000;
     CustomerDoc.updatedAt := 1000;
     CustomerDoc.isActive := true |}.

(** A payload whose only field carries a tag that is not the tag of its
    ciphertext, and the hybrid package of the text ["{}"] for key [pk] at
    position 0 of the random source. *)
Definition badPayload : Payload.t :=
  {| Payload.encryptedFields :=
       {[ "name" := {| EncryptedField.encryptedValue := "01";
                       EncryptedField.iv := "0a";
                       EncryptedField.authTag := "00";
                       EncryptedField.hash := "61" |} ]};
     Payload.tempKey :=
       "000102030405060708090a0b0c0d0e0f101112131415161718191a1b1c1d1e1f";
     Payload.algorithm := "AES-256-GCM-TEMP-KEY" |}.

Definition badEnvelope : Package.t :=
  {| Package.encryptedData := "7b7d";
     Package.iv := "202122232425262728292a2b2c2d2e2f";
     Package.authTag := "7b7d";
     Package.encryptedKey :=
       "000102030405060708090a0b0c0d0e0f101112131415161718191a1b1c1d1e1f";
     Package.algorithm := "RSA-OAEP-SHA256+AES-256-GCM";
     Package.encryptionType := None |}.


End Toy.

Section SecureShare.

#[local] Set Default Proof Using "Type".

(** ** Parameters: Node's [crypto], base64, [JSON], [uuid] and [Date] *)

(** The operating system's random source, as the stream of its bytes. *)
Variable entropy : nat -> byte.

(** AES-256-GCM without additional data: the key stream of the counter
    mode for a key and an IV, and the authentication tag of a
    ciphertext. *)
Variable gcm_keystream : bytes -> bytes -> nat -> bytes.
Variable gcm_tag : bytes -> bytes -> bytes -> bytes.

Variable sha256 : bytes -> bytes.

(** RSA-OAEP with SHA-256: [publicEncrypt] of a message under a PEM
    public key with the padding's random seed, and [privateDecrypt]. *)
Variable rsa_oaep_encrypt : string -> bytes -> bytes -> result bytes.
Variable rsa_oaep_decrypt : string -> bytes -> result bytes.
(** [rsa_keypair pub priv]: the PEM texts are the two halves of one key. *)
Variable rsa_keypair : string -> string -> Prop.

(** [crypto.sign] and [crypto.verify] with ['rsa-sha256']. *)
Variable rsa_sign : string -> bytes -> bytes.
Variable rsa_verify : string -> bytes -> bytes -> result bool.

Variable toBase64 : bytes -> string.
Variable fromBase64 : string -> bytes.

(** [JSON.stringify] and [JSON.parse] at the types the services use
    them; parsing fails on a text that is not the JSON of such a value. *)
Variable stringifyPayload : Payload.t -> string.
Variable parsePayload : string -> result Payload.t.
Variable parseEncryptedField : string -> result EncryptedField.t.
Variable stringifyFields : gmap string string -> string.
Variable stringifySignaturePayload : string -> string -> list string -> string.

(** The text of a version-4 UUID made from 16 random bytes. *)
Variable uuidText : bytes -> string.
Variable toISOString : Z -> string.
(** [d.setDate(d.getDate() + n)] in the server's time zone. *)
Variable addDays : Z -> Z -> Z.

(** [parseInt(process.env.MIN_CONSENT_DURATION_MS)]; [None] is [NaN]. *)
Variable minDuration : option Z.
(** Mongoose's [required] validator on the array path
    [allowedDataFields]. *)
Variable requiredArrayOk : list string -> bool.
(** The text of [minDuration / (60 * 60 * 1000)]. *)
Variable minHoursText : string.

(** ** The random source *)

(** The [n] bytes of the random source from position [c] on. *)
Definition drawn (c n : nat) : bytes := map entropy (seq c n).

(** [crypto.randomBytes(n)] *)
Definition randomBytes (n : nat) : M nat bytes :=
  fun c => (Ok (drawn c n), c + n).

(** [uuidv4()] *)
Definition uuidv4 : M nat string :=
  b ← randomBytes 16; mret (uuidText b).

(** ** AES-256-GCM *)

(** [crypto.createCipheriv('aes-256-gcm', key, iv)] and
    [createDecipheriv]: the key must be 32 bytes and the IV not empty. *)
Definition createCipheriv (key iv : bytes) : result (bytes * bytes) :=
  if negb (Nat.eqb (length key) 32) then Throw "Invalid key length"
  else if Nat.eqb (length iv) 0 then Throw "Invalid initialization vector"
  else Ok (key, iv).

(** [cipher.update(plaintext) + cipher.final()], then [getAuthTag()] *)
Definition gcmEncrypt (cipher : bytes * bytes) (plaintext : bytes)
  : bytes * bytes :=
  let '(key, iv) := cipher in
  let encrypted :=
    xorBytes plaintext (gcm_keystream key iv (length plaintext)) in
  (encrypted, gcm_tag key iv encrypted).

(** [setAuthTag(tag)], [decipher.update(ciphertext) + decipher.final()]:
    [final] throws unless the tag is the one of the ciphertext. *)
Definition gcmDecrypt (decipher : bytes * bytes) (authTag ciphertext : bytes)
  : result bytes :=
  let '(key, iv) := decipher in
  if bool_decide (authTag = gcm_tag key iv ciphertext)
  then Ok (xorBytes ciphertext (gcm_keystream key iv (length ciphertext)))
  else Throw "Unsupported state or unable to authenticate data".

(** ** [EncryptionService] (backend/utils/encryptionService.js) *)

Record EncryptionService : Type := { key : bytes }.

(** The constructor; [ENCRYPTION_KEY] is [process.env.ENCRYPTION_KEY]. *)
Definition newEncryptionService (ENCRYPTION_KEY : option string)
  : result EncryptionService :=
  match ENCRYPTION_KEY with
  | None => Throw "The first argument must be of type string"
  | Some k =>
      if negb (Nat.eqb (length (utf8 k)) 32)
      then Throw "Encryption key must be 32 bytes (256 bits)"
      else Ok {| key := utf8 k |}
  end.

Definition encryptField (this : EncryptionService) (plaintext : string)
  : M nat EncryptedField.t :=
  iv ← randomBytes 16;
  cipher ← liftR (createCipheriv (key this) iv);
  let '(encrypted, authTag) := gcmEncrypt cipher (utf8 plaintext) in
  let hash := toHex (sha256 (utf8 plaintext)) in
  mret {| EncryptedField.encryptedValue := toHex encrypted;
          EncryptedField.iv := toHex iv;
          EncryptedField.authTag := toHex authTag;
          EncryptedField.hash := hash |}.

Definition decryptField (this : EncryptionService)
    (encryptedData : EncryptedField.t) : result string :=
  rcatch
    (rbind (createCipheriv (key this)
              (fromHex (EncryptedField.iv encryptedData)))
       (fun decipher =>
          rbind (gcmDecrypt decipher
                   (fromHex (EncryptedField.authTag encryptedData))
                   (fromHex (EncryptedField.encryptedValue encryptedData)))
            (fun decrypted => Ok (fromUtf8 decrypted))))
    (fun _ => Throw "Failed to decrypt data").

Definition pemHeader : string := "-----BEGIN PUBLIC KEY-----".
Definition pemFooter : string := "-----END PUBLIC KEY-----".

(** The PEM text [encryptWithPublicKey] hands to [publicEncrypt]. *)
Definition toPem (publicKeyString : string) : string :=
  if includes pemHeader publicKeyString then publicKeyString
  else pemHeader ++ newline ++ publicKeyString ++ newline ++ pemFooter.

Definition hybridAlgorithm : string := "RSA-OAEP-SHA256+AES-256-GCM".

Definition encryptWithPublicKey (data publicKeyString : string)
  : M nat Package.t :=
  tryCatch
    (let publicKey := toPem publicKeyString in
     aesKey ← randomBytes 32;
     iv ← randomBytes 16;
     cipher ← liftR (createCipheriv aesKey iv);
     let '(encryptedData, authTag) := gcmEncrypt cipher (utf8 data) in
     seed ← randomBytes 32;
     encryptedKey ← liftR (rsa_oaep_encrypt publicKey seed aesKey);
     mret {| Package.encryptedData := toBase64 encryptedData;
             Package.iv := toBase64 iv;
             Package.authTag := toBase64 authTag;
             Package.encryptedKey := toBase64 encryptedKey;
             Package.algorithm := hybridAlgorithm;
             Package.encryptionType := None |})
    (fun _ => throw "Failed to encrypt data with public key").

(** The body of the loop of [encryptCustomerFieldsSecure] for one entry
    of [customerData]: a falsy value is skipped. *)
Definition encryptEntry (tempAesKey tempIv : bytes)
    (fieldName fieldValue : string)
    (encryptedFields : result (gmap string EncryptedField.t))
  : result (gmap string EncryptedField.t) :=
  rbind encryptedFields (fun fields =>
    if truthy fieldValue then
      rbind (createCipheriv tempAesKey tempIv) (fun cipher =>
        let '(encrypted, authTag) := gcmEncrypt cipher (utf8 fieldValue) in
        Ok (<[fieldName :=
               {| EncryptedField.encryptedValue := toHex encrypted;
                  EncryptedField.iv := toHex tempIv;
                  EncryptedField.authTag := toHex authTag;
                  EncryptedField.hash := toHex (sha256 (utf8 fieldValue)) |}]>
              fields))
    else Ok fields).

Definition secureAlgorithm : string := "AES-256-GCM-TEMP-KEY".
Definition secureType : string := "secure-temporary-key".

Definition encryptCustomerFieldsSecure
    (customerData : gmap string string) (partnerPublicKey : string)
  : M nat Package.t :=
  tryCatch
    (tempAesKey ← randomBytes 32;
     tempIv ← randomBytes 16;
     encryptedFields ←
       liftR (map_fold (encryptEntry tempAesKey tempIv) (Ok ∅) customerData);
     let payload :=
       {| Payload.encryptedFields := encryptedFields;
          Payload.tempKey := toBase64 tempAesKey;
          Payload.algorithm := secureAlgorithm |} in
     encryptedPayload ←
       encryptWithPublicKey (stringifyPayload payload) partnerPublicKey;
     mret {| Package.encryptedData := Package.encryptedData encryptedPayload;
             Package.iv := Package.iv encryptedPayload;
             Package.authTag := Package.authTag encryptedPayload;
             Package.encryptedKey := Package.encryptedKey encryptedPayload;
             Package.algorithm := Package.algorithm encryptedPayload;
             Package.encryptionType := Some secureType |})
    (fun _ => throw "Failed to encrypt customer data securely").

(** ** [DecryptionService] (partner-backend/decryptionService.js) *)

Record DecryptionService : Type := { privateKey : option string }.

(** [decryptHybridData]; [parse] is [JSON.parse] at the type the caller
    expects. *)
Definition decryptHybridData {A} (parse : string -> result A)
    (this : DecryptionService) (encryptedResponse : Package.t) : result A :=
  match privateKey this with
  | None => Throw "Private key not available for decryption"
  | Some priv =>
      rcatch
        (let algorithm := Package.algorithm encryptedResponse in
         if bool_decide (algorithm = hybridAlgorithm) then
           rbind (rsa_oaep_decrypt priv
                    (fromBase64 (Package.encryptedKey encryptedResponse)))
             (fun aesKey =>
                rbind (createCipheriv aesKey
                         (fromBase64 (Package.iv encryptedResponse)))
                  (fun decipher =>
                     rbind (gcmDecrypt decipher
                              (fromBase64 (Package.authTag encryptedResponse))
                              (fromBase64
                                 (Package.encryptedData encryptedResponse)))
                       (fun decrypted => parse (fromUtf8 decrypted))))
         else if bool_decide (algorithm = "RSA-OAEP-SHA256") then
           rbind (rsa_oaep_decrypt priv
                    (fromBase64 (Package.encryptedData encryptedResponse)))
             (fun decryptedBuffer => parse (fromUtf8 decryptedBuffer))
         else Throw ("Unsupported encryption algorithm: " ++ algorithm))
        (fun message => Throw ("Failed to decrypt data: " ++ message))
  end.

(** The body of the loop of [decryptSecureData] for one encrypted field:
    a field that fails to decrypt is replaced by a marker text. *)
Definition decryptEntry (tempAesKey : bytes)
    (fieldName : string) (encryptedField : EncryptedField.t)
    (decryptedCustomerData : gmap string string) : gmap string string :=
  match
    rbind (createCipheriv tempAesKey
             (fromHex (EncryptedField.iv encryptedField)))
      (fun decipher =>
         rbind (gcmDecrypt decipher
                  (fromHex (EncryptedField.authTag encryptedField))
                  (fromHex (EncryptedField.encryptedValue encryptedField)))
           (fun decrypted => Ok (fromUtf8 decrypted)))
  with
  | Ok decrypted => <[fieldName := decrypted]> decryptedCustomerData
  | Throw message =>
      <[fieldName := "[DECRYPTION_FAILED: " ++ message ++ "]"]>
        decryptedCustomerData
  end.

Definition decryptSecureData (this : DecryptionService)
    (encryptedResponse : Package.t) : result (gmap string string) :=
  match privateKey this with
  | None => Throw "Private key not available for decryption"
  | Some _ =>
      rcatch
        (rbind (decryptHybridData parsePayload this encryptedResponse)
           (fun decryptedPayload =>
              if negb (bool_decide
                         (Payload.algorithm decryptedPayload = secureAlgorithm))
              then Throw ("Unsupported secure algorithm: " ++
                          Payload.algorithm decryptedPayload)
              else
                let tempAesKey :=
                  fromBase64 (Payload.tempKey decryptedPayload) in
                Ok (map_fold (decryptEntry tempAesKey) ∅
                      (Payload.encryptedFields decryptedPayload))))
        (fun message => Throw ("Failed to decrypt secure data: " ++ message))
  end.

(** ** [SignatureService] (backend/utils/signatureService.js) *)

Record SignatureService : Type := {
  signingPrivateKey : option string;
  signingPublicKey : option string
}.

Definition signData (this : SignatureService) (data : string)
  : result string :=
  match signingPrivateKey this with
  | None => Throw "Private key not available"
  | Some priv => Ok (toBase64 (rsa_sign priv (sha256 (utf8 data))))
  end.

(** [verifySignature(data, signature, publicKey)]; an argument that is
    [undefined] is [None]. Hashing [undefined], decoding [undefined] and
    verifying without a key all throw. *)
Definition verifySignature (this : SignatureService)
    (data signature publicKey : option string) : result bool :=
  match data with
  | None => Throw "The data argument must be of type string"
  | Some dataString =>
      let hash := sha256 (utf8 dataString) in
      let key :=
        match publicKey with
        | Some k => if truthy k then Some k else signingPublicKey this
        | None => signingPublicKey this
        end in
      match signature with
      | None => Throw "The first argument must be of type string"
      | Some sig =>
          match key with
          | None => Throw "The key argument must be of type string"
          | Some k => rsa_verify k hash (fromBase64 sig)
          end
      end
  end.

(** ** [AuditService] (backend/utils/auditService.js) *)

(** [logEvent] writes the event to the console and returns a mock entry;
    the console is not part of the state. *)
Definition logEvent (event : Event.t) : M World.t MockLog.t :=
  now ← gets World.now;
  logId ← liftRng uuidv4;
  mret {| MockLog.logId := logId;
          MockLog.eventType := Event.eventType event;
          MockLog.actorType := Event.actorType event;
          MockLog.actorId := Event.actorId event;
          MockLog.timestamp := toISOString now |}.

(** Insertion of a log into a list sorted by [createdAt]; logs of equal
    date keep the order of the collection. *)
Fixpoint insertByCreatedAt (x : AuditLog.t) (l : list AuditLog.t)
  : list AuditLog.t :=
  match l with
  | [] => [x]
  | y :: r =>
      if (AuditLog.createdAt x <=? AuditLog.createdAt y)%Z then x :: y :: r
      else y :: insertByCreatedAt x r
  end.

(** [AuditLog.find({ logId: { $gte: startId, $lte: endId } })
    .sort({ createdAt: 1 })] *)
Definition findLogs (startId endId : string) (logs : list AuditLog.t)
  : list AuditLog.t :=
  foldr insertByCreatedAt []
    (filter (fun l => String.leb startId (AuditLog.logId l) = true
                      /\ String.leb (AuditLog.logId l) endId = true) logs).

(** The loop of [verifyLogIntegrity] from index [i] on, where
    [previousLog] is [logs[i - 1]] and [rest] is [logs.slice(i)]. *)
Fixpoint verifyFrom (signer : SignatureService) (previousLog : AuditLog.t)
    (rest : list AuditLog.t) : result Verdict.t :=
  match rest with
  | [] => Ok {| Verdict.valid := true;
                Verdict.message := "Log chain integrity verified" |}
  | currentLog :: rest' =>
      if negb (bool_decide (AuditLog.previousHash currentLog
                            = AuditLog.eventHash previousLog))
      then Ok {| Verdict.valid := false;
                 Verdict.message :=
                   "Chain broken between logs " ++ AuditLog.logId previousLog
                   ++ " and " ++ AuditLog.logId currentLog |}
      else
        rbind (verifySignature signer (AuditLog.eventHash currentLog)
                 (AuditLog.digitalSignature currentLog) None)
          (fun isSignatureValid =>
             if negb isSignatureValid
             then Ok {| Verdict.valid := false;
                        Verdict.message :=
                          "Invalid signature for log "
                          ++ AuditLog.logId currentLog |}
             else verifyFrom signer currentLog rest')
  end.

(** [verifyLogIntegrity] on the logs the query returned. *)
Definition verifyLogs (signer : SignatureService) (logs : list AuditLog.t)
  : result Verdict.t :=
  rcatch
    (match logs with
     | [] => Ok {| Verdict.valid := true;
                   Verdict.message := "No logs to verify" |}
     | firstLog :: rest => verifyFrom signer firstLog rest
     end)
    (fun _ => Throw "Failed to verify log integrity").

Definition verifyLogIntegrity (signer : SignatureService)
    (startId endId : string) : M World.t Verdict.t :=
  logs ← gets (fun w => findLogs startId endId (World.auditLogs w));
  liftR (verifyLogs signer logs).

(** ** [notificationService] (backend/utils/notificationService.js) *)

Definition systemEvent (eventType partnerId : string) : Event.t :=
  {| Event.eventType := eventType;
     Event.actorType := "system";
     Event.actorId := "system";
     Event.consentId := None;
     Event.customerId := None;
     Event.partnerId := Some partnerId;
     Event.actionDetails := "";
     Event.metadata := "" |}.

(** [fetch(callbackUrl, { method: 'POST', body })]: the request is
    recorded; the partner's answer only reaches the console and the
    value the callers discard. *)
Definition post (url eventType : string) (body : PushBody)
  : M World.t unit :=
  modify (fun w =>
    World.setPushed
      (World.pushed w ++ [{| Push.url := url;
                             Push.eventType := eventType;
                             Push.body := body |}])%list w).

(** [notifyPartner]; [callbackUrl] is [None] when the partner has
    none. *)
Definition notifyPartner (partnerId : string) (callbackUrl : option string)
    (eventType : string) (data : NotificationData) : M World.t unit :=
  match callbackUrl with
  | None => mret tt
  | Some url =>
      if negb (truthy url) then mret tt
      else
        now ← gets World.now;
        post url eventType
          (PushClear eventType (toISOString now) partnerId data);;
        logEvent (systemEvent "partner_notification_sent" partnerId);;
        mret tt
  end.

(** [notifyPartnerContractStatus] for the notification of a disclosure.
    [data.customerData] is an object, hence truthy, so that of the two
    encrypting branches only the secure one can be taken. *)
Definition notifyPartnerContractStatus (partnerId : string)
    (callbackUrl : option string) (eventType : string) (data : PushData.t)
    (publicKey : option string) : M World.t unit :=
  match callbackUrl with
  | None => mret tt
  | Some url =>
      if negb (truthy url) then mret tt
      else
        now ← gets World.now;
        let clear :=
          PushClear eventType (toISOString now) partnerId
            (DisclosureNotice data) in
        let shouldEncrypt :=
          match publicKey with
          | Some pk =>
              if bool_decide (eventType = "customer_data_shared")
                 && truthy pk
              then Some pk else None
          | None => None
          end in
        body ←
          match shouldEncrypt with
          | Some pk =>
              tryCatch
                (encryptedPayload ←
                   liftRng (encryptCustomerFieldsSecure
                              (PushData.customerData data) pk);
                 mret (PushSecure encryptedPayload
                         (PushData.consentId data)
                         (PushData.requestedFields data)
                         (PushData.encrypted data)
                         (PushData.encryptionMethod data)
                         (PushData.timestamp data)))
                (fun _ => mret clear)
          | None => mret clear
          end;
        post url eventType body;;
        logEvent
          (systemEvent ("partner_" ++ eventType ++ "_notification_sent")
             partnerId);;
        mret tt
  end.

(** ** [consentController] (backend/controllers/consentController.js) *)

(** [Consent.findOne({ consentId })]: the position and the document. *)
Definition findConsent (consentId : string) (consents : list Consent.t)
  : option (nat * Consent.t) :=
  list_find (fun c => Consent.consentId c = consentId) consents.

(** [consent.save()]: the pre-save hook stamps [updatedAt]. *)
Definition saveConsent (i : nat) (consent : Consent.t) : M World.t unit :=
  modify (fun w =>
    World.setConsents
      (<[i := Consent.setUpdatedAt (World.now w) consent]>
         (World.consents w)) w).

(** [req.user.role !== 'admin' && !(req.user.role === 'customer' &&
    req.user.customerId === consent.customerId)] *)
Definition notPermitted (user : User.t) (consent : Consent.t) : bool :=
  negb (bool_decide (User.role user = "admin"))
  && negb (bool_decide (User.role user = "customer")
           && bool_decide (User.customerId user
                           = Some (Consent.customerId consent))).

Definition consentEvent (eventType : string) (user : User.t)
    (consent : Consent.t) : Event.t :=
  {| Event.eventType := eventType;
     Event.actorType := User.role user;
     Event.actorId := User._id user;
     Event.consentId := Some (Consent.consentId consent);
     Event.customerId := Some (Consent.customerId consent);
     Event.partnerId := Some (Consent.partnerId consent);
     Event.actionDetails := Consent.consentId consent;
     Event.metadata := "" |}.

(** [Partner.findOne({ partnerId })], then the notification when the
    partner is active and has a callback URL. *)
Definition notifyConsentChange (eventType : string) (consent : Consent.t)
    (status : string) : M World.t unit :=
  found ← gets (fun w =>
    list_find (fun p => Partner.partnerId p = Consent.partnerId consent)
      (World.partners w));
  match found with
  | Some (_, partner) =>
      if bool_decide (Partner.status partner = "active")
      then notifyPartner (Consent.partnerId consent)
             (Partner.callbackUrl partner) eventType
             (ConsentNotice (Consent.consentId consent)
                (Consent.customerId consent) status)
      else mret tt
  | None => mret tt
  end.

(** [consentDuration < minDuration]; a comparison with [NaN] is false. *)
Definition belowMinimum (consentDuration : Z) : bool :=
  match minDuration with
  | Some m => (consentDuration <? m)%Z
  | None => false
  end.

(** The validator of the schema path [consentDuration]:
    [value >= parseInt(process.env.MIN_CONSENT_DURATION_MS)]. *)
Definition durationValid (value : Z) : bool :=
  match minDuration with
  | Some m => (m <=? value)%Z
  | None => false
  end.

Definition statusEnum : list string :=
  ["active"; "revoked"; "expired"; "pending"].

(** The update validators that [runValidators: true] runs on the paths
    of [updateData]. *)
Definition validUpdate (u : UpdateData.t) : bool :=
  from_option (fun s => bool_decide (s ∈ statusEnum)) true
    (UpdateData.status u)
  && from_option durationValid true (UpdateData.consentDuration u)
  && from_option requiredArrayOk true (UpdateData.allowedDataFields u).

(** The document after [$set] of the paths of [updateData]. *)
Definition applyUpdate (u : UpdateData.t) (c : Consent.t) : Consent.t :=
  {| Consent._id := Consent._id c;
     Consent.consentId := Consent.consentId c;
     Consent.customerId := Consent.customerId c;
     Consent.partnerId := Consent.partnerId c;
     Consent.allowedDataFields :=
       default (Consent.allowedDataFields c) (UpdateData.allowedDataFields u);
     Consent.purpose := default (Consent.purpose c) (UpdateData.purpose u);
     Consent.retentionPeriod :=
       default (Consent.retentionPeriod c) (UpdateData.retentionPeriod u);
     Consent.createdAt := Consent.createdAt c;
     Consent.updatedAt :=
       default (Consent.updatedAt c) (UpdateData.updatedAt u);
     Consent.expiresAt :=
       default (Consent.expiresAt c) (UpdateData.expiresAt u);
     Consent.consentDuration :=
       default (Consent.consentDuration c) (UpdateData.consentDuration u);
     Consent.status := default (Consent.status c) (UpdateData.status u);
     Consent.contractId := Consent.contractId c |}.

(** [Consent.findOneAndUpdate({ consentId }, updateData,
    { new: true, runValidators: true })] *)
Definition findOneAndUpdate (consentId : string) (u : UpdateData.t)
  : M World.t (option Consent.t) :=
  if negb (validUpdate u) then throw "Validation failed"
  else
    found ← gets (fun w => findConsent consentId (World.consents w));
    match found with
    | None => mret None
    | Some (i, consent) =>
        let updated := applyUpdate u consent in
        modify (fun w =>
          World.setConsents (<[i := updated]> (World.consents w)) w);;
        mret (Some updated)
    end.

(** The paths [updateConsent] takes from the body: a falsy value (an
    empty string, the number 0) is not copied; an array is truthy. *)
Definition providedPaths (body : UpdateBody.t) : UpdateData.t :=
  {| UpdateData.allowedDataFields := UpdateBody.allowedDataFields body;
     UpdateData.purpose :=
       match UpdateBody.purpose body with
       | Some p => if truthy p then Some p else None
       | None => None
       end;
     UpdateData.status :=
       match UpdateBody.status body with
       | Some st => if truthy st then Some st else None
       | None => None
       end;
     UpdateData.consentDuration := None;
     UpdateData.expiresAt := None;
     UpdateData.retentionPeriod := None;
     UpdateData.updatedAt := None |}.

Definition withDuration (d e : Z) (u : UpdateData.t) : UpdateData.t :=
  {| UpdateData.allowedDataFields := UpdateData.allowedDataFields u;
     UpdateData.purpose := UpdateData.purpose u;
     UpdateData.status := UpdateData.status u;
     UpdateData.consentDuration := Some d;
     UpdateData.expiresAt := Some e;
     UpdateData.retentionPeriod := UpdateData.retentionPeriod u;
     UpdateData.updatedAt := UpdateData.updatedAt u |}.

Definition withRetention (r : Z) (e : option Z) (u : UpdateData.t)
  : UpdateData.t :=
  {| UpdateData.allowedDataFields := UpdateData.allowedDataFields u;
     UpdateData.purpose := UpdateData.purpose u;
     UpdateData.status := UpdateData.status u;
     UpdateData.consentDuration := UpdateData.consentDuration u;
     UpdateData.expiresAt :=
       match e with Some _ => e | None => UpdateData.expiresAt u end;
     UpdateData.retentionPeriod := Some r;
     UpdateData.updatedAt := UpdateData.updatedAt u |}.

Definition withUpdatedAt (t : Z) (u : UpdateData.t) : UpdateData.t :=
  {| UpdateData.allowedDataFields := UpdateData.allowedDataFields u;
     UpdateData.purpose := UpdateData.purpose u;
     UpdateData.status := UpdateData.status u;
     UpdateData.consentDuration := UpdateData.consentDuration u;
     UpdateData.expiresAt := UpdateData.expiresAt u;
     UpdateData.retentionPeriod := UpdateData.retentionPeriod u;
     UpdateData.updatedAt := Some t |}.

(** A number of the body when it is truthy. *)
Definition truthyNumber (n : option Z) : option Z :=
  match n with
  | Some z => if (z =? 0)%Z then None else Some z
  | None => None
  end.

(** [updateData] as [updateConsent] has built it when it calls
    [findOneAndUpdate]; the duration check is made by the caller. *)
Definition buildUpdateData (consentId : string) (body : UpdateBody.t)
    (w : World.t) : UpdateData.t :=
  let u0 := providedPaths body in
  let u1 :=
    match truthyNumber (UpdateBody.consentDuration body) with
    | Some d => withDuration d (World.now w + d)%Z u0
    | None => u0
    end in
  let u2 :=
    match truthyNumber (UpdateBody.retentionPeriod body) with
    | Some r =>
        withRetention r
          (match findConsent consentId (World.consents w) with
           | Some (_, consent) => Some (addDays (Consent.createdAt consent) r)
           | None => None
           end) u1
    | None => u1
    end in
  withUpdatedAt (World.now w) u2.

Definition updateConsent (user : User.t) (consentId : string)
    (body : UpdateBody.t) : M World.t Response :=
  tryCatch
    (if from_option belowMinimum false
          (truthyNumber (UpdateBody.consentDuration body))
     then mret (Json 400
                  (ErrorBody ("Consent duration must be at least "
                              ++ minHoursText ++ " hour(s)")))
     else
       updateData ← gets (buildUpdateData consentId body);
       updatedConsent ← findOneAndUpdate consentId updateData;
       match updatedConsent with
       | None => mret (Json 404 (ErrorBody "No consent found with that ID"))
       | Some updatedConsent =>
           if notPermitted user updatedConsent
           then mret (Json 403 (ErrorBody
                  "You do not have permission to update this consent"))
           else
             logEvent (consentEvent "consent_updated" user updatedConsent);;
             notifyConsentChange "consent_updated" updatedConsent
               (Consent.status updatedConsent);;
             mret (Json 200 (ConsentBody updatedConsent))
       end)
    (fun error => mret (Next error)).

Definition revokeConsent (user : User.t) (consentId : string)
  : M World.t Response :=
  tryCatch
    (found ← gets (fun w => findConsent consentId (World.consents w));
     match found with
     | None => mret (Json 404 (ErrorBody "No consent found with that ID"))
     | Some (i, consent) =>
         if notPermitted user consent
         then mret (Json 403 (ErrorBody
                "You do not have permission to revoke this consent"))
         else
           now ← gets World.now;
           let revoked :=
             Consent.setUpdatedAt now (Consent.setStatus "revoked" consent) in
           saveConsent i revoked;;
           logEvent (consentEvent "consent_revoked" user revoked);;
           notifyConsentChange "consent_revoked" revoked "revoked";;
           mret (Json 200 (ConsentBody revoked))
     end)
    (fun error => mret (Next error)).

(** ** [partnerDataRequest] (backend/controllers/partnerController.js) *)

(** The services the controller imports. *)
Variable encryptionService : EncryptionService.
Variable signatureService : SignatureService.

(** [Consent.findOne({ consentId, partnerId, status: 'active' })] *)
Definition findActiveConsent (consentId partnerId : string)
    (consents : list Consent.t) : option (nat * Consent.t) :=
  list_find (fun c => Consent.consentId c = consentId
                      /\ Consent.partnerId c = partnerId
                      /\ Consent.status c = "active") consents.

(** [requestedFields.filter(field =>
      !consent.allowedDataFields.includes(field))] *)
Definition invalidFields (consent : Consent.t)
    (requestedFields : list string) : list string :=
  filter (fun field => field ∉ Consent.allowedDataFields consent)
    requestedFields.

(** [DataRequest.create]: [requestId] carries a unique index. *)
Definition createDataRequest (r : DataRequest.t) : M World.t unit :=
  taken ← gets (fun w =>
    bool_decide (DataRequest.requestId r
                 ∈ map DataRequest.requestId (World.dataRequests w)));
  if (taken : bool) then throw "E11000 duplicate key error"
  else modify (fun w =>
         World.setDataRequests (World.dataRequests w ++ [r])%list w).

Definition fieldMap : gmap string string :=
  list_to_map [("phone", "encryptedPhone"); ("email", "encryptedEmail");
               ("pan", "encryptedPan"); ("address", "encryptedAddress");
               ("name", "encryptedName")].

(** The body of the [forEach] over [requestedFields]: the field itself
    when the customer document has it, else its encrypted counterpart. *)
Definition addField (customer : gmap string string)
    (responseData : gmap string string) (field : string)
  : gmap string string :=
  match customer !! field with
  | Some value => <[field := value]> responseData
  | None =>
      match fieldMap !! field with
      | Some mapped =>
          match customer !! mapped with
          | Some value => <[field := value]> responseData
          | None => responseData
          end
      | None => responseData
      end
  end.

Definition testData : gmap string string :=
  <["phone" := "+1234567890"]>
    (<["email" := "test@example.com"]>
       (<["name" := "Test Customer"]>
          (<["testData" := "This is test data to demonstrate encryption"]>
             ∅))).

(** [responseData] after the [forEach] and the test-data fallback. *)
Definition buildResponseData (customer : gmap string string)
    (requestedFields : list string) : gmap string string :=
  let responseData := foldl (addField customer) ∅ requestedFields in
  if bool_decide (size responseData = 0) then testData else responseData.

(** [value.includes('"encryptedValue"') && value.includes('"iv"') &&
    value.includes('"authTag"')] *)
Definition looksEncrypted (value : string) : bool :=
  includes (quoted "encryptedValue") value
  && includes (quoted "iv") value
  && includes (quoted "authTag") value.

(** The body of the loop that prepares [fullyDecryptedData]: a stored
    field is decrypted with the bank's key, and kept as it is when that
    fails. *)
Definition decryptStored (fieldName value : string)
    (fullyDecryptedData : gmap string string) : gmap string string :=
  if looksEncrypted value then
    match rbind (parseEncryptedField value) (decryptField encryptionService)
    with
    | Ok decrypted => <[fieldName := decrypted]> fullyDecryptedData
    | Throw _ => <[fieldName := value]> fullyDecryptedData
    end
  else <[fieldName := value]> fullyDecryptedData.

(** The encryption of the response: the secure envelope, else the
    standard package of [responseData], else nothing. The result is
    [encryptedResponse] and [encryptionMethod]. *)
Definition encryptResponse (publicKey : option string)
    (responseData fullyDecryptedData : gmap string string)
  : M World.t (option Package.t * string) :=
  match publicKey with
  | Some pk =>
      if truthy pk then
        tryCatch
          (encryptedResponse ←
             liftRng (encryptCustomerFieldsSecure fullyDecryptedData pk);
           mret (Some encryptedResponse, secureType))
          (fun _ =>
             tryCatch
               (encryptedResponse ←
                  liftRng (encryptWithPublicKey
                             (stringifyFields responseData) pk);
                mret (Some encryptedResponse, "standard-hybrid"))
               (fun _ => mret (None, "none")))
      else mret (None, "none")
  | None => mret (None, "none")
  end.

Definition deliveryMessage (callbackUrl : option string) : string :=
  match callbackUrl with
  | Some url =>
      if truthy url
      then "Data sent via API response and pushed to partner endpoint"
      else "Data sent via API response only"
  | None => "Data sent via API response only"
  end.

(** The part of [partnerDataRequest] after the audit event: what is
    disclosed, how it is protected, the push and the response. The copy of
    the response that is decrypted for the console only is left out. *)
Definition disclose (partner : Partner.t) (consent : Consent.t)
    (customer : gmap string string) (requestedFields : list string)
  : M World.t Response :=
  let responseData := buildResponseData customer requestedFields in
  let fullyDecryptedData := map_fold decryptStored ∅ responseData in
  '(encryptedResponse, encryptionMethod) ←
    encryptResponse (Partner.publicKey partner) responseData
      fullyDecryptedData;
  now ← gets World.now;
  tryCatch
    (notifyPartnerContractStatus (Partner.partnerId partner)
       (Partner.callbackUrl partner) "customer_data_shared"
       {| PushData.consentId := Consent._id consent;
          PushData.requestedFields := requestedFields;
          PushData.customerData :=
            if bool_decide (encryptionMethod = secureType)
            then fullyDecryptedData else responseData;
          PushData.encrypted := bool_decide (is_Some encryptedResponse);
          PushData.encryptionMethod := encryptionMethod;
          PushData.timestamp := toISOString now |}
       (Partner.publicKey partner))
    (fun _ => mret tt);;
  match encryptedResponse with
  | Some package =>
      mret (Json 200 (DisclosureBody true (Encrypted package)
                        (deliveryMessage (Partner.callbackUrl partner))))
  | None =>
      mret (Json 200 (DisclosureBody false (Plain responseData)
                        (deliveryMessage (Partner.callbackUrl partner))))
  end.

(** The optional check of the request's signature: [true] when there
    is nothing to check. *)
Definition signatureAccepted (partner : Partner.t)
    (requestId consentId : string) (requestedFields : list string)
    (signature : option string) : result bool :=
  match Partner.publicKey partner, signature with
  | Some pk, Some sig =>
      if truthy pk && truthy sig then
        verifySignature signatureService
          (Some (stringifySignaturePayload requestId consentId
                   requestedFields))
          (Some sig) (Some pk)
      else Ok true
  | _, _ => Ok true
  end.

(** [req.partner.status !== 'active' || !req.partner.approvedContract ||
    !req.partner.contractData] *)
Definition partnerBlocked (partner : Partner.t) : bool :=
  negb (bool_decide (Partner.status partner = "active"))
  || negb (Partner.approvedContract partner)
  || negb (bool_decide (is_Some (Partner.contractData partner))).

(** The part of [partnerDataRequest] that follows the check of the
    requested fields: the optional signature, the customer, the record of
    the request, the audit event and the disclosure. *)
Definition fulfil (partner : Partner.t) (body : RequestBody.t)
    (requestId : string) (consent : Consent.t) : M World.t Response :=
  let consentId := RequestBody.consentId body in
  let requestedFields := RequestBody.requestedFields body in
  let partnerId := Partner.partnerId partner in
  isValid ← liftR (signatureAccepted partner requestId consentId
                     requestedFields (RequestBody.signature body));
  if negb isValid
  then mret (Json 400 (ErrorBody "Invalid signature"))
  else
    customer ← gets (fun w =>
      World.customers w !! Consent.customerId consent);
    match customer with
    | None => mret (Json 404 (ErrorBody "Customer not found"))
    | Some customer =>
        now ← gets World.now;
        createDataRequest
          {| DataRequest.requestId := requestId;
             DataRequest.consentId := consentId;
             DataRequest.partnerId := partnerId;
             DataRequest.requestedFields := requestedFields;
             DataRequest.status := "approved";
             DataRequest.createdAt := now |};;
        logEvent
          {| Event.eventType := "data_request";
             Event.actorType := "partner";
             Event.actorId := partnerId;
             Event.consentId := Some consentId;
             Event.customerId := Some (Consent.customerId consent);
             Event.partnerId := None;
             Event.actionDetails := requestId;
             Event.metadata := "" |};;
        disclose partner consent customer requestedFields
    end.

(** [requestId = uuidv4()] in the destructuring of [req.body]. *)
Definition requestIdOf (body : RequestBody.t) : M World.t string :=
  match RequestBody.requestId body with
  | Some r => mret r
  | None => liftRng uuidv4
  end.

Definition partnerDataRequest (partner : Partner.t) (body : RequestBody.t)
  : M World.t Response :=
  tryCatch
    (let consentId := RequestBody.consentId body in
     let requestedFields := RequestBody.requestedFields body in
     requestId ← requestIdOf body;
     let partnerId := Partner.partnerId partner in
     if partnerBlocked partner
     then mret (Json 403 (ErrorBody
            "Partner is not active or does not have an approved contract"))
     else
       found ← gets (fun w =>
         findActiveConsent consentId partnerId (World.consents w));
       match found with
       | None => mret (Json 404 (ErrorBody "No active consent found"))
       | Some (i, consent) =>
           now ← gets World.now;
           if (Consent.expiresAt consent <? now)%Z then
             saveConsent i (Consent.setStatus "expired" consent);;
             mret (Json 403 (ErrorBody "Consent expired"))
           else
             let invalid := invalidFields consent requestedFields in
             if negb (Nat.eqb (length invalid) 0) then
               mret (Json 403 (ErrorBody
                       ("Fields not allowed: " ++ join ", " invalid)))
             else fulfil partner body requestId consent
       end)
    (fun error => mret (Next error)).

(** What one turn of the loop of [encryptCustomerFieldsSecure] stores
    for a truthy value, and what one turn of the loop of
    [decryptSecureData] stores for an encrypted field. *)
Definition encryptOne (tempAesKey tempIv : bytes) (fieldValue : string)
  : EncryptedField.t :=
  let cipher := gcmEncrypt (tempAesKey, tempIv) (utf8 fieldValue) in
  {| EncryptedField.encryptedValue := toHex (fst cipher);
     EncryptedField.iv := toHex tempIv;
     EncryptedField.authTag := toHex (snd cipher);
     EncryptedField.hash := toHex (sha256 (utf8 fieldValue)) |}.

Definition decryptOne (tempAesKey : bytes) (encryptedField : EncryptedField.t)
  : string :=
  match
    rbind (createCipheriv tempAesKey
             (fromHex (EncryptedField.iv encryptedField)))
      (fun decipher =>
         rbind (gcmDecrypt decipher
                  (fromHex (EncryptedField.authTag encryptedField))
                  (fromHex (EncryptedField.encryptedValue encryptedField)))
           (fun decrypted => Ok (fromUtf8 decrypted)))
  with
  | Ok decrypted => decrypted
  | Throw message => "[DECRYPTION_FAILED: " ++ message ++ "]"
  end.

(** The fields of [customerData] that [encryptCustomerFieldsSecure]
    encrypts: those whose value is not the empty string. *)
Definition truthyFields (customerData : gmap string string)
  : gmap string string :=
  filter (fun kv => kv.2 ≠ "") customerData.

(** The inner payload of the envelope made at position [c] of the
    random source. *)
Definition payloadAt (c : nat) (F : gmap string string) : Payload.t :=
  {| Payload.encryptedFields :=
       omap (fun v => if truthy v
                      then Some (encryptOne (drawn c 32)
                                   (drawn (c + 32) 16) v)
                      else None) F;
     Payload.tempKey := toBase64 (drawn c 32);
     Payload.algorithm := secureAlgorithm |}.

(** An encrypted field in which bit [j] of byte [i] of the ciphertext,
    or of the authentication tag, has been inverted. *)
Definition flipCiphertextBit (e : EncryptedField.t) (i j : nat)
  : EncryptedField.t :=
  {| EncryptedField.encryptedValue :=
       toHex (flipBit (fromHex (EncryptedField.encryptedValue e)) i j);
     EncryptedField.iv := EncryptedField.iv e;
     EncryptedField.authTag := EncryptedField.authTag e;
     EncryptedField.hash := EncryptedField.hash e |}.

Definition flipAuthTagBit (e : EncryptedField.t) (i j : nat)
  : EncryptedField.t :=
  {| EncryptedField.encryptedValue := EncryptedField.encryptedValue e;
     EncryptedField.iv := EncryptedField.iv e;
     EncryptedField.authTag :=
       toHex (flipBit (fromHex (EncryptedField.authTag e)) i j);
     EncryptedField.hash := EncryptedField.hash e |}.

(** The tag of every ciphertext under [key] changes when one bit of
    the ciphertext is inverted. In GCM the tag is an affine function of
    the ciphertext blocks over GF(2^128) whose coefficients are powers
    of the hash subkey, so this holds for every key whose hash subkey
    is not zero. *)
Definition tagDetectsBitFlips (key : bytes) : Prop :=
  forall (iv c : bytes) (i j : nat),
    i < length c -> j < 8 ->
    gcm_tag key iv (flipBit c i j) ≠ gcm_tag key iv c.

(** [preserves f m]: running [m] does not change what [f] reads of the
    state, whether [m] returns or throws. *)
Definition preserves {A X} (f : World.t -> X) (m : M World.t A) : Prop :=
  forall w, f (m w).2 = f w.

(** [returns m]: [m] never throws. *)
Definition returns {A} (m : M World.t A) : Prop :=
  forall w, exists a, (m w).1 = Ok a.

(** [never403 m]: when [m] answers with JSON, the status is not 403. *)
Definition never403 (m : M World.t Response) : Prop :=
  forall w body, (m w).1 ≠ Ok (Json 403 body).

(** The readers of the state that neither the random source nor the
    pushes nor the recorded requests touch. *)
Definition quiet {X} (f : World.t -> X) : Prop :=
  (forall c w, f (World.setCursor c w) = f w)
  /\ (forall ps w, f (World.setPushed ps w) = f w)
  /\ (forall ds w, f (World.setDataRequests ds w) = f w).

(** The request identifier [partnerDataRequest] works with, and the state
    once it has been chosen. *)
Definition requestIdAt (body : RequestBody.t) (w : World.t) : string :=
  match RequestBody.requestId body with
  | Some r => r
  | None => uuidText (drawn (World.cursor w) 16)
  end.

Definition afterRequestId (body : RequestBody.t) (w : World.t) : World.t :=
  match RequestBody.requestId body with
  | Some _ => w
  | None => World.setCursor (World.cursor w + 16) w
  end.

(** The consent [revokeConsent] stores and returns. *)
Definition revoked (now : Z) (consent : Consent.t) : Consent.t :=
  Consent.setUpdatedAt now (Consent.setStatus "revoked" consent).

(** A body of [updateConsent] that provides the status only. *)
Definition statusOnly (status : string) : UpdateBody.t :=
  {| UpdateBody.allowedDataFields := None;
     UpdateBody.purpose := None;
     UpdateBody.retentionPeriod := None;
     UpdateBody.consentDuration := None;
     UpdateBody.status := Some status |}.

(** No requested field is a path of the customer document, neither by its
    own name nor by the name of its encrypted counterpart. *)
Definition noFieldMatches (customer : gmap string string)
    (requestedFields : list string) : Prop :=
  forall field,
    field ∈ requestedFields ->
    customer !! field = None
    /\ (forall mapped, fieldMap !! field = Some mapped ->
                       customer !! mapped = None).

(** The record of an approved request, and the state in which [fulfil]
    starts the disclosure: the request is recorded and the UUID of the
    audit event has been drawn. *)
Definition approvedRequest (partner : Partner.t) (body : RequestBody.t)
    (requestId : string) (now : Z) : DataRequest.t :=
  {| DataRequest.requestId := requestId;
     DataRequest.consentId := RequestBody.consentId body;
     DataRequest.partnerId := Partner.partnerId partner;
     DataRequest.requestedFields := RequestBody.requestedFields body;
     DataRequest.status := "approved";
     DataRequest.createdAt := now |}.

Definition recorded (partner : Partner.t) (body : RequestBody.t)
    (requestId : string) (w : World.t) : World.t :=
  World.setCursor (World.cursor w + 16)
    (World.setDataRequests
       (World.dataRequests w
        ++ [approvedRequest partner body requestId (World.now w)])%list w).

(** The stored consent once its expiry has been detected. *)
Definition expire (now : Z) (consent : Consent.t) : Consent.t :=
  Consent.setUpdatedAt now (Consent.setStatus "expired" consent).

(** ** Further notions used to state properties of the services *)

(** [createHash(text)] of [EncryptionService]: the digest the customer
    controller stores beside a ciphertext for exact-match search. *)
Definition createHash (text : string) : string :=
  toHex (sha256 (utf8 text)).

(** A package in which bit [j] of byte [i] of the ciphertext, or of the
    authentication tag, has been inverted. *)
Definition flipPackageDataBit (p : Package.t) (i j : nat) : Package.t :=
  {| Package.encryptedData :=
       toBase64 (flipBit (fromBase64 (Package.encryptedData p)) i j);
     Package.iv := Package.iv p;
     Package.authTag := Package.authTag p;
     Package.encryptedKey := Package.encryptedKey p;
     Package.algorithm := Package.algorithm p;
     Package.encryptionType := Package.encryptionType p |}.

Definition flipPackageTagBit (p : Package.t) (i j : nat) : Package.t :=
  {| Package.encryptedData := Package.encryptedData p;
     Package.iv := Package.iv p;
     Package.authTag :=
       toBase64 (flipBit (fromBase64 (Package.authTag p)) i j);
     Package.encryptedKey := Package.encryptedKey p;
     Package.algorithm := Package.algorithm p;
     Package.encryptionType := Package.encryptionType p |}.

(** The text [decryptSecureData] stores for a field that fails to
    authenticate. *)
Definition decryptionFailed : string :=
  "[DECRYPTION_FAILED: Unsupported state or unable to authenticate data]".


(** The integrity check [getAuditLogs] (backend/controllers/
    auditController.js) runs on the page [logs] its query returned, newest
    log first. *)
Definition integrityCheckOfPage (signer : SignatureService)
    (logs : list AuditLog.t) : M World.t Verdict.t :=
  if Nat.ltb 0 (length logs) then
    let logsToCheck := Nat.min 100 (length logs) in
    match logs !! (length logs - logsToCheck), logs !! 0 with
    | Some firstLog, Some lastLog =>
        verifyLogIntegrity signer (AuditLog.logId firstLog)
          (AuditLog.logId lastLog)
    | _, _ => throw "Cannot read properties of undefined (reading 'logId')"
    end
  else mret {| Verdict.valid := true;
               Verdict.message := "No logs to verify" |}.

(** The verdict of a chain that verifies. *)
Definition chainVerified : Verdict.t :=
  {| Verdict.valid := true;
     Verdict.message := "Log chain integrity verified" |}.

(** [currentLog] is linked to [previousLog], and its signature is the
    signer's signature of its hash. *)
Definition linked (previousLog currentLog : AuditLog.t) : Prop :=
  AuditLog.previousHash currentLog = AuditLog.eventHash previousLog.

Definition signedBy (signer : SignatureService) (log : AuditLog.t) : Prop :=
  verifySignature signer (AuditLog.eventHash log)
    (AuditLog.digitalSignature log) None = Ok true.


(** The paths of a consent that no request of the consent controller
    sets. *)
Definition identityOf (c : Consent.t)
  : string * string * string * string * string * Z :=
  (Consent._id c, Consent.consentId c, Consent.customerId c,
   Consent.partnerId c, Consent.contractId c, Consent.createdAt c).

(** The terms of a consent: all its paths but [status] and
    [updatedAt]. *)
Definition termsOf (c : Consent.t) : Consent.t :=
  Consent.setStatus "" (Consent.setUpdatedAt 0 c).


(** The value [partnerDataRequest] discloses for a requested field: the
    path of that name, else the path of its encrypted counterpart. *)
Definition storedValue (customer : gmap string string) (field : string)
  : option string :=
  match customer !! field with
  | Some value => Some value
  | None =>
      match fieldMap !! field with
      | Some mapped => customer !! mapped
      | None => None
      end
  end.

(** What one turn of the loop that prepares [fullyDecryptedData] stores
    for a value of [responseData]. *)
Definition decryptedValue (value : string) : string :=
  if looksEncrypted value then
    match rbind (parseEncryptedField value) (decryptField encryptionService)
    with
    | Ok decrypted => decrypted
    | Throw _ => value
    end
  else value.

(** The notification of a disclosure that went out in clear. *)
Definition clearPush (partner : Partner.t) (consent : Consent.t)
    (requestedFields : list string) (responseData : gmap string string)
    (now : Z) : Push.t :=
  {| Push.url := default "" (Partner.callbackUrl partner);
     Push.eventType := "customer_data_shared";
     Push.body :=
       PushClear "customer_data_shared" (toISOString now)
         (Partner.partnerId partner)
         (DisclosureNotice
            {| PushData.consentId := Consent._id consent;
               PushData.requestedFields := requestedFields;
               PushData.customerData := responseData;
               PushData.encrypted := false;
               PushData.encryptionMethod := "none";
               PushData.timestamp := toISOString now |}) |}.


(** The callback URL [notifyConsentChange] posts to for a partner: the
    one of the first partner of that identifier, when it is active and
    has a URL. *)
Definition callbackOf (partnerId : string) (partners : list Partner.t)
  : option string :=
  match list_find (fun p => Partner.partnerId p = partnerId) partners with
  | Some (_, partner) =>
      if bool_decide (Partner.status partner = "active") then
        match Partner.callbackUrl partner with
        | Some url => if truthy url then Some url else None
        | None => None
        end
      else None
  | None => None
  end.

(** The request [notifyPartner] posts for a change of a consent. *)
Definition consentPush (url eventType : string) (consent : Consent.t)
    (status : string) (now : Z) : Push.t :=
  {| Push.url := url;
     Push.eventType := eventType;
     Push.body :=
       PushClear eventType (toISOString now) (Consent.partnerId consent)
         (ConsentNotice (Consent.consentId consent)
            (Consent.customerId consent) status) |}.


(** ** The full database: customers, consent creation, partner
    authentication *)

(** [JSON.stringify] of the object [encryptField] returns. *)
Variable stringifyEncryptedField : EncryptedField.t -> string.

(** Code that only draws random bytes, run on the full database. *)
Definition rng {A} (m : M nat A) : M Registry.t A :=
  fun r =>
    let '(a, c) := m (Registry.cursor r) in (a, Registry.setCursor c r).

(** A value of a request body when it is truthy. *)
Definition truthyText (value : option string) : option string :=
  match value with
  | Some v => if truthy v then Some v else None
  | None => None
  end.

(** *** [customerController] (backend/controllers/customerController.js) *)

(** One path of [decryptCustomerData]: a truthy path is parsed and
    decrypted; when that throws, the field is left out. *)
Definition decryptPath (path : option string) : option string :=
  match truthyText path with
  | Some text =>
      match rbind (parseEncryptedField text) (decryptField encryptionService)
      with
      | Ok value => Some value
      | Throw _ => None
      end
  | None => None
  end.

Definition decryptCustomerData (customer : CustomerDoc.t)
  : DecryptedCustomer.t :=
  {| DecryptedCustomer._id := CustomerDoc._id customer;
     DecryptedCustomer.createdAt := CustomerDoc.createdAt customer;
     DecryptedCustomer.updatedAt := CustomerDoc.updatedAt customer;
     DecryptedCustomer.isActive := CustomerDoc.isActive customer;
     DecryptedCustomer.phone := decryptPath (CustomerDoc.encryptedPhone customer);
     DecryptedCustomer.email := decryptPath (CustomerDoc.encryptedEmail customer);
     DecryptedCustomer.pan := decryptPath (CustomerDoc.encryptedPan customer);
     DecryptedCustomer.address :=
       decryptPath (CustomerDoc.encryptedAddress customer);
     DecryptedCustomer.name := decryptPath (CustomerDoc.encryptedName customer) |}.

(** [value ? JSON.stringify(await encryptionService.encryptField(value))
    : null] *)
Definition encryptProvided (value : option string) : M nat (option string) :=
  match truthyText value with
  | Some v =>
      encrypted ← encryptField encryptionService v;
      mret (Some (stringifyEncryptedField encrypted))
  | None => mret None
  end.

(** [value ? encryptionService.createHash(value) : null] *)
Definition hashProvided (value : option string) : option string :=
  createHash <$> truthyText value.

Definition customerEvent (eventType actorType actorId customerId : string)
  : Event.t :=
  {| Event.eventType := eventType;
     Event.actorType := actorType;
     Event.actorId := actorId;
     Event.consentId := None;
     Event.customerId := Some customerId;
     Event.partnerId := None;
     Event.actionDetails := customerId;
     Event.metadata := "" |}.

(** [Customer.create]: [_id] is the primary key. *)
Definition insertCustomer (doc : CustomerDoc.t) : M Registry.t unit :=
  taken ← gets (fun r =>
    bool_decide (is_Some (Registry.customers r !! CustomerDoc._id doc)));
  if (taken : bool) then throw "E11000 duplicate key error"
  else modify (fun r =>
         Registry.setCustomers
           (<[CustomerDoc._id doc := doc]> (Registry.customers r)) r).

Definition createCustomer (user : User.t) (body : CustomerBody.t)
  : M Registry.t (Answer DecryptedCustomer.t) :=
  tryCatch
    (encryptedPhone ← rng (encryptProvided (CustomerBody.phone body));
     encryptedEmail ← rng (encryptProvided (CustomerBody.email body));
     encryptedPan ← rng (encryptProvided (CustomerBody.pan body));
     encryptedAddress ← rng (encryptProvided (CustomerBody.address body));
     encryptedName ← rng (encryptProvided (CustomerBody.name body));
     _id ← rng uuidv4;
     now ← gets Registry.now;
     let newCustomer :=
       {| CustomerDoc._id := _id;
          CustomerDoc.encryptedPhone := encryptedPhone;
          CustomerDoc.encryptedEmail := encryptedEmail;
          CustomerDoc.encryptedPan := encryptedPan;
          CustomerDoc.encryptedAddress := encryptedAddress;
          CustomerDoc.encryptedName := encryptedName;
          CustomerDoc.phoneHash := hashProvided (CustomerBody.phone body);
          CustomerDoc.emailHash := hashProvided (CustomerBody.email body);
          CustomerDoc.panHash := hashProvided (CustomerBody.pan body);
          CustomerDoc.createdAt := now;
          CustomerDoc.updatedAt := now;
          CustomerDoc.isActive := true |} in
     insertCustomer newCustomer;;
     inWorld (logEvent (customerEvent "customer_created" "admin"
                          (User._id user) _id));;
     mret (Sent 201 (decryptCustomerData newCustomer)))
    (fun error => mret (Passed error)).

Definition getCustomer (customerId : string)
  : M Registry.t (Answer DecryptedCustomer.t) :=
  tryCatch
    (customer ← gets (fun r => Registry.customers r !! customerId);
     match customer with
     | None => mret (Refused 404 "No customer found with that ID")
     | Some customer => mret (Sent 200 (decryptCustomerData customer))
     end)
    (fun error => mret (Passed error)).

(** [Customer.findByIdAndDelete], the audit event and the answer 204,
    whose body Express does not send. *)
Definition deleteCustomer (user : User.t) (customerId : string)
  : M Registry.t (Answer unit) :=
  tryCatch
    (customer ← gets (fun r => Registry.customers r !! customerId);
     match customer with
     | None => mret (Refused 404 "No customer found with that ID")
     | Some _ =>
         modify (fun r =>
           Registry.setCustomers (delete customerId (Registry.customers r)) r);;
         inWorld (logEvent (customerEvent "customer_deleted" "admin"
                              (User._id user) customerId));;
         mret (Sent 204 tt)
     end)
    (fun error => mret (Passed error)).

(** *** [apiTokenService] and [partnerProtect]
    (backend/utils/apiTokenService.js, backend/middleware/partnerProtect.js) *)

Definition generateApiToken : M nat string :=
  b ← randomBytes 32; mret (toHex b).

Definition hashApiToken (token : string) : string :=
  toHex (sha256 (utf8 token)).

Definition verifyApiToken (token hashedToken : string) : bool :=
  bool_decide (hashApiToken token = hashedToken).

(** The text up to the first space. *)
Fixpoint untilSpace (s : string) : string :=
  match s with
  | EmptyString => ""
  | String c r => if Ascii.eqb c " " then "" else String c (untilSpace r)
  end.

(** [tokenHeader.startsWith('Bearer ') ? tokenHeader.split(' ')[1]
    : tokenHeader] *)
Definition tokenOf (tokenHeader : string) : string :=
  if String.prefix "Bearer " tokenHeader
  then untilSpace (String.substring 7 (String.length tokenHeader - 7)
                     tokenHeader)
  else tokenHeader.

(** [partnerProtect]; [headers] is [req.headers], whose names Node gives
    in lower case. *)
Definition partnerProtect (headers : gmap string string)
    (partners : list PartnerDoc.t) : Authentication :=
  match truthyText (headers !! "authorization"),
        truthyText (headers !! "x-partner-id") with
  | Some tokenHeader, Some partnerId =>
      let token := tokenOf tokenHeader in
      match list_find (fun p => PartnerDoc.partnerId p = partnerId) partners
      with
      | None => Unauthorized "Invalid partner ID"
      | Some (_, partner) =>
          let hashedToken := toHex (sha256 (utf8 token)) in
          if bool_decide (PartnerDoc.apiTokenHash partner = Some hashedToken)
          then Authenticated partner
          else Unauthorized "Invalid partner token"
      end
  | _, _ => Unauthorized "Missing partner token or partner ID"
  end.

(** [router.post('/data-request', partnerProtect, partnerDataRequest)]
    (backend/routes/partnerRoutes.js) *)
Definition dataRequestRoute (headers : gmap string string)
    (body : RequestBody.t) : M Registry.t Response :=
  auth ← gets (fun r => partnerProtect headers (Registry.partners r));
  match auth with
  | Authenticated partner =>
      inWorld (partnerDataRequest (PartnerDoc.view partner) body)
  | Unauthorized message => mret (Next message)
  end.

(** The headers the partner backend sets on its data request
    (partner-backend/server.js, [/request-data]). *)
Definition partnerBackendHeaders (partnerId apiToken : string)
  : gmap string string :=
  <["x-partner-id" := partnerId]>
    (<["x-api-token" := apiToken]>
       (<["content-type" := "application/json"]> ∅)).

(** *** [createConsent] (backend/controllers/consentController.js) *)

(** [Consent.create]: the default of [consentId] is drawn, the required
    paths and the duration are validated, and [consentId] is unique;
    [_id] is the identifier the driver gives the document. *)
Definition createConsentDocument (_id customerId partnerId : string)
    (contract : ContractData.t) (consentDuration expiresAt : Z)
  : M Registry.t Consent.t :=
  consentId ← rng uuidv4;
  now ← gets Registry.now;
  match ContractData.purpose contract, ContractData.retentionPeriod contract,
        ContractData.contractText contract, ContractData.contractId contract
  with
  | Some purpose, Some retentionPeriod, Some contractText, Some contractId =>
      if truthy customerId && truthy partnerId
         && requiredArrayOk (ContractData.allowedDataFields contract)
         && truthy purpose && truthy contractText && truthy contractId
         && durationValid consentDuration
      then
        taken ← gets (fun r =>
          bool_decide (consentId
                       ∈ map Consent.consentId (Registry.consents r)));
        if (taken : bool) then throw "E11000 duplicate key error"
        else
          let newConsent :=
            {| Consent._id := _id;
               Consent.consentId := consentId;
               Consent.customerId := customerId;
               Consent.partnerId := partnerId;
               Consent.allowedDataFields :=
                 ContractData.allowedDataFields contract;
               Consent.purpose := purpose;
               Consent.retentionPeriod := retentionPeriod;
               Consent.createdAt := now;
               Consent.updatedAt := now;
               Consent.expiresAt := expiresAt;
               Consent.consentDuration := consentDuration;
               Consent.status := "active";
               Consent.contractId := contractId |} in
          modify (fun r =>
            Registry.setConsents (Registry.consents r ++ [newConsent])%list r);;
          mret newConsent
      else throw "Validation failed"
  | _, _, _, _ => throw "Validation failed"
  end.

(** [createConsent]; [_id] is the identifier the driver gives the new
    document. *)
Definition createConsent (user : User.t) (_id : string)
    (body : ConsentBody.t) : M Registry.t Response :=
  tryCatch
    (match truthyNumber (ConsentBody.consentDuration body) with
     | None => mret (Json 400 (ErrorBody "Consent duration is required"))
     | Some consentDuration =>
         if belowMinimum consentDuration
         then mret (Json 400
                      (ErrorBody ("Consent duration must be at least "
                                  ++ minHoursText ++ " hour(s)")))
         else
           customer ← gets (fun r =>
             ConsentBody.customerId body
             ≫= fun id => (fun _ => id) <$> Registry.customers r !! id);
           match customer with
           | None =>
               mret (Json 404 (ErrorBody "No customer found with that ID"))
           | Some customerId =>
               partner ← gets (fun r =>
                 ConsentBody.partnerId body
                 ≫= fun id =>
                      list_find (fun p => PartnerDoc.partnerId p = id)
                        (Registry.partners r)
                      ≫= fun found => Some (id, found.2));
               match partner with
               | None =>
                   mret (Json 404
                           (ErrorBody "No partner found with that ID"))
               | Some (partnerId, partner) =>
                   match (if PartnerDoc.approvedContract partner
                          then PartnerDoc.contractData partner else None)
                   with
                   | None =>
                       mret (Json 403 (ErrorBody
                         "This partner does not have an approved contract yet"))
                   | Some contract =>
                       now ← gets Registry.now;
                       let expiresAt := (now + consentDuration)%Z in
                       newConsent ←
                         createConsentDocument _id customerId partnerId
                           contract consentDuration expiresAt;
                       inWorld (logEvent (consentEvent "consent_created"
                                            user newConsent));;
                       match truthyText (PartnerDoc.callbackUrl partner) with
                       | Some url =>
                           if bool_decide
                                (PartnerDoc.status partner = "active")
                           then
                             inWorld
                               (notifyPartner partnerId (Some url)
                                  "consent_created"
                                  (ConsentNotice
                                     (Consent.consentId newConsent)
                                     customerId (Consent.status newConsent)))
                           else mret tt
                       | None => mret tt
                       end;;
                       mret (Json 201 (ConsentBody newConsent))
                   end
               end
           end
     end)
    (fun error => mret (Next error)).


(** What [createCustomer] stores when it runs at position [c] of the
    random source and at time [now]: each truthy field of the body is
    encrypted under the IV drawn for it, in the order phone, email, PAN,
    address, name, and the identifier is drawn last. *)
Definition drawsOf (value : option string) : nat :=
  match truthyText value with
  | Some _ => 16
  | None => 0
  end.

Definition storedPath (c : nat) (value : option string) : option string :=
  (fun v => stringifyEncryptedField
              (encryptOne (key encryptionService) (drawn c 16) v))
  <$> truthyText value.

Definition customerAt (body : CustomerBody.t) (c : nat) (now : Z)
  : CustomerDoc.t :=
  let c1 := c + drawsOf (CustomerBody.phone body) in
  let c2 := c1 + drawsOf (CustomerBody.email body) in
  let c3 := c2 + drawsOf (CustomerBody.pan body) in
  let c4 := c3 + drawsOf (CustomerBody.address body) in
  let c5 := c4 + drawsOf (CustomerBody.name body) in
  {| CustomerDoc._id := uuidText (drawn c5 16);
     CustomerDoc.encryptedPhone := storedPath c (CustomerBody.phone body);
     CustomerDoc.encryptedEmail := storedPath c1 (CustomerBody.email body);
     CustomerDoc.encryptedPan := storedPath c2 (CustomerBody.pan body);
     CustomerDoc.encryptedAddress :=
       storedPath c3 (CustomerBody.address body);
     CustomerDoc.encryptedName := storedPath c4 (CustomerBody.name body);
     CustomerDoc.phoneHash := hashProvided (CustomerBody.phone body);
     CustomerDoc.emailHash := hashProvided (CustomerBody.email body);
     CustomerDoc.panHash := hashProvided (CustomerBody.pan body);
     CustomerDoc.createdAt := now;
     CustomerDoc.updatedAt := now;
     CustomerDoc.isActive := true |}.

(** The plaintext a body gives for a field a partner may request. *)
Definition plaintextOf (body : CustomerBody.t) (field : string)
  : option string :=
  if bool_decide (field = "phone") then truthyText (CustomerBody.phone body)
  else if bool_decide (field = "email")
  then truthyText (CustomerBody.email body)
  else if bool_decide (field = "pan") then truthyText (CustomerBody.pan body)
  else if bool_decide (field = "address")
  then truthyText (CustomerBody.address body)
  else if bool_decide (field = "name")
  then truthyText (CustomerBody.name body)
  else None.


(** The validators of [Consent.create] on the paths [createConsent]
    takes from the contract. *)
Definition validContract (contract : ContractData.t) : bool :=
  requiredArrayOk (ContractData.allowedDataFields contract)
  && from_option truthy false (ContractData.purpose contract)
  && bool_decide (is_Some (ContractData.retentionPeriod contract))
  && from_option truthy false (ContractData.contractText contract)
  && from_option truthy false (ContractData.contractId contract).

(** The consent [createConsent] stores for a valid contract. *)
Definition consentOf (_id customerId partnerId : string)
    (contract : ContractData.t) (consentDuration now : Z)
    (consentId : string) : Consent.t :=
  {| Consent._id := _id;
     Consent.consentId := consentId;
     Consent.customerId := customerId;
     Consent.partnerId := partnerId;
     Consent.allowedDataFields := ContractData.allowedDataFields contract;
     Consent.purpose := default "" (ContractData.purpose contract);
     Consent.retentionPeriod :=
       default 0%Z (ContractData.retentionPeriod contract);
     Consent.createdAt := now;
     Consent.updatedAt := now;
     Consent.expiresAt := (now + consentDuration)%Z;
     Consent.consentDuration := consentDuration;
     Consent.status := "active";
     Consent.contractId := default "" (ContractData.contractId contract) |}.


(** ** Laws of the parameters *)

(** The key stream has the length asked for. *)
Hypothesis gcm_keystream_length :
  forall key iv n, length (gcm_keystream key iv n) = n.

Hypothesis fromBase64_toBase64 : forall b, fromBase64 (toBase64 b) = b.

Hypothesis parsePayload_stringifyPayload :
  forall p, parsePayload (stringifyPayload p) = Ok p.

(** RSA-OAEP encrypts a 32-byte message under the public half of a key
    pair, and the private half decrypts the result. *)
Hypothesis rsa_oaep_correct :
  forall pub priv seed m,
    rsa_keypair pub priv -> length m = 32 ->
    exists c, rsa_oaep_encrypt pub seed m = Ok c
              /\ rsa_oaep_decrypt priv c = Ok m.

(** A signature made with the private half of a key pair verifies under
    the public half. *)
Hypothesis rsa_sign_correct :
  forall pub priv m,
    rsa_keypair pub priv -> rsa_verify pub m (rsa_sign priv m) = Ok true.


(** [JSON.parse] inverts [JSON.stringify] on an encrypted field, and the
    text of an encrypted field names its keys between double quotes. *)
Hypothesis parseEncryptedField_stringifyEncryptedField :
  forall e, parseEncryptedField (stringifyEncryptedField e) = Ok e.

Hypothesis stringifyEncryptedField_keys :
  forall e, looksEncrypted (stringifyEncryptedField e) = true.


(** ** Buffers: hexadecimal text and exclusive or *)

Lemma fromHex_byte (x : byte) (r : string) :
  fromHex (String (hexDigit (Byte.to_N x / 16)%N)
             (String (hexDigit (Byte.to_N x mod 16)%N) r))
  = x :: fromHex r.
Proof. destruct x; reflexivity. Qed.

Lemma fromHex_toHex (b : bytes) : fromHex (toHex b) = b.
Proof.
  induction b as [|x b IH]; [reflexivity|].
  cbn [toHex]. rewrite fromHex_byte. by rewrite IH.
Qed.

Lemma xor8_cancel (x y : bits8) : xor8 (xor8 x y) y = x.
Proof.
  destruct x as (x0 & x1 & x2 & x3 & x4 & x5 & x6 & x7).
  destruct y as (y0 & y1 & y2 & y3 & y4 & y5 & y6 & y7).
  cbn [xor8].
  by rewrite !xorb_assoc, !xorb_nilpotent, !xorb_false_r.
Qed.

Lemma bxor_cancel (a b : byte) : bxor (bxor a b) b = a.
Proof.
  unfold bxor. rewrite Byte.to_bits_of_bits, xor8_cancel.
  apply Byte.of_bits_to_bits.
Qed.

Lemma bxor_bitMask_neq (x : byte) (j : nat) : j < 8 -> bxor x (bitMask j) ≠ x.
Proof.
  intros Hj Heq.
  assert (Hbits : xor8 (Byte.to_bits x) (Byte.to_bits (bitMask j))
                  = Byte.to_bits x).
  { apply (f_equal Byte.to_bits) in Heq. unfold bxor in Heq.
    by rewrite Byte.to_bits_of_bits in Heq. }
  unfold bitMask in Hbits. rewrite Byte.to_bits_of_bits in Hbits.
  destruct (Byte.to_bits x) as (x0 & x1 & x2 & x3 & x4 & x5 & x6 & x7).
  cbn [xor8] in Hbits.
  do 8 (destruct j as [|j];
        [cbn in Hbits; injection Hbits as ?; repeat
           match goal with
           | H : xorb ?b true = ?b |- _ => by destruct b
           end |]).
  lia.
Qed.

Lemma length_xorBytes (a b : bytes) :
  length a <= length b -> length (xorBytes a b) = length a.
Proof.
  revert b. induction a as [|x a IH]; intros [|y b] Hlen; cbn in *;
    try lia.
  rewrite IH; lia.
Qed.

Lemma xorBytes_cancel (a b : bytes) :
  length a <= length b -> xorBytes (xorBytes a b) b = a.
Proof.
  revert b. induction a as [|x a IH]; intros [|y b] Hlen; cbn in *;
    try lia; try reflexivity.
  rewrite bxor_cancel, IH; [reflexivity | lia].
Qed.

Lemma length_flipBit (b : bytes) (i j : nat) :
  length (flipBit b i j) = length b.
Proof.
  unfold flipBit. destruct (b !! i); [apply length_insert | reflexivity].
Qed.

Lemma flipBit_neq (b : bytes) (i j : nat) :
  i < length b -> j < 8 -> flipBit b i j ≠ b.
Proof.
  intros Hi Hj Heq. unfold flipBit in Heq.
  destruct (b !! i) as [x|] eqn:Hx.
  - assert (Hl : <[i := bxor x (bitMask j)]> b !! i = Some x)
      by (by rewrite Heq).
    rewrite list_lookup_insert_eq in Hl by done.
    injection Hl as Hl. by apply (bxor_bitMask_neq x j).
  - apply lookup_ge_None in Hx. lia.
Qed.

Lemma Ok_inj {A} (a b : A) : Ok a = Ok b -> a = b.
Proof. by intros [= ->]. Qed.

Lemma run_inv {A S} (a b : A) (s t : S) :
  (Ok a, s) = (Ok b, t) -> a = b /\ s = t.
Proof. by intros [= -> ->]. Qed.

(** ** AES-256-GCM *)

Lemma length_drawn (c n : nat) : length (drawn c n) = n.
Proof. unfold drawn. by rewrite length_map, length_seq. Qed.

Lemma createCipheriv_ok (key iv : bytes) :
  length key = 32 -> length iv ≠ 0 -> createCipheriv key iv = Ok (key, iv).
Proof.
  intros Hk Hiv. unfold createCipheriv. rewrite Hk. cbn.
  destruct (length iv) eqn:E; [done | reflexivity].
Qed.

Lemma createCipheriv_drawn (key : bytes) (c n : nat) :
  length key = 32 -> n ≠ 0 ->
  createCipheriv key (drawn c n) = Ok (key, drawn c n).
Proof.
  intros Hk Hn. apply createCipheriv_ok; [done|]. by rewrite length_drawn.
Qed.

Lemma gcmDecrypt_gcmEncrypt (key iv plaintext : bytes) :
  gcmDecrypt (key, iv) (snd (gcmEncrypt (key, iv) plaintext))
    (fst (gcmEncrypt (key, iv) plaintext)) = Ok plaintext.
Proof using Type gcm_keystream_length.
  cbn [gcmEncrypt gcmDecrypt fst snd].
  rewrite bool_decide_eq_true_2 by reflexivity.
  rewrite length_xorBytes by (rewrite gcm_keystream_length; lia).
  rewrite xorBytes_cancel by (rewrite gcm_keystream_length; lia).
  reflexivity.
Qed.

(** ** Field encryption *)

Lemma newEncryptionService_key (ENCRYPTION_KEY : option string)
    (this : EncryptionService) :
  newEncryptionService ENCRYPTION_KEY = Ok this -> length (key this) = 32.
Proof.
  unfold newEncryptionService. destruct ENCRYPTION_KEY as [k|]; [|done].
  destruct (Nat.eqb (length (utf8 k)) 32) eqn:E; cbn; [|done].
  intros [= <-]. cbn. by apply Nat.eqb_eq.
Qed.

(** What [encryptField] returns: the IV is the next 16 bytes of the
    random source. *)
Lemma encryptField_eval (this : EncryptionService) (plaintext : string)
    (c : nat) :
  length (key this) = 32 ->
  let iv := drawn c 16 in
  let cipher := gcmEncrypt (key this, iv) (utf8 plaintext) in
  encryptField this plaintext c
  = (Ok {| EncryptedField.encryptedValue := toHex (fst cipher);
           EncryptedField.iv := toHex iv;
           EncryptedField.authTag := toHex (snd cipher);
           EncryptedField.hash := toHex (sha256 (utf8 plaintext)) |},
     c + 16).
Proof.
  intros Hk iv cipher. subst cipher iv.
  unfold encryptField, mbind, M_bind, bind, liftR. cbn [randomBytes].
  rewrite (createCipheriv_drawn _ c 16 Hk) by lia.
  by destruct (gcmEncrypt _ _).
Qed.

Lemma fromUtf8_utf8 (s : string) : fromUtf8 (utf8 s) = s.
Proof. apply string_of_list_byte_of_string. Qed.

(** Decryption of what [gcmEncrypt] made, from its hexadecimal texts. *)
Lemma decrypt_hex_roundtrip (key iv : bytes) (plaintext : string) :
  length key = 32 -> length iv ≠ 0 ->
  let cipher := gcmEncrypt (key, iv) (utf8 plaintext) in
  rbind (createCipheriv key (fromHex (toHex iv)))
    (fun decipher =>
       rbind (gcmDecrypt decipher (fromHex (toHex (snd cipher)))
                (fromHex (toHex (fst cipher))))
         (fun decrypted => Ok (fromUtf8 decrypted)))
  = Ok plaintext.
Proof using Type gcm_keystream_length.
  intros Hk Hiv cipher. subst cipher. rewrite !fromHex_toHex.
  rewrite createCipheriv_ok by done. cbn [rbind].
  rewrite gcmDecrypt_gcmEncrypt. cbn [rbind].
  by rewrite fromUtf8_utf8.
Qed.


(** C7. Tamper detection: for every plaintext [P], inverting any one bit
    of the ciphertext or of the authentication tag of the field that
    [encryptField] returned makes [decryptField] throw its decryption
    error; no plaintext is returned. The key is one under which the GCM
    tag detects single-bit changes of the ciphertext. *)
Theorem decryptField_detects_bit_flip (this : EncryptionService)
    (P : string) (c c' : nat) (e : EncryptedField.t) (i j : nat) :
  length (key this) = 32 ->
  tagDetectsBitFlips (key this) ->
  encryptField this P c = (Ok e, c') ->
  j < 8 ->
  (i < length (fromHex (EncryptedField.encryptedValue e)) ->
   decryptField this (flipCiphertextBit e i j)
   = Throw "Failed to decrypt data")
  /\ (i < length (fromHex (EncryptedField.authTag e)) ->
      decryptField this (flipAuthTagBit e i j)
      = Throw "Failed to decrypt data").
Proof.
  intros Hk Hsens Henc Hj.
  rewrite encryptField_eval in Henc by done.
  apply run_inv in Henc as [<- _].
  cbn [EncryptedField.encryptedValue EncryptedField.authTag].
  rewrite !fromHex_toHex.
  assert (Hiv : length (drawn c 16) ≠ 0) by (by rewrite length_drawn).
  split; intros Hi; unfold decryptField, flipCiphertextBit, flipAuthTagBit;
    cbn [EncryptedField.iv EncryptedField.authTag
         EncryptedField.encryptedValue];
    rewrite !fromHex_toHex, createCipheriv_ok by done;
    cbn [rbind gcmEncrypt gcmDecrypt fst snd].
  - rewrite bool_decide_eq_false_2; [reflexivity|].
    intros Heq. eapply Hsens; [exact Hi | exact Hj | symmetry; exact Heq].
  - rewrite bool_decide_eq_false_2; [reflexivity|].
    by apply flipBit_neq.
Qed.

(** ** The secure envelope *)

Lemma truthy_spec (s : string) : truthy s = true <-> s ≠ "".
Proof. by destruct s. Qed.

Lemma encrypt_loop (tempAesKey tempIv : bytes) (F : gmap string string) :
  length tempAesKey = 32 -> length tempIv ≠ 0 ->
  map_fold (encryptEntry tempAesKey tempIv) (Ok ∅) F
  = Ok (omap (fun v => if truthy v
                       then Some (encryptOne tempAesKey tempIv v)
                       else None) F).
Proof.
  intros Hk Hiv.
  apply (map_fold_weak_ind (fun r m => r = Ok (omap _ m))).
  - by rewrite omap_empty.
  - intros i x m r Hi ->. unfold encryptEntry. cbn [rbind].
    destruct (truthy x) eqn:Hx.
    + rewrite createCipheriv_ok by done. cbn [rbind].
      erewrite omap_insert_Some by (by rewrite Hx).
      unfold encryptOne. by destruct (gcmEncrypt _ _).
    + rewrite omap_insert_None by (by rewrite Hx).
      rewrite delete_id; [done|]. by rewrite lookup_omap, Hi.
Qed.

Lemma decrypt_loop (tempAesKey : bytes)
    (fields : gmap string EncryptedField.t) :
  map_fold (decryptEntry tempAesKey) ∅ fields
  = decryptOne tempAesKey <$> fields.
Proof.
  apply (map_fold_weak_ind (fun r m => r = decryptOne tempAesKey <$> m)).
  - by rewrite fmap_empty.
  - intros i x m r Hi ->. rewrite fmap_insert.
    unfold decryptEntry, decryptOne. by destruct (rbind _ _).
Qed.

Lemma decryptOne_encryptOne (tempAesKey tempIv : bytes) (v : string) :
  length tempAesKey = 32 -> length tempIv ≠ 0 ->
  decryptOne tempAesKey (encryptOne tempAesKey tempIv v) = v.
Proof using Type gcm_keystream_length.
  intros Hk Hiv. unfold decryptOne, encryptOne.
  cbn [EncryptedField.iv EncryptedField.authTag
       EncryptedField.encryptedValue].
  by rewrite decrypt_hex_roundtrip.
Qed.

(** Decrypting every encrypted field gives back the truthy fields. *)
Lemma decrypt_encrypt_fields (tempAesKey tempIv : bytes)
    (F : gmap string string) :
  length tempAesKey = 32 -> length tempIv ≠ 0 ->
  decryptOne tempAesKey
    <$> omap (fun v => if truthy v
                       then Some (encryptOne tempAesKey tempIv v)
                       else None) F
  = truthyFields F.
Proof using Type gcm_keystream_length.
  intros Hk Hiv. apply map_eq. intros i. unfold truthyFields.
  rewrite lookup_fmap, lookup_omap, map_lookup_filter.
  destruct (F !! i) as [v|]; [|done]. cbn.
  destruct v as [|a v]; cbn.
  - by rewrite option_guard_False by (by intros []).
  - rewrite option_guard_True by done. cbn.
    by rewrite (decryptOne_encryptOne _ _ (String a v)).
Qed.

Lemma truthyFields_id (F : gmap string string) :
  (forall k v, F !! k = Some v -> v ≠ "") -> truthyFields F = F.
Proof.
  intros HF. apply map_eq. intros i. unfold truthyFields.
  rewrite map_lookup_filter. destruct (F !! i) as [v|] eqn:Hv; [|done].
  cbn. rewrite option_guard_True; [done|]. cbn. by apply (HF i).
Qed.

(** What [encryptWithPublicKey] returns under the public half of a key
    pair: it draws the AES key, the IV and the padding seed, 80 bytes
    in all. *)
Lemma encryptWithPublicKey_eval (data pub priv : string) (c : nat) :
  rsa_keypair (toPem pub) priv ->
  let aesKey := drawn c 32 in
  let iv := drawn (c + 32) 16 in
  let cipher := gcmEncrypt (aesKey, iv) (utf8 data) in
  exists encryptedKey,
    rsa_oaep_decrypt priv encryptedKey = Ok aesKey
    /\ encryptWithPublicKey data pub c
       = (Ok {| Package.encryptedData := toBase64 (fst cipher);
                Package.iv := toBase64 iv;
                Package.authTag := toBase64 (snd cipher);
                Package.encryptedKey := toBase64 encryptedKey;
                Package.algorithm := hybridAlgorithm;
                Package.encryptionType := None |},
          c + 32 + 16 + 32).
Proof using Type rsa_oaep_correct.
  intros Hpair aesKey iv cipher. subst cipher iv aesKey.
  destruct (rsa_oaep_correct (toPem pub) priv (drawn (c + 32 + 16) 32)
              (drawn c 32) Hpair (length_drawn _ _))
    as (encryptedKey & Henc & Hdec).
  exists encryptedKey. split; [done|].
  unfold encryptWithPublicKey, tryCatch, mbind, M_bind, bind, liftR.
  cbn [randomBytes].
  rewrite createCipheriv_drawn by (by rewrite ?length_drawn).
  destruct (gcmEncrypt _ _) as [encrypted authTag]. cbn [fst snd].
  by rewrite Henc.
Qed.

(** [decryptHybridData] under the private half, on a package made as
    [encryptWithPublicKey] makes it, parses the text that was encrypted. *)
Lemma decryptHybridData_package {A} (parse : string -> result A)
    (priv data : string) (aesKey iv encryptedKey : bytes)
    (encryptionType : option string) (a : A) :
  length aesKey = 32 -> length iv ≠ 0 ->
  rsa_oaep_decrypt priv encryptedKey = Ok aesKey ->
  parse data = Ok a ->
  let cipher := gcmEncrypt (aesKey, iv) (utf8 data) in
  decryptHybridData parse {| privateKey := Some priv |}
    {| Package.encryptedData := toBase64 (fst cipher);
       Package.iv := toBase64 iv;
       Package.authTag := toBase64 (snd cipher);
       Package.encryptedKey := toBase64 encryptedKey;
       Package.algorithm := hybridAlgorithm;
       Package.encryptionType := encryptionType |}
  = Ok a.
Proof using Type gcm_keystream_length fromBase64_toBase64.
  intros Hk Hiv Hdec Hparse cipher. subst cipher.
  unfold decryptHybridData.
  cbn [privateKey Package.algorithm Package.encryptedKey Package.iv
       Package.authTag Package.encryptedData].
  rewrite bool_decide_eq_true_2 by reflexivity.
  rewrite !fromBase64_toBase64, Hdec. cbn [rbind].
  rewrite createCipheriv_ok by done. cbn [rbind].
  rewrite gcmDecrypt_gcmEncrypt. cbn [rbind].
  by rewrite fromUtf8_utf8, Hparse.
Qed.

(** The secure envelope of [F] is made from 128 bytes of the random
    source; under the private half of the key pair it opens to the
    payload that carries the key drawn first, and it decrypts to the
    truthy fields of [F]. *)
Lemma secure_envelope_opens (F : gmap string string) (pub priv : string)
    (c : nat) :
  rsa_keypair (toPem pub) priv ->
  exists envelope,
    encryptCustomerFieldsSecure F pub c = (Ok envelope, c + 128)
    /\ Package.encryptionType envelope = Some secureType
    /\ decryptHybridData parsePayload {| privateKey := Some priv |} envelope
       = Ok (payloadAt c F)
    /\ decryptSecureData {| privateKey := Some priv |} envelope
       = Ok (truthyFields F).
Proof using Type rsa_oaep_correct parsePayload_stringifyPayload gcm_keystream_length fromBase64_toBase64.
  intros Hpair.
  destruct (encryptWithPublicKey_eval (stringifyPayload (payloadAt c F))
              pub priv (c + 32 + 16) Hpair)
    as (encryptedKey & Hdec & Henc).
  cbv zeta in Henc.
  eexists. split; [|split; [|split]].
  - unfold encryptCustomerFieldsSecure, tryCatch, mbind, M_bind, bind, liftR.
    cbn [randomBytes].
    rewrite encrypt_loop by (by rewrite ?length_drawn).
    fold (payloadAt c F). rewrite Henc. cbn [mret M_ret ret].
    f_equal. lia.
  - reflexivity.
  - cbn [Package.encryptedData Package.iv Package.authTag
         Package.encryptedKey Package.algorithm].
    apply decryptHybridData_package;
      rewrite ?length_drawn; try done.
  - unfold decryptSecureData. cbn [privateKey].
    cbn [Package.encryptedData Package.iv Package.authTag
         Package.encryptedKey Package.algorithm].
    erewrite decryptHybridData_package;
      [| rewrite ?length_drawn; try done ..].
    cbn [rbind rcatch payloadAt Payload.algorithm Payload.tempKey
         Payload.encryptedFields].
    rewrite bool_decide_eq_true_2 by reflexivity. cbn [negb].
    rewrite fromBase64_toBase64, decrypt_loop.
    by rewrite decrypt_encrypt_fields by (by rewrite ?length_drawn).
Qed.


(** ** State-passing lemmas *)

Lemma preserves_ret {A X} (f : World.t -> X) (a : A) : preserves f (mret a).
Proof. by intros w. Qed.

Lemma preserves_throw {A X} (f : World.t -> X) (e : string) :
  preserves f (throw e : M World.t A).
Proof. by intros w. Qed.

Lemma preserves_liftR {A X} (f : World.t -> X) (r : result A) :
  preserves f (liftR r).
Proof. by intros w. Qed.

Lemma preserves_gets {A X} (f : World.t -> X) (g : World.t -> A) :
  preserves f (gets g).
Proof. by intros w. Qed.

Lemma preserves_bind {A B X} (f : World.t -> X) (m : M World.t A)
    (k : A -> M World.t B) :
  preserves f m -> (forall a, preserves f (k a)) -> preserves f (m ≫= k).
Proof.
  intros Hm Hk w. unfold mbind, M_bind, bind.
  specialize (Hm w). destruct (m w) as [[a|e] w1]; cbn in *.
  - by rewrite Hk.
  - done.
Qed.

Lemma preserves_tryCatch {A X} (f : World.t -> X) (m : M World.t A)
    (h : string -> M World.t A) :
  preserves f m -> (forall e, preserves f (h e)) -> preserves f (tryCatch m h).
Proof.
  intros Hm Hh w. unfold tryCatch.
  specialize (Hm w). destruct (m w) as [[a|e] w1]; cbn in *.
  - done.
  - by rewrite Hh.
Qed.

Lemma preserves_liftRng {A X} (f : World.t -> X) (m : M nat A) :
  (forall c w, f (World.setCursor c w) = f w) -> preserves f (liftRng m).
Proof.
  intros Hf w. unfold liftRng. destruct (m (World.cursor w)) as [r c].
  apply Hf.
Qed.

Lemma preserves_modify {X} (f : World.t -> X) (g : World.t -> World.t) :
  (forall w, f (g w) = f w) -> preserves f (modify g).
Proof. intros Hg w. apply Hg. Qed.

Ltac preserves_step :=
  match goal with
  | |- preserves _ (mret _) => apply preserves_ret
  | |- preserves _ (throw _) => apply preserves_throw
  | |- preserves _ (liftR _) => apply preserves_liftR
  | |- preserves _ (gets _) => apply preserves_gets
  | |- preserves _ (_ ≫= _) => apply preserves_bind; [|intros ?]
  | |- preserves _ (tryCatch _ _) => apply preserves_tryCatch; [|intros ?]
  | H : quiet ?f |- preserves ?f (liftRng _) =>
      apply preserves_liftRng, H
  | |- preserves _ (if ?b then _ else _) => destruct b
  | |- preserves _ (match ?x with _ => _ end) => destruct x
  | |- preserves _ (let '(_, _) := ?x in _) => destruct x
  end.

Lemma logEvent_preserves {X} (f : World.t -> X) (event : Event.t) :
  quiet f -> preserves f (logEvent event).
Proof. intros Hf. unfold logEvent. repeat preserves_step. Qed.

Lemma post_preserves {X} (f : World.t -> X) (url eventType : string)
    (body : PushBody) :
  quiet f -> preserves f (post url eventType body).
Proof. intros Hf. apply preserves_modify. intros w. apply Hf. Qed.

Lemma notifyPartner_preserves {X} (f : World.t -> X)
    (partnerId : string) (callbackUrl : option string) (eventType : string)
    (data : NotificationData) :
  quiet f -> preserves f (notifyPartner partnerId callbackUrl eventType data).
Proof.
  intros Hf. unfold notifyPartner.
  repeat (preserves_step
          || apply post_preserves || apply logEvent_preserves); done.
Qed.

Lemma notifyPartnerContractStatus_preserves {X} (f : World.t -> X)
    (partnerId : string) (callbackUrl : option string) (eventType : string)
    (data : PushData.t) (publicKey : option string) :
  quiet f ->
  preserves f (notifyPartnerContractStatus partnerId callbackUrl eventType
                 data publicKey).
Proof.
  intros Hf. unfold notifyPartnerContractStatus.
  repeat (preserves_step
          || apply post_preserves || apply logEvent_preserves); done.
Qed.

Lemma createDataRequest_preserves {X} (f : World.t -> X) (r : DataRequest.t) :
  quiet f -> preserves f (createDataRequest r).
Proof.
  intros Hf. unfold createDataRequest. repeat preserves_step.
  apply preserves_modify. intros w. apply Hf.
Qed.

Lemma encryptResponse_preserves {X} (f : World.t -> X)
    (publicKey : option string)
    (responseData fullyDecryptedData : gmap string string) :
  quiet f ->
  preserves f (encryptResponse publicKey responseData fullyDecryptedData).
Proof. intros Hf. unfold encryptResponse. repeat preserves_step. Qed.

Lemma disclose_preserves {X} (f : World.t -> X) (partner : Partner.t)
    (consent : Consent.t) (customer : gmap string string)
    (requestedFields : list string) :
  quiet f -> preserves f (disclose partner consent customer requestedFields).
Proof.
  intros Hf. unfold disclose.
  repeat (preserves_step
          || apply encryptResponse_preserves
          || apply notifyPartnerContractStatus_preserves); done.
Qed.

Lemma fulfil_preserves {X} (f : World.t -> X) (partner : Partner.t)
    (body : RequestBody.t) (requestId : string) (consent : Consent.t) :
  quiet f -> preserves f (fulfil partner body requestId consent).
Proof.
  intros Hf. unfold fulfil.
  repeat (preserves_step
          || apply createDataRequest_preserves
          || apply logEvent_preserves
          || apply disclose_preserves); done.
Qed.

Lemma requestIdOf_preserves {X} (f : World.t -> X) (body : RequestBody.t) :
  quiet f -> preserves f (requestIdOf body).
Proof. intros Hf. unfold requestIdOf. repeat preserves_step. Qed.

Lemma never403_ret (r : Response) :
  (forall body, r ≠ Json 403 body) -> never403 (mret r).
Proof. intros Hr w body. cbn. intros [= Heq]. by apply (Hr body). Qed.

Lemma never403_bind {A} (m : M World.t A) (k : A -> M World.t Response) :
  (forall a, never403 (k a)) -> never403 (m ≫= k).
Proof.
  intros Hk w body. unfold mbind, M_bind, bind.
  destruct (m w) as [[a|e] w1]; [apply Hk | done].
Qed.

Lemma disclose_never403 (partner : Partner.t) (consent : Consent.t)
    (customer : gmap string string) (requestedFields : list string) :
  never403 (disclose partner consent customer requestedFields).
Proof.
  unfold disclose. apply never403_bind. intros [encryptedResponse method].
  apply never403_bind. intros now. apply never403_bind. intros _.
  destruct encryptedResponse; by apply never403_ret.
Qed.

Lemma fulfil_never403 (partner : Partner.t) (body : RequestBody.t)
    (requestId : string) (consent : Consent.t) :
  never403 (fulfil partner body requestId consent).
Proof.
  unfold fulfil. apply never403_bind. intros isValid.
  destruct isValid; cbn [negb]; [|by apply never403_ret].
  apply never403_bind. intros [customer|]; [|by apply never403_ret].
  do 3 (apply never403_bind; intros ?). apply disclose_never403.
Qed.

(** ** The disclosure request, case by case *)

Lemma requestIdOf_eval (body : RequestBody.t) (w : World.t) :
  requestIdOf body w = (Ok (requestIdAt body w), afterRequestId body w).
Proof.
  unfold requestIdOf, requestIdAt, afterRequestId.
  by destruct (RequestBody.requestId body).
Qed.

Lemma afterRequestId_consents (body : RequestBody.t) (w : World.t) :
  World.consents (afterRequestId body w) = World.consents w.
Proof. unfold afterRequestId. by destruct (RequestBody.requestId body). Qed.

Lemma afterRequestId_now (body : RequestBody.t) (w : World.t) :
  World.now (afterRequestId body w) = World.now w.
Proof. unfold afterRequestId. by destruct (RequestBody.requestId body). Qed.

Lemma partnerDataRequest_cases (partner : Partner.t) (body : RequestBody.t)
    (w : World.t) :
  let w1 := afterRequestId body w in
  let requestedFields := RequestBody.requestedFields body in
  partnerDataRequest partner body w =
  if partnerBlocked partner then
    (Ok (Json 403 (ErrorBody
       "Partner is not active or does not have an approved contract")), w1)
  else
    match findActiveConsent (RequestBody.consentId body)
            (Partner.partnerId partner) (World.consents w) with
    | None => (Ok (Json 404 (ErrorBody "No active consent found")), w1)
    | Some (i, consent) =>
        if (Consent.expiresAt consent <? World.now w)%Z then
          (Ok (Json 403 (ErrorBody "Consent expired")),
           World.setConsents
             (<[i := expire (World.now w) consent]> (World.consents w)) w1)
        else if negb (Nat.eqb (length (invalidFields consent requestedFields)) 0)
        then
          (Ok (Json 403 (ErrorBody
             ("Fields not allowed: "
              ++ join ", " (invalidFields consent requestedFields)))), w1)
        else
          tryCatch (fulfil partner body (requestIdAt body w) consent)
            (fun error => mret (Next error)) w1
    end.
Proof.
  intros w1 requestedFields. subst w1 requestedFields.
  unfold partnerDataRequest.
  unfold tryCatch at 1. unfold mbind at 1, M_bind at 1, bind at 1.
  rewrite requestIdOf_eval.
  destruct (partnerBlocked partner); [reflexivity|].
  unfold mbind at 1, M_bind at 1, bind at 1. cbn [gets].
  rewrite afterRequestId_consents.
  destruct (findActiveConsent _ _ _) as [[i consent]|]; [|reflexivity].
  unfold mbind at 1, M_bind at 1, bind at 1. cbn [gets].
  rewrite afterRequestId_now.
  destruct (Consent.expiresAt consent <? World.now w)%Z.
  - unfold mbind, M_bind, bind, saveConsent, modify, expire. cbn.
    by rewrite afterRequestId_consents, afterRequestId_now.
  - destruct (negb _); reflexivity.
Qed.

Lemma tryCatch_next_never403 (m : M World.t Response) :
  never403 m -> never403 (tryCatch m (fun error => mret (Next error))).
Proof.
  intros Hm w body. unfold tryCatch. specialize (Hm w body).
  destruct (m w) as [[a|e] w1]; cbn in *; [done | discriminate].
Qed.

Lemma invalidFields_spec (consent : Consent.t) (requestedFields : list string)
    (field : string) :
  field ∈ invalidFields consent requestedFields
  <-> field ∈ requestedFields /\ field ∉ Consent.allowedDataFields consent.
Proof.
  unfold invalidFields. rewrite list_elem_of_filter.
  split; intros [H1 H2]; by split.
Qed.

Lemma invalidFields_nil (consent : Consent.t) (requestedFields : list string) :
  Nat.eqb (length (invalidFields consent requestedFields)) 0 = true
  <-> requestedFields ⊆ Consent.allowedDataFields consent.
Proof.
  rewrite Nat.eqb_eq, length_zero_iff_nil. split.
  - intros Hnil field Hin.
    destruct (decide (field ∈ Consent.allowedDataFields consent)) as [|Hout];
      [done|].
    assert (Hinv : field ∈ invalidFields consent requestedFields)
      by (by apply invalidFields_spec).
    rewrite Hnil in Hinv. by apply not_elem_of_nil in Hinv.
  - intros Hsub.
    destruct (invalidFields consent requestedFields) as [|field l] eqn:E;
      [done|].
    assert (Hinv : field ∈ invalidFields consent requestedFields)
      by (rewrite E; left).
    apply invalidFields_spec in Hinv as [Hin Hout]. by apply Hsub in Hin.
Qed.

Lemma allowedDataFields_quiet :
  quiet (fun w => Consent.allowedDataFields <$> World.consents w).
Proof. by repeat split. Qed.

Lemma consents_quiet : quiet World.consents.
Proof. by repeat split. Qed.

Lemma findActiveConsent_lookup (consentId partnerId : string)
    (consents : list Consent.t) (i : nat) (consent : Consent.t) :
  findActiveConsent consentId partnerId consents = Some (i, consent) ->
  consents !! i = Some consent
  /\ Consent.consentId consent = consentId
  /\ Consent.partnerId consent = partnerId
  /\ Consent.status consent = "active".
Proof.
  unfold findActiveConsent. intros Hfind.
  apply list_find_Some in Hfind as (Hi & (Hid & Hpartner & Hstatus) & _).
  by repeat split.
Qed.

(** No path of [partnerDataRequest] changes the allowed fields of any
    stored consent. *)
Lemma partnerDataRequest_keeps_allowedDataFields (partner : Partner.t)
    (body : RequestBody.t) (w : World.t) :
  Consent.allowedDataFields <$> World.consents (partnerDataRequest partner body w).2
  = Consent.allowedDataFields <$> World.consents w.
Proof.
  rewrite partnerDataRequest_cases. cbv zeta.
  destruct (partnerBlocked partner);
    [by cbn; rewrite afterRequestId_consents|].
  destruct (findActiveConsent _ _ _) as [[i consent]|] eqn:Hfind;
    [|by cbn; rewrite afterRequestId_consents].
  destruct (Consent.expiresAt consent <? World.now w)%Z.
  - cbn. rewrite list_fmap_insert. cbn.
    apply findActiveConsent_lookup in Hfind as [Hi _].
    apply list_insert_id. by rewrite list_lookup_fmap, Hi.
  - destruct (negb _); [by cbn; rewrite afterRequestId_consents|].
    rewrite (preserves_tryCatch
               (fun w => Consent.allowedDataFields <$> World.consents w)).
    + by rewrite afterRequestId_consents.
    + apply fulfil_preserves, allowedDataFields_quiet.
    + intros e. apply preserves_ret.
Qed.

(** An authorized request leaves every stored consent as it was. *)
Lemma fulfil_keeps_consents (partner : Partner.t) (body : RequestBody.t)
    (requestId : string) (consent : Consent.t) (w : World.t) :
  World.consents
    (tryCatch (fulfil partner body requestId consent)
       (fun error => mret (Next error)) w).2
  = World.consents w.
Proof.
  apply (preserves_tryCatch World.consents).
  - apply fulfil_preserves, consents_quiet.
  - intros e. apply preserves_ret.
Qed.

(** C4. For every disclosure request that reaches the check of the
    requested fields (the partner is active with an approved contract, and
    the consent is found active and not expired), the response is the 403
    response [Fields not allowed: ...] if and only if the requested fields
    are not all among the consent's allowed fields; the message lists the
    requested fields that are not allowed, and only those, joined by a
    comma; when the request is authorized no stored consent changes, and on
    every path the allowed fields of every stored consent are what they
    were. *)
Theorem fields_not_allowed_iff (partner : Partner.t) (body : RequestBody.t)
    (w : World.t) (i : nat) (consent : Consent.t) :
  partnerBlocked partner = false ->
  findActiveConsent (RequestBody.consentId body) (Partner.partnerId partner)
    (World.consents w) = Some (i, consent) ->
  ~ (Consent.expiresAt consent < World.now w)%Z ->
  let requestedFields := RequestBody.requestedFields body in
  let allowedFields := Consent.allowedDataFields consent in
  let offending := invalidFields consent requestedFields in
  let r := partnerDataRequest partner body w in
  (r.1 = Ok (Json 403 (ErrorBody
               ("Fields not allowed: " ++ join ", " offending)))
   <-> ~ requestedFields ⊆ allowedFields)
  /\ (forall field,
        field ∈ offending
        <-> field ∈ requestedFields /\ field ∉ allowedFields)
  /\ (requestedFields ⊆ allowedFields ->
      World.consents r.2 = World.consents w)
  /\ Consent.allowedDataFields <$> World.consents r.2
     = Consent.allowedDataFields <$> World.consents w.
Proof.
  intros Hgate Hfind Hlive requestedFields allowedFields offending r.
  assert (Hr : r = if negb (Nat.eqb (length offending) 0)
                   then (Ok (Json 403 (ErrorBody
                           ("Fields not allowed: " ++ join ", " offending))),
                         afterRequestId body w)
                   else tryCatch
                          (fulfil partner body (requestIdAt body w) consent)
                          (fun error => mret (Next error))
                          (afterRequestId body w)).
  { subst r. rewrite partnerDataRequest_cases. cbv zeta.
    rewrite Hgate, Hfind.
    by rewrite (proj2 (Z.ltb_ge _ _)) by lia. }
  pose proof (invalidFields_nil consent requestedFields) as Hnil.
  fold offending allowedFields in Hnil.
  split; [split | split; [|split]].
  - intros Hresp Hsub. apply Hnil in Hsub. rewrite Hr, Hsub in Hresp.
    cbn [negb] in Hresp.
    by eapply tryCatch_next_never403; [apply fulfil_never403 | exact Hresp].
  - intros Hnsub. rewrite Hr.
    destruct (Nat.eqb (length offending) 0); [|reflexivity].
    exfalso. apply Hnsub. by apply Hnil.
  - intros field. apply invalidFields_spec.
  - intros Hsub. apply Hnil in Hsub. rewrite Hr, Hsub. cbn [negb].
    by rewrite fulfil_keeps_consents, afterRequestId_consents.
  - apply partnerDataRequest_keeps_allowedDataFields.
Qed.

(** C5 (amended). A disclosure request is answered with the 403 response
    [Consent expired] if and only if the partner is active with an approved
    contract and the consent found with the stored status [active] has
    [now > expiresAt]; when this happens the stored consent has its status
    set to [expired] (and [updatedAt] stamped) in the state the response is
    sent from. A consent whose stored status is not [active] is not found:
    the answer is then 404 [No active consent found], whatever its expiry
    date. *)
Theorem consent_expired_iff (partner : Partner.t) (body : RequestBody.t)
    (w : World.t) :
  let found :=
    findActiveConsent (RequestBody.consentId body) (Partner.partnerId partner)
      (World.consents w) in
  let r := partnerDataRequest partner body w in
  (r.1 = Ok (Json 403 (ErrorBody "Consent expired"))
   <-> partnerBlocked partner = false
       /\ exists i consent,
            found = Some (i, consent)
            /\ (Consent.expiresAt consent < World.now w)%Z)
  /\ (forall i consent,
        partnerBlocked partner = false ->
        found = Some (i, consent) ->
        (Consent.expiresAt consent < World.now w)%Z ->
        World.consents r.2
        = <[i := expire (World.now w) consent]> (World.consents w)
        /\ World.consents r.2 !! i = Some (expire (World.now w) consent)
        /\ Consent.status (expire (World.now w) consent) = "expired")
  /\ (partnerBlocked partner = false -> found = None ->
      r.1 = Ok (Json 404 (ErrorBody "No active consent found"))).
Proof.
  intros found r. subst r found.
  rewrite partnerDataRequest_cases. cbv zeta.
  split; [split | split].
  - destruct (partnerBlocked partner); [discriminate|].
    destruct (findActiveConsent _ _ _) as [[i consent]|]; [|discriminate].
    destruct (Consent.expiresAt consent <? World.now w)%Z eqn:Hexp.
    + intros _. split; [done|]. exists i, consent. split; [done|].
      by apply Z.ltb_lt.
    + destruct (negb _); [cbn; discriminate|].
      intros Hresp. exfalso.
      by eapply tryCatch_next_never403; [apply fulfil_never403 | exact Hresp].
  - intros (-> & i & consent & -> & Hexp).
    by rewrite (proj2 (Z.ltb_lt _ _) Hexp).
  - intros i consent -> Hfind Hexp. rewrite Hfind.
    rewrite (proj2 (Z.ltb_lt _ _) Hexp). cbn [snd].
    split; [reflexivity|]. split; [|reflexivity].
    cbn. apply list_lookup_insert_eq.
    apply findActiveConsent_lookup in Hfind as [Hi _].
    by apply lookup_lt_Some in Hi.
  - by intros -> ->.
Qed.

(** ** Computations that never throw *)

Lemma returns_ret {A} (a : A) : returns (mret a).
Proof. intros w. by exists a. Qed.

Lemma returns_gets {A} (g : World.t -> A) : returns (gets g).
Proof. intros w. by eexists. Qed.

Lemma returns_modify (g : World.t -> World.t) : returns (modify g).
Proof. intros w. by exists tt. Qed.

Lemma returns_bind {A B} (m : M World.t A) (k : A -> M World.t B) :
  returns m -> (forall a, returns (k a)) -> returns (m ≫= k).
Proof.
  intros Hm Hk w. unfold mbind, M_bind, bind.
  destruct (Hm w) as [a Ha]. destruct (m w) as [[a'|e] w1]; cbn in *;
    [apply Hk | discriminate].
Qed.

Lemma returns_tryCatch {A} (m : M World.t A) (h : string -> M World.t A) :
  (forall e, returns (h e)) -> returns (tryCatch m h).
Proof.
  intros Hh w. unfold tryCatch.
  destruct (m w) as [[a|e] w1]; [by exists a | apply Hh].
Qed.

Lemma returns_liftRng_uuidv4 : returns (liftRng uuidv4).
Proof. intros w. by eexists. Qed.

Ltac returns_step :=
  match goal with
  | |- returns (mret _) => apply returns_ret
  | |- returns (gets _) => apply returns_gets
  | |- returns (modify _) => apply returns_modify
  | |- returns (liftRng uuidv4) => apply returns_liftRng_uuidv4
  | |- returns (_ ≫= _) => apply returns_bind; [|intros ?]
  | |- returns (tryCatch _ _) => apply returns_tryCatch; intros ?
  | |- returns (if ?b then _ else _) => destruct b
  | |- returns (match ?x with _ => _ end) => destruct x
  end.

Lemma logEvent_returns (event : Event.t) : returns (logEvent event).
Proof. unfold logEvent. repeat returns_step. Qed.

Lemma notifyPartner_returns (partnerId : string)
    (callbackUrl : option string) (eventType : string)
    (data : NotificationData) :
  returns (notifyPartner partnerId callbackUrl eventType data).
Proof.
  unfold notifyPartner, post.
  repeat (returns_step || apply logEvent_returns).
Qed.

Lemma notifyConsentChange_returns (eventType : string) (consent : Consent.t)
    (status : string) :
  returns (notifyConsentChange eventType consent status).
Proof.
  unfold notifyConsentChange.
  repeat (returns_step || apply notifyPartner_returns).
Qed.

Lemma notifyConsentChange_preserves {X} (f : World.t -> X)
    (eventType : string) (consent : Consent.t) (status : string) :
  quiet f -> preserves f (notifyConsentChange eventType consent status).
Proof.
  intros Hf. unfold notifyConsentChange.
  repeat (preserves_step || apply notifyPartner_preserves); done.
Qed.

(** The end of [updateConsent] and of [revokeConsent]: the audit event,
    the notification and the 200 response; the consents stay as they
    are. *)
Lemma consent_response (eventType : string) (user : User.t)
    (consent : Consent.t) (status : string) (w : World.t) :
  exists w',
    (logEvent (consentEvent eventType user consent);;
     notifyConsentChange eventType consent status;;
     mret (Json 200 (ConsentBody consent))) w
    = (Ok (Json 200 (ConsentBody consent)), w')
    /\ World.consents w' = World.consents w.
Proof.
  unfold mbind, M_bind, bind.
  pose proof (logEvent_returns (consentEvent eventType user consent) w)
    as [a Ha].
  pose proof (logEvent_preserves World.consents
                (consentEvent eventType user consent) consents_quiet w) as Hp.
  destruct (logEvent _ w) as [[a'|e] w1]; [|discriminate]. cbn in Hp.
  pose proof (notifyConsentChange_returns eventType consent status w1)
    as [b Hb].
  pose proof (notifyConsentChange_preserves World.consents eventType consent
                status consents_quiet w1) as Hq.
  destruct (notifyConsentChange _ _ _ w1) as [[b'|e] w2]; [|discriminate].
  cbn in Hq. exists w2. split; [reflexivity|]. by rewrite Hq, Hp.
Qed.

(** ** The consent controller *)

Lemma findConsent_lookup (consentId : string) (consents : list Consent.t)
    (i : nat) (consent : Consent.t) :
  findConsent consentId consents = Some (i, consent) ->
  consents !! i = Some consent /\ Consent.consentId consent = consentId.
Proof.
  unfold findConsent. intros Hfind.
  apply list_find_Some in Hfind as (Hi & Hid & _). by split.
Qed.

Lemma revokeConsent_run (user : User.t) (consentId : string) (w : World.t)
    (i : nat) (consent : Consent.t) :
  findConsent consentId (World.consents w) = Some (i, consent) ->
  notPermitted user consent = false ->
  exists w',
    revokeConsent user consentId w
    = (Ok (Json 200 (ConsentBody (revoked (World.now w) consent))), w')
    /\ World.consents w'
       = <[i := revoked (World.now w) consent]> (World.consents w).
Proof.
  intros Hfind Hperm. unfold revokeConsent, tryCatch.
  unfold mbind at 1, M_bind at 1, bind at 1. cbn [gets].
  rewrite Hfind, Hperm.
  unfold mbind at 1, M_bind at 1, bind at 1. cbn [gets].
  unfold mbind at 1, M_bind at 1, bind at 1. unfold saveConsent at 1.
  cbn [modify].
  match goal with
  | |- context [(logEvent ?ev;; _) ?w1] =>
      destruct (consent_response "consent_revoked" user
                  (revoked (World.now w) consent) "revoked" w1)
        as (w' & Hrun & Hcons)
  end.
  exists w'. unfold revoked in *. rewrite Hrun. split; [reflexivity|].
  by rewrite Hcons.
Qed.

Lemma findOneAndUpdate_run (consentId : string) (u : UpdateData.t)
    (w : World.t) (i : nat) (consent : Consent.t) :
  validUpdate u = true ->
  findConsent consentId (World.consents w) = Some (i, consent) ->
  findOneAndUpdate consentId u w
  = (Ok (Some (applyUpdate u consent)),
     World.setConsents (<[i := applyUpdate u consent]> (World.consents w)) w).
Proof.
  intros Hvalid Hfind. unfold findOneAndUpdate. rewrite Hvalid. cbn [negb].
  unfold mbind, M_bind, bind. cbn [gets]. by rewrite Hfind.
Qed.

(** [updateConsent] up to the permission check, which comes after the
    update has been written. *)
Lemma updateConsent_cases (user : User.t) (consentId : string)
    (body : UpdateBody.t) (w : World.t) (i : nat) (consent : Consent.t) :
  findConsent consentId (World.consents w) = Some (i, consent) ->
  from_option belowMinimum false
    (truthyNumber (UpdateBody.consentDuration body)) = false ->
  validUpdate (buildUpdateData consentId body w) = true ->
  let updated := applyUpdate (buildUpdateData consentId body w) consent in
  let w1 := World.setConsents (<[i := updated]> (World.consents w)) w in
  updateConsent user consentId body w =
  if notPermitted user consent then
    (Ok (Json 403 (ErrorBody
       "You do not have permission to update this consent")), w1)
  else
    tryCatch
      (logEvent (consentEvent "consent_updated" user updated);;
       notifyConsentChange "consent_updated" updated (Consent.status updated);;
       mret (Json 200 (ConsentBody updated)))
      (fun error => mret (Next error)) w1.
Proof.
  intros Hfind Hmin Hvalid updated w1. subst w1 updated.
  unfold updateConsent. rewrite Hmin.
  unfold tryCatch at 1. unfold mbind at 1, M_bind at 1, bind at 1.
  cbn [gets].
  unfold mbind at 1, M_bind at 1, bind at 1.
  rewrite (findOneAndUpdate_run _ _ _ i consent Hvalid Hfind).
  change (notPermitted user (applyUpdate (buildUpdateData consentId body w)
                               consent))
    with (notPermitted user consent).
  destruct (notPermitted user consent); reflexivity.
Qed.

Lemma statusOnly_valid (consentId status : string) (w : World.t) :
  status ∈ statusEnum ->
  validUpdate (buildUpdateData consentId (statusOnly status) w) = true
  /\ UpdateData.status (buildUpdateData consentId (statusOnly status) w)
     = Some status.
Proof.
  intros Hin.
  assert (Htruthy : truthy status = true).
  { unfold statusEnum in Hin.
    repeat (apply elem_of_cons in Hin as [->|Hin]; [reflexivity|]).
    by apply not_elem_of_nil in Hin. }
  unfold buildUpdateData, validUpdate, statusOnly, providedPaths. cbn.
  rewrite Htruthy. cbn. by rewrite bool_decide_eq_true_2.
Qed.

(** C8 (amended). The status of a consent is not terminal. For an admin or
    the owning customer and a stored consent of any status, [revokeConsent]
    makes no check of the current status: it answers 200 and stores the
    consent with status [revoked], also when it was already revoked or
    expired; and [updateConsent] stores whatever status of the enumeration
    the body provides, so that it sets a revoked or an expired consent back
    to [active]. *)
Theorem consent_status_not_terminal (user : User.t) (consentId : string)
    (w : World.t) (i : nat) (consent : Consent.t) :
  findConsent consentId (World.consents w) = Some (i, consent) ->
  notPermitted user consent = false ->
  (exists w',
     revokeConsent user consentId w
     = (Ok (Json 200 (ConsentBody (revoked (World.now w) consent))), w')
     /\ World.consents w'
        = <[i := revoked (World.now w) consent]> (World.consents w)
     /\ Consent.status (revoked (World.now w) consent) = "revoked")
  /\ (forall status,
        status ∈ statusEnum ->
        let updated :=
          applyUpdate (buildUpdateData consentId (statusOnly status) w)
            consent in
        exists w',
          updateConsent user consentId (statusOnly status) w
          = (Ok (Json 200 (ConsentBody updated)), w')
          /\ World.consents w' = <[i := updated]> (World.consents w)
          /\ Consent.status updated = status).
Proof.
  intros Hfind Hperm. split.
  - destruct (revokeConsent_run user consentId w i consent Hfind Hperm)
      as (w' & Hrun & Hcons).
    by exists w'.
  - intros status Hin updated.
    destruct (statusOnly_valid consentId status w Hin) as [Hvalid Hstatus].
    rewrite (updateConsent_cases user consentId (statusOnly status) w i
               consent Hfind eq_refl Hvalid).
    cbv zeta. rewrite Hperm. fold updated.
    match goal with
    | |- context [tryCatch _ _ ?w1] =>
        destruct (consent_response "consent_updated" user updated
                    (Consent.status updated) w1) as (w' & Hrun & Hcons)
    end.
    exists w'. unfold tryCatch. rewrite Hrun. split; [reflexivity|].
    split; [by rewrite Hcons|].
    subst updated. unfold applyUpdate. cbn [Consent.status].
    by rewrite Hstatus.
Qed.

(** C10. [updateConsent] writes the update before it checks the caller:
    for a caller who is neither an admin nor the owning customer, an
    existing consent and a body that passes the validators, the response
    is the 403 permission error, and the state it leaves holds the updated
    consent in place of the stored one (with [updatedAt] set to the
    current time and every provided path written); whenever the update
    changes the consent, the state differs from the one before the call. *)
Theorem updateConsent_writes_before_permission_check (user : User.t)
    (consentId : string) (body : UpdateBody.t) (w : World.t) (i : nat)
    (consent : Consent.t) :
  findConsent consentId (World.consents w) = Some (i, consent) ->
  from_option belowMinimum false
    (truthyNumber (UpdateBody.consentDuration body)) = false ->
  validUpdate (buildUpdateData consentId body w) = true ->
  notPermitted user consent = true ->
  let updateData := buildUpdateData consentId body w in
  let updated := applyUpdate updateData consent in
  let r := updateConsent user consentId body w in
  r = (Ok (Json 403 (ErrorBody
             "You do not have permission to update this consent")),
       World.setConsents (<[i := updated]> (World.consents w)) w)
  /\ World.consents r.2 !! i = Some updated
  /\ Consent.updatedAt updated = World.now w
  /\ (forall status, UpdateData.status updateData = Some status ->
                     Consent.status updated = status)
  /\ (updated ≠ consent -> World.consents r.2 ≠ World.consents w).
Proof.
  intros Hfind Hmin Hvalid Hperm updateData updated r.
  assert (Hr : r = (Ok (Json 403 (ErrorBody
                      "You do not have permission to update this consent")),
                    World.setConsents
                      (<[i := updated]> (World.consents w)) w)).
  { subst r. rewrite (updateConsent_cases user consentId body w i consent
                        Hfind Hmin Hvalid).
    cbv zeta. by rewrite Hperm. }
  apply findConsent_lookup in Hfind as [Hi _].
  assert (Hstored : World.consents r.2 !! i = Some updated).
  { rewrite Hr. cbn. apply list_lookup_insert_eq.
    by apply lookup_lt_Some in Hi. }
  split; [exact Hr|]. split; [exact Hstored|]. split; [reflexivity|].
  split.
  - intros status Hs. subst updated. unfold applyUpdate.
    cbn [Consent.status]. by rewrite Hs.
  - intros Hne Heq. rewrite Heq, Hi in Hstored. by injection Hstored as <-.
Qed.

(** ** The audit service *)

(** C2. What the code does where the contract asks for a hashed, chained,
    signed and persisted entry: [logEvent] returns a mock entry made of a
    fresh UUID, the event type, the actor and the current time, over which
    no hash is computed and no signature made, and it leaves the audit
    collection, like the rest of the database, as it was; only the random
    source has advanced, by the 16 bytes of the UUID. *)
Theorem logEvent_persists_nothing (event : Event.t) (w : World.t) :
  logEvent event w
  = (Ok {| MockLog.logId := uuidText (drawn (World.cursor w) 16);
           MockLog.eventType := Event.eventType event;
           MockLog.actorType := Event.actorType event;
           MockLog.actorId := Event.actorId event;
           MockLog.timestamp := toISOString (World.now w) |},
     World.setCursor (World.cursor w + 16) w)
  /\ World.auditLogs (logEvent event w).2 = World.auditLogs w.
Proof. split; reflexivity. Qed.

(** When the verdict of the loop is [valid], every log after the first is
    linked to its predecessor and carries a signature that verifies. *)
Lemma verifyFrom_valid (signer : SignatureService) (rest : list AuditLog.t)
    (previousLog : AuditLog.t) (verdict : Verdict.t) :
  verifyFrom signer previousLog rest = Ok verdict ->
  Verdict.valid verdict = true ->
  forall k currentLog,
    rest !! k = Some currentLog ->
    AuditLog.previousHash currentLog
    = AuditLog.eventHash (default previousLog ((previousLog :: rest) !! k))
    /\ verifySignature signer (AuditLog.eventHash currentLog)
         (AuditLog.digitalSignature currentLog) None = Ok true.
Proof.
  revert previousLog.
  induction rest as [|log rest IH]; intros previousLog Hrun Hvalid k current Hk;
    [done|].
  cbn [verifyFrom] in Hrun.
  destruct (bool_decide (AuditLog.previousHash log
                         = AuditLog.eventHash previousLog)) eqn:Hlink;
    cbn [negb] in Hrun;
    [|injection Hrun as <-; discriminate].
  apply bool_decide_eq_true_1 in Hlink.
  destruct (verifySignature signer _ _ None) as [[|]|] eqn:Hsig;
    cbn [rbind negb] in Hrun;
    [|injection Hrun as <-; discriminate | discriminate].
  destruct k as [|k]; cbn in Hk.
  - injection Hk as <-. by split.
  - destruct (IH log Hrun Hvalid k current Hk) as [Hprev Hver].
    split; [|exact Hver]. rewrite Hprev. cbn.
    destruct ((log :: rest) !! k) eqn:E; [done|].
    apply lookup_ge_None in E. apply lookup_lt_Some in Hk. cbn in E. lia.
Qed.

(** C3. What the code does on a range of two logs: when the second log is
    linked to the first and its signature verifies, [verifyLogIntegrity]
    answers [valid] although the signature of the first log does not
    verify; the loop starts at the second log and the signature of the
    first one is never checked. A range of one log is valid whatever its
    signature. *)
Theorem verifyLogIntegrity_skips_first_signature (signer : SignatureService)
    (startId endId : string) (w : World.t) (firstLog secondLog : AuditLog.t) :
  findLogs startId endId (World.auditLogs w) = [firstLog; secondLog] ->
  verifySignature signer (AuditLog.eventHash firstLog)
    (AuditLog.digitalSignature firstLog) None = Ok false ->
  AuditLog.previousHash secondLog = AuditLog.eventHash firstLog ->
  verifySignature signer (AuditLog.eventHash secondLog)
    (AuditLog.digitalSignature secondLog) None = Ok true ->
  verifyLogIntegrity signer startId endId w
  = (Ok {| Verdict.valid := true;
           Verdict.message := "Log chain integrity verified" |}, w)
  /\ verifyLogs signer [firstLog]
     = Ok {| Verdict.valid := true;
             Verdict.message := "Log chain integrity verified" |}
  /\ ~ Forall (fun log =>
                verifySignature signer (AuditLog.eventHash log)
                  (AuditLog.digitalSignature log) None = Ok true)
         (findLogs startId endId (World.auditLogs w)).
Proof.
  intros Hlogs Hfirst Hlink Hsig.
  unfold verifyLogIntegrity, mbind, M_bind, bind, liftR. cbn [gets].
  rewrite Hlogs. unfold verifyLogs. cbn [verifyFrom].
  rewrite bool_decide_eq_true_2 by exact Hlink. cbn [negb].
  rewrite Hsig. split; [reflexivity|]. split; [reflexivity|].
  intros Hall. apply Forall_cons in Hall as [Hok _].
  rewrite Hfirst in Hok. discriminate.
Qed.

(** ** The disclosure *)

Lemma addField_no_match (customer responseData : gmap string string)
    (requestedFields : list string) :
  noFieldMatches customer requestedFields ->
  foldl (addField customer) responseData requestedFields = responseData.
Proof.
  revert responseData.
  induction requestedFields as [|field fields IH]; intros responseData Hno;
    [reflexivity|].
  cbn [foldl]. destruct (Hno field) as [Hown Hmapped]; [left|].
  assert (Hstep : addField customer responseData field = responseData).
  { unfold addField. rewrite Hown.
    destruct (fieldMap !! field) as [mapped|] eqn:E; [|reflexivity].
    by rewrite (Hmapped mapped). }
  rewrite Hstep. apply IH. intros f Hf. apply Hno. by right.
Qed.

Lemma buildResponseData_no_match (customer : gmap string string)
    (requestedFields : list string) :
  noFieldMatches customer requestedFields ->
  buildResponseData customer requestedFields = testData.
Proof.
  intros Hno. unfold buildResponseData. by rewrite addField_no_match.
Qed.

Lemma testData_lookup (k v : string) :
  testData !! k = Some v ->
  (k = "phone" /\ v = "+1234567890")
  \/ (k = "email" /\ v = "test@example.com")
  \/ (k = "name" /\ v = "Test Customer")
  \/ (k = "testData" /\ v = "This is test data to demonstrate encryption").
Proof.
  unfold testData. intros H.
  repeat (apply lookup_insert_Some in H as [[<- <-]|[_ H]]; [by eauto 6|]).
  by rewrite lookup_empty in H.
Qed.

Lemma decryptStored_plain (m : gmap string string) :
  (forall k v, m !! k = Some v -> looksEncrypted v = false) ->
  map_fold decryptStored ∅ m = m.
Proof.
  apply (map_fold_weak_ind
           (fun r m => (forall k v, m !! k = Some v -> looksEncrypted v = false)
                       -> r = m)).
  - done.
  - intros i x m' r Hi IH Hplain. unfold decryptStored.
    rewrite (Hplain i x) by apply lookup_insert_eq.
    rewrite IH; [done|]. intros k v Hk. apply (Hplain k).
    rewrite lookup_insert_ne; [done|]. intros <-. by rewrite Hi in Hk.
Qed.

Lemma testData_plain : map_fold decryptStored ∅ testData = testData.
Proof.
  apply decryptStored_plain. intros k v Hk.
  apply testData_lookup in Hk as [[_ ->]|[[_ ->]|[[_ ->]|[_ ->]]]];
    by vm_compute.
Qed.

Lemma testData_truthy : truthyFields testData = testData.
Proof.
  apply truthyFields_id. intros k v Hk.
  by apply testData_lookup in Hk as [[_ ->]|[[_ ->]|[[_ ->]|[_ ->]]]].
Qed.

Lemma encryptResponse_secure (pk priv : string)
    (responseData fullyDecryptedData : gmap string string) (w : World.t) :
  truthy pk = true -> rsa_keypair (toPem pk) priv ->
  exists envelope,
    encryptResponse (Some pk) responseData fullyDecryptedData w
    = (Ok (Some envelope, secureType),
       World.setCursor (World.cursor w + 128) w)
    /\ decryptSecureData {| privateKey := Some priv |} envelope
       = Ok (truthyFields fullyDecryptedData).
Proof using Type rsa_oaep_correct parsePayload_stringifyPayload gcm_keystream_length fromBase64_toBase64.
  intros Hpk Hpair.
  destruct (secure_envelope_opens fullyDecryptedData pk priv (World.cursor w)
              Hpair) as (envelope & Henc & _ & _ & Hdec).
  exists envelope. split; [|exact Hdec].
  unfold encryptResponse. rewrite Hpk.
  unfold tryCatch, mbind, M_bind, bind, liftRng. by rewrite Henc.
Qed.

(** What [disclose] answers: with a public key on file, the secure
    envelope of the decrypted response data; without one, the response
    data in clear. *)
Lemma disclose_run (partner : Partner.t) (consent : Consent.t)
    (customer : gmap string string) (requestedFields : list string)
    (w : World.t) :
  let responseData := buildResponseData customer requestedFields in
  let message := deliveryMessage (Partner.callbackUrl partner) in
  (forall pk priv,
     Partner.publicKey partner = Some pk -> truthy pk = true ->
     rsa_keypair (toPem pk) priv ->
     exists envelope w',
       disclose partner consent customer requestedFields w
       = (Ok (Json 200 (DisclosureBody true (Encrypted envelope) message)), w')
       /\ decryptSecureData {| privateKey := Some priv |} envelope
          = Ok (truthyFields (map_fold decryptStored ∅ responseData)))
  /\ (Partner.publicKey partner = None ->
      exists w',
        disclose partner consent customer requestedFields w
        = (Ok (Json 200 (DisclosureBody false (Plain responseData) message)),
           w')).
Proof using Type rsa_oaep_correct parsePayload_stringifyPayload gcm_keystream_length fromBase64_toBase64.
  intros responseData message. split.
  - intros pk priv Hkey Hpk Hpair.
    destruct (encryptResponse_secure pk priv responseData
                (map_fold decryptStored ∅ responseData) w Hpk Hpair)
      as (envelope & Henc & Hdec).
    exists envelope. unfold disclose. fold responseData. rewrite Hkey.
    unfold mbind at 1, M_bind at 1, bind at 1. rewrite Henc.
    unfold mbind at 1, M_bind at 1, bind at 1. cbn [gets].
    unfold mbind at 1, M_bind at 1, bind at 1.
    match goal with
    | |- context [tryCatch ?m ?h ?w1] =>
        destruct (returns_tryCatch m h (fun e => returns_ret tt) w1)
          as [u Hu];
        destruct (tryCatch m h w1) as [[u'|e] w2]; [|discriminate]
    end.
    by exists w2.
  - intros Hkey. unfold disclose. fold responseData. rewrite Hkey.
    unfold mbind at 1, M_bind at 1, bind at 1. cbn [encryptResponse mret M_ret ret].
    unfold mbind at 1, M_bind at 1, bind at 1. cbn [gets].
    unfold mbind at 1, M_bind at 1, bind at 1.
    match goal with
    | |- context [tryCatch ?m ?h ?w1] =>
        destruct (returns_tryCatch m h (fun e => returns_ret tt) w1)
          as [u Hu];
        destruct (tryCatch m h w1) as [[u'|e] w2]; [|discriminate]
    end.
    by exists w2.
Qed.

Lemma fulfil_run (partner : Partner.t) (body : RequestBody.t)
    (requestId : string) (consent : Consent.t)
    (customer : gmap string string) (w : World.t) :
  signatureAccepted partner requestId (RequestBody.consentId body)
    (RequestBody.requestedFields body) (RequestBody.signature body) = Ok true ->
  World.customers w !! Consent.customerId consent = Some customer ->
  requestId ∉ map DataRequest.requestId (World.dataRequests w) ->
  fulfil partner body requestId consent w
  = disclose partner consent customer (RequestBody.requestedFields body)
      (recorded partner body requestId w).
Proof.
  intros Hsig Hcustomer Hfresh. unfold fulfil.
  unfold mbind at 1, M_bind at 1, bind at 1. unfold liftR at 1.
  rewrite Hsig. cbn [negb].
  unfold mbind at 1, M_bind at 1, bind at 1. cbn [gets]. rewrite Hcustomer.
  unfold mbind at 1, M_bind at 1, bind at 1. cbn [gets].
  unfold mbind at 1, M_bind at 1, bind at 1.
  unfold createDataRequest at 1.
  unfold mbind at 1, M_bind at 1, bind at 1. cbn [gets].
  rewrite bool_decide_eq_false_2 by exact Hfresh. cbn [modify].
  unfold mbind at 1, M_bind at 1, bind at 1.
  reflexivity.
Qed.

Lemma afterRequestId_customers (body : RequestBody.t) (w : World.t) :
  World.customers (afterRequestId body w) = World.customers w.
Proof. unfold afterRequestId. by destruct (RequestBody.requestId body). Qed.

Lemma afterRequestId_dataRequests (body : RequestBody.t) (w : World.t) :
  World.dataRequests (afterRequestId body w) = World.dataRequests w.
Proof. unfold afterRequestId. by destruct (RequestBody.requestId body). Qed.


(** ** The hybrid package *)

Lemma length_gcmEncrypt (key iv plaintext : bytes) :
  length (fst (gcmEncrypt (key, iv) plaintext)) = length plaintext.
Proof using Type gcm_keystream_length.
  cbn. apply length_xorBytes. by rewrite gcm_keystream_length.
Qed.


(** X2. A hybrid package is authenticated: when one bit of the
    ciphertext or of the authentication tag of the package made by
    [encryptWithPublicKey] is inverted, [decryptHybridData] under the
    private key throws and parses nothing. For the ciphertext this rests
    on the tag of the drawn AES key telling a one-bit change. *)
Theorem decryptHybridData_detects_bit_flip {A}
    (parse : string -> result A) (data pub priv : string) (c i j : nat) :
  rsa_keypair (toPem pub) priv ->
  tagDetectsBitFlips (drawn c 32) ->
  j < 8 ->
  exists package,
    encryptWithPublicKey data pub c = (Ok package, c + 80)
    /\ length (fromBase64 (Package.encryptedData package))
       = length (utf8 data)
    /\ (i < length (utf8 data) ->
        decryptHybridData parse {| privateKey := Some priv |}
          (flipPackageDataBit package i j)
        = Throw ("Failed to decrypt data: "
                 ++ "Unsupported state or unable to authenticate data"))
    /\ (i < length (fromBase64 (Package.authTag package)) ->
        decryptHybridData parse {| privateKey := Some priv |}
          (flipPackageTagBit package i j)
        = Throw ("Failed to decrypt data: "
                 ++ "Unsupported state or unable to authenticate data")).
Proof using Type rsa_oaep_correct gcm_keystream_length fromBase64_toBase64.
  intros Hpair Htag Hj.
  destruct (encryptWithPublicKey_eval data pub priv c Hpair)
    as (encryptedKey & Hdec & Henc).
  cbv zeta in Henc.
  eexists. split; [|split; [|split]].
  - rewrite Henc. f_equal. lia.
  - cbn [Package.encryptedData]. rewrite fromBase64_toBase64.
    apply length_gcmEncrypt.
  - intros Hi. unfold decryptHybridData, flipPackageDataBit.
    cbn [privateKey Package.algorithm Package.encryptedKey Package.iv
         Package.authTag Package.encryptedData].
    rewrite bool_decide_eq_true_2 by reflexivity.
    rewrite !fromBase64_toBase64, Hdec. cbn [rbind].
    rewrite createCipheriv_ok by (by rewrite ?length_drawn). cbn [rbind].
    unfold gcmDecrypt. cbn [gcmEncrypt fst snd].
    rewrite bool_decide_eq_false_2; [reflexivity|].
    intros Heq. symmetry in Heq. revert Heq. apply Htag; [|done].
    rewrite length_xorBytes by (by rewrite gcm_keystream_length). done.
  - intros Hi. unfold decryptHybridData, flipPackageTagBit.
    cbn [privateKey Package.algorithm Package.encryptedKey Package.iv
         Package.authTag Package.encryptedData] in *.
    rewrite bool_decide_eq_true_2 by reflexivity.
    rewrite !fromBase64_toBase64, Hdec in *. cbn [rbind].
    rewrite createCipheriv_ok by (by rewrite ?length_drawn). cbn [rbind].
    unfold gcmDecrypt. cbn [gcmEncrypt fst snd] in *.
    rewrite bool_decide_eq_false_2; [reflexivity|].
    by apply flipBit_neq.
Qed.


(** ** The secure envelope, field by field *)

Lemma decryptOne_bad_tag (tempAesKey : bytes) (field : EncryptedField.t) :
  length tempAesKey = 32 ->
  fromHex (EncryptedField.iv field) ≠ [] ->
  fromHex (EncryptedField.authTag field)
  ≠ gcm_tag tempAesKey (fromHex (EncryptedField.iv field))
      (fromHex (EncryptedField.encryptedValue field)) ->
  decryptOne tempAesKey field = decryptionFailed.
Proof.
  intros Hk Hiv Htag. unfold decryptOne.
  rewrite createCipheriv_ok; [|done|by destruct (fromHex _)].
  cbn [rbind]. unfold gcmDecrypt.
  by rewrite bool_decide_eq_false_2.
Qed.


(** X4. The digest that travels with a ciphertext is the unkeyed SHA-256
    of the plaintext: the [hash] of the object [encryptField] returns is
    [createHash] of the plaintext whatever the service key and the IV
    drawn, so that two encryptions of one plaintext carry the same digest
    under different IVs; and every field of the secure envelope's payload
    carries [createHash] of its value too. *)
Theorem encrypted_hash_is_createHash (this : EncryptionService)
    (plaintext : string) (c c' : nat) :
  length (key this) = 32 ->
  exists e e',
    encryptField this plaintext c = (Ok e, c + 16)
    /\ encryptField this plaintext c' = (Ok e', c' + 16)
    /\ EncryptedField.hash e = createHash plaintext
    /\ EncryptedField.hash e' = EncryptedField.hash e
    /\ fromHex (EncryptedField.iv e) = drawn c 16
    /\ fromHex (EncryptedField.iv e') = drawn c' 16
    /\ (forall (F : gmap string string) name field,
          Payload.encryptedFields (payloadAt c F) !! name = Some field ->
          exists value,
            F !! name = Some value
            /\ EncryptedField.hash field = createHash value).
Proof.
  intros Hk.
  pose proof (encryptField_eval this plaintext c Hk) as He.
  pose proof (encryptField_eval this plaintext c' Hk) as He'.
  cbv zeta in He, He'.
  eexists. eexists. split; [exact He|]. split; [exact He'|].
  cbn [EncryptedField.hash EncryptedField.iv].
  rewrite !fromHex_toHex.
  split; [reflexivity|]. split; [reflexivity|].
  split; [reflexivity|]. split; [reflexivity|].
  intros F name field. cbn [payloadAt Payload.encryptedFields].
  rewrite lookup_omap. destruct (F !! name) as [value|]; [|done].
  cbn. destruct (truthy value); [|done].
  intros [= <-]. by exists value.
Qed.

Lemma bxor_shared (a b k : byte) : bxor (bxor a k) (bxor b k) = bxor a b.
Proof.
  unfold bxor. rewrite !Byte.to_bits_of_bits. f_equal.
  destruct (Byte.to_bits a) as (a0 & a1 & a2 & a3 & a4 & a5 & a6 & a7).
  destruct (Byte.to_bits b) as (b0 & b1 & b2 & b3 & b4 & b5 & b6 & b7).
  destruct (Byte.to_bits k) as (k0 & k1 & k2 & k3 & k4 & k5 & k6 & k7).
  cbn [xor8].
  assert (Hx : forall x y z, xorb (xorb x z) (xorb y z) = xorb x y)
    by (by intros [] [] []).
  by rewrite !Hx.
Qed.

Lemma xorBytes_shared (a b k : bytes) :
  length a = length b -> length a <= length k ->
  xorBytes (xorBytes a k) (xorBytes b k) = xorBytes a b.
Proof.
  revert b k. induction a as [|x a IH]; intros [|y b] [|z k] Hab Hk;
    cbn in *; try lia; try reflexivity.
  rewrite bxor_shared, IH; [reflexivity | lia | lia].
Qed.

(** X5. All the fields of one secure envelope are encrypted under the
    same temporary key and the same IV: the payload the partner opens
    lists one IV for every field, and for two fields whose values have
    the same number of bytes the exclusive or of the two ciphertexts is
    the exclusive or of the two plaintexts. *)
Theorem secure_envelope_fields_share_key_stream (F : gmap string string)
    (pub priv : string) (c : nat) :
  rsa_keypair (toPem pub) priv ->
  exists envelope payload,
    encryptCustomerFieldsSecure F pub c = (Ok envelope, c + 128)
    /\ decryptHybridData parsePayload {| privateKey := Some priv |} envelope
       = Ok payload
    /\ forall name1 name2 value1 value2,
         F !! name1 = Some value1 -> F !! name2 = Some value2 ->
         value1 ≠ "" -> value2 ≠ "" ->
         exists field1 field2,
           Payload.encryptedFields payload !! name1 = Some field1
           /\ Payload.encryptedFields payload !! name2 = Some field2
           /\ EncryptedField.iv field1 = EncryptedField.iv field2
           /\ (length (utf8 value1) = length (utf8 value2) ->
               xorBytes (fromHex (EncryptedField.encryptedValue field1))
                 (fromHex (EncryptedField.encryptedValue field2))
               = xorBytes (utf8 value1) (utf8 value2)).
Proof using Type rsa_oaep_correct parsePayload_stringifyPayload gcm_keystream_length fromBase64_toBase64.
  intros Hpair.
  destruct (secure_envelope_opens F pub priv c Hpair)
    as (envelope & Henc & _ & Hopen & _).
  exists envelope, (payloadAt c F). split; [done|]. split; [done|].
  intros name1 name2 value1 value2 H1 H2 Hv1 Hv2.
  apply truthy_spec in Hv1, Hv2.
  exists (encryptOne (drawn c 32) (drawn (c + 32) 16) value1),
         (encryptOne (drawn c 32) (drawn (c + 32) 16) value2).
  cbn [payloadAt Payload.encryptedFields].
  rewrite !lookup_omap, H1, H2. cbn. rewrite Hv1, Hv2.
  split; [done|]. split; [done|]. split; [done|].
  intros Hlen. unfold encryptOne.
  cbn [EncryptedField.encryptedValue gcmEncrypt fst].
  rewrite !fromHex_toHex, Hlen.
  apply xorBytes_shared; [done|].
  by rewrite gcm_keystream_length, Hlen.
Qed.


(** ** The audit chain *)

Lemma string_compare_le_trans (a b c : string) :
  String.compare a b ≠ Gt -> String.compare b c ≠ Gt ->
  String.compare a c ≠ Gt.
Proof.
  revert b c. induction a as [|x a IH]; intros [|y b] [|z c]; cbn;
    try done.
  unfold Ascii.compare.
  destruct (N.compare_spec (N_of_ascii x) (N_of_ascii y)) as [Hxy|Hxy|Hxy];
    [| |done];
    (destruct (N.compare_spec (N_of_ascii y) (N_of_ascii z))
       as [Hyz|Hyz|Hyz]; [| |done]);
    destruct (N.compare_spec (N_of_ascii x) (N_of_ascii z)) as [Hxz|Hxz|Hxz];
    try done; try lia.
  apply IH.
Qed.

Lemma string_leb_trans (a b c : string) :
  String.leb a b = true -> String.leb b c = true -> String.leb a c = true.
Proof.
  unfold String.leb. intros Hab Hbc.
  pose proof (string_compare_le_trans a b c) as H.
  destruct (String.compare a b); try done;
    destruct (String.compare b c); try done;
    destruct (String.compare a c); try done;
    exfalso; by apply H.
Qed.

Lemma elem_of_insertByCreatedAt (x y : AuditLog.t) (l : list AuditLog.t) :
  y ∈ insertByCreatedAt x l <-> y = x \/ y ∈ l.
Proof.
  induction l as [|z l IH]; cbn.
  - rewrite list_elem_of_singleton. split; [by left|].
    by intros [Hy|Hy%elem_of_nil].
  - destruct (_ <=? _)%Z.
    + by rewrite elem_of_cons.
    + rewrite !elem_of_cons, IH. split.
      * intros [Hz|[Hx|Hl]]; [by right; left | by left | by right; right].
      * intros [Hx|[Hz|Hl]]; [by right; left | by left | by right; right].
Qed.

Lemma elem_of_findLogs (startId endId : string) (logs : list AuditLog.t)
    (log : AuditLog.t) :
  log ∈ findLogs startId endId logs
  <-> log ∈ logs
      /\ String.leb startId (AuditLog.logId log) = true
      /\ String.leb (AuditLog.logId log) endId = true.
Proof.
  unfold findLogs.
  induction logs as [|x logs IH].
  - cbn. split; [by intros ?%elem_of_nil | by intros [?%elem_of_nil _]].
  - rewrite filter_cons. destruct (decide _) as [Hx|Hx].
    + cbn [foldr]. rewrite elem_of_insertByCreatedAt, IH, elem_of_cons.
      split.
      * intros [->|[Hl Hr]]; [by split; [left|] | by split; [right|]].
      * intros [[->|Hl] Hr]; [by left | by right].
    + rewrite IH, elem_of_cons. split.
      * intros [Hl Hr]. by split; [right|].
      * intros [[->|Hl] Hr]; [done | done].
Qed.

Lemma length_insertByCreatedAt (x : AuditLog.t) (l : list AuditLog.t) :
  length (insertByCreatedAt x l) = S (length l).
Proof.
  induction l as [|z l IH]; cbn; [done|].
  destruct (_ <=? _)%Z; cbn; by rewrite ?IH.
Qed.

Lemma length_findLogs (startId endId : string) (logs : list AuditLog.t) :
  length (findLogs startId endId logs)
  = length (filter (fun l => String.leb startId (AuditLog.logId l) = true
                             /\ String.leb (AuditLog.logId l) endId = true)
              logs).
Proof.
  unfold findLogs. induction (filter _ logs) as [|x l IH]; cbn; [done|].
  by rewrite length_insertByCreatedAt, IH.
Qed.

Lemma findLogs_reversed (startId endId : string) (logs : list AuditLog.t) :
  String.leb startId endId = false -> findLogs startId endId logs = [].
Proof.
  intros Hrev.
  destruct (findLogs startId endId logs) as [|x l] eqn:Hfound; [done|].
  assert (Hx : x ∈ findLogs startId endId logs)
    by (rewrite Hfound; apply list_elem_of_here).
  apply elem_of_findLogs in Hx as (_ & H1 & H2).
  by rewrite (string_leb_trans _ _ _ H1 H2) in Hrev.
Qed.

(** The logs of one identifier, when identifiers are unique, are at most
    one log. *)
Lemma filter_unique_logId (id : string) (logs : list AuditLog.t) :
  NoDup (AuditLog.logId <$> logs) ->
  length (filter (fun l => String.leb id (AuditLog.logId l) = true
                           /\ String.leb (AuditLog.logId l) id = true)
            logs) <= 1.
Proof.
  induction logs as [|x logs IH]; intros Hnodup; [cbn; lia|].
  rewrite fmap_cons in Hnodup. apply NoDup_cons in Hnodup as [Hx Hnodup].
  rewrite filter_cons. destruct (decide _) as [[H1 H2]|_].
  - assert (Hid : AuditLog.logId x = id)
      by (symmetry; by apply String.leb_antisym).
    assert (Hnone :
      filter (fun l => String.leb id (AuditLog.logId l) = true
                       /\ String.leb (AuditLog.logId l) id = true) logs = []).
    { destruct (filter _ logs) as [|y r] eqn:Hf; [done|].
      assert (Hy : y ∈ filter
                     (fun l => String.leb id (AuditLog.logId l) = true
                               /\ String.leb (AuditLog.logId l) id = true)
                     logs)
        by (rewrite Hf; apply list_elem_of_here).
      apply list_elem_of_filter in Hy as [[H3 H4] Hy].
      exfalso. apply Hx. rewrite Hid.
      replace id with (AuditLog.logId y)
        by (by apply String.leb_antisym).
      by apply list_elem_of_fmap_2. }
    rewrite Hnone. cbn. lia.
  - by apply IH.
Qed.

Lemma verifyLogs_short (signer : SignatureService) (logs : list AuditLog.t) :
  length logs <= 1 ->
  exists message,
    verifyLogs signer logs
    = Ok {| Verdict.valid := true; Verdict.message := message |}.
Proof.
  destruct logs as [|x [|y logs]]; cbn; intros Hlen.
  - by eexists.
  - by eexists.
  - lia.
Qed.

Lemma verifyFrom_chain (signer : SignatureService) (rest : list AuditLog.t)
    (previousLog : AuditLog.t) :
  (exists message,
     verifyFrom signer previousLog rest
     = Ok {| Verdict.valid := true; Verdict.message := message |})
  <-> (forall k previous current,
         (previousLog :: rest) !! k = Some previous ->
         rest !! k = Some current ->
         linked previous current /\ signedBy signer current).
Proof.
  revert previousLog.
  induction rest as [|currentLog rest IH]; intros previousLog.
  - cbn. split; [by intros _ k ? ? _ ?|]. intros _. by eexists.
  - cbn [verifyFrom]. unfold linked, signedBy in *.
    destruct (decide (AuditLog.previousHash currentLog
                      = AuditLog.eventHash previousLog)) as [Hlink|Hlink].
    + rewrite bool_decide_eq_true_2 by done. cbn [negb].
      destruct (verifySignature signer (AuditLog.eventHash currentLog)
                  (AuditLog.digitalSignature currentLog) None)
        as [[|]|e] eqn:Hsig; cbn [rbind negb].
      * rewrite IH. split.
        -- intros Hrest [|k] previous current Hp Hc.
           ++ injection Hp as <-. injection Hc as <-. done.
           ++ by apply (Hrest k).
        -- intros Hall k previous current Hp Hc.
           by apply (Hall (S k)).
      * split; [by intros [? [=]]|].
        intros Hall. destruct (Hall 0 previousLog currentLog) as [_ H];
          [done..|]. congruence.
      * split; [by intros [? [=]]|].
        intros Hall. destruct (Hall 0 previousLog currentLog) as [_ H];
          [done..|]. congruence.
    + rewrite bool_decide_eq_false_2 by done. cbn [negb].
      split; [by intros [? [=]]|].
      intros Hall. by destruct (Hall 0 previousLog currentLog) as [H _].
Qed.

(** X6. What a positive verdict of [verifyLogIntegrity] establishes, and
    nothing less: the logs of the range verify exactly when every log
    but the first is linked to the log before it and carries the signer's
    signature of its own hash. *)
Theorem verifyLogs_valid_iff (signer : SignatureService)
    (logs : list AuditLog.t) :
  (exists message,
     verifyLogs signer logs
     = Ok {| Verdict.valid := true; Verdict.message := message |})
  <-> (forall k previous current,
         logs !! k = Some previous ->
         logs !! S k = Some current ->
         linked previous current /\ signedBy signer current).
Proof.
  destruct logs as [|firstLog rest].
  - cbn. split; [by intros _ k ? ? ?|]. intros _. by eexists.
  - rewrite <- (verifyFrom_chain signer rest firstLog).
    unfold verifyLogs.
    destruct (verifyFrom signer firstLog rest) as [verdict|e]; cbn [rcatch].
    + done.
    + split; by intros [? [=]].
Qed.

Lemma last_cons_default {A} (l : list A) (a d d' : A) :
  List.last (a :: l) d = List.last (a :: l) d'.
Proof.
  revert a. induction l as [|b l IH]; intros a; [done|].
  change (List.last (b :: l) d = List.last (b :: l) d'). apply IH.
Qed.

Lemma verifyFrom_app (signer : SignatureService)
    (before after : list AuditLog.t) (firstLog : AuditLog.t) :
  verifyFrom signer firstLog before = Ok chainVerified ->
  verifyFrom signer firstLog (before ++ after)
  = verifyFrom signer (List.last before firstLog) after.
Proof.
  revert firstLog.
  induction before as [|x before IH]; intros firstLog Hbefore; [done|].
  cbn [verifyFrom app] in *.
  destruct (negb (bool_decide _)); [by injection Hbefore|].
  destruct (verifySignature _ _ _ _) as [[|]|e]; cbn [rbind negb] in *;
    [|by injection Hbefore|done].
  rewrite IH by done. destruct before as [|y before]; [done|].
  change (List.last (x :: y :: before) firstLog)
    with (List.last (y :: before) firstLog).
  by rewrite (last_cons_default before y x firstLog).
Qed.

(** X7. The verdict at the first log that fails: when the logs up to
    [previousLog] verify, a [currentLog] that is not linked to
    [previousLog] makes the verdict [valid: false] with the message that
    names the two logs; a linked log whose signature does not verify
    makes it [valid: false] with the message that names the log; a linked
    log whose signature check throws (no signature, no hash, no key)
    makes the call throw. The logs after [currentLog] are not looked
    at. *)
Theorem verifyLogs_first_failure (signer : SignatureService)
    (before after : list AuditLog.t) (previousLog currentLog : AuditLog.t) :
  verifyLogs signer (before ++ [previousLog]) = Ok chainVerified ->
  let logs := (before ++ previousLog :: currentLog :: after)%list in
  let check :=
    verifySignature signer (AuditLog.eventHash currentLog)
      (AuditLog.digitalSignature currentLog) None in
  (~ linked previousLog currentLog ->
   verifyLogs signer logs
   = Ok {| Verdict.valid := false;
           Verdict.message :=
             "Chain broken between logs " ++ AuditLog.logId previousLog
             ++ " and " ++ AuditLog.logId currentLog |})
  /\ (linked previousLog currentLog -> check = Ok false ->
      verifyLogs signer logs
      = Ok {| Verdict.valid := false;
              Verdict.message :=
                "Invalid signature for log " ++ AuditLog.logId currentLog |})
  /\ (linked previousLog currentLog ->
      (exists e, check = Throw e) ->
      verifyLogs signer logs = Throw "Failed to verify log integrity").
Proof.
  intros Hbefore logs check. subst logs check.
  assert (Hrun : forall rest firstLog,
            verifyLogs signer (firstLog :: rest ++ [previousLog])
            = Ok chainVerified ->
            verifyLogs signer
              (firstLog :: rest ++ previousLog :: currentLog :: after)
            = rcatch (verifyFrom signer previousLog (currentLog :: after))
                (fun _ => Throw "Failed to verify log integrity")).
  { intros rest firstLog Hok. unfold verifyLogs in *.
    destruct (verifyFrom signer firstLog (rest ++ [previousLog]))
      as [verdict|e] eqn:Hv; [|done].
    cbn [rcatch] in Hok. injection Hok as ->.
    replace (rest ++ previousLog :: currentLog :: after)%list
      with ((rest ++ [previousLog]) ++ currentLog :: after)%list
      by (by rewrite <- app_assoc).
    rewrite verifyFrom_app by done.
    by rewrite last_last. }
  assert (Hlogs :
    verifyLogs signer (before ++ previousLog :: currentLog :: after)
    = rcatch (verifyFrom signer previousLog (currentLog :: after))
        (fun _ => Throw "Failed to verify log integrity")).
  { destruct before as [|firstLog rest]; [done|]. by apply Hrun. }
  rewrite Hlogs. cbn [verifyFrom]. unfold linked.
  split; [|split].
  - intros Hlink. by rewrite bool_decide_eq_false_2.
  - intros Hlink Hsig. rewrite bool_decide_eq_true_2 by done.
    by rewrite Hsig.
  - intros Hlink [e Hsig]. rewrite bool_decide_eq_true_2 by done.
    by rewrite Hsig.
Qed.

(** X8. A range whose end identifier sorts before its start identifier
    selects no log, and [verifyLogIntegrity] answers that it is valid
    whatever the collection holds: the range is taken by the order of the
    identifiers' texts, not by the dates of the logs. *)
Theorem verifyLogIntegrity_reversed_range (signer : SignatureService)
    (startId endId : string) (w : World.t) :
  String.leb startId endId = false ->
  verifyLogIntegrity signer startId endId w
  = (Ok {| Verdict.valid := true; Verdict.message := "No logs to verify" |},
     w).
Proof.
  intros Hrev.
  unfold verifyLogIntegrity, mbind, M_bind, bind, gets, liftR.
  by rewrite findLogs_reversed.
Qed.

(** X9. The integrity check of [getAuditLogs] is vacuous on a page of at
    most 100 logs, which is every page of the default size: its range
    starts and ends at the newest log of the page, so that, identifiers
    being unique, at most one log is examined and the verdict is
    [valid: true] whatever the hashes and the signatures of the logs
    are. *)
Theorem integrityCheckOfPage_is_vacuous (signer : SignatureService)
    (logs : list AuditLog.t) (w : World.t) :
  NoDup (AuditLog.logId <$> World.auditLogs w) ->
  length logs <= 100 ->
  exists message,
    integrityCheckOfPage signer logs w
    = (Ok {| Verdict.valid := true; Verdict.message := message |}, w).
Proof.
  intros Hnodup Hlen. unfold integrityCheckOfPage.
  destruct logs as [|lastLog rest]; [by eexists|].
  cbn [length Nat.ltb Nat.leb].
  rewrite Nat.min_r by (cbn in Hlen; lia).
  rewrite Nat.sub_diag. cbn [lookup list_lookup].
  unfold verifyLogIntegrity, mbind, M_bind, bind, gets, liftR.
  destruct (verifyLogs_short signer
              (findLogs (AuditLog.logId lastLog) (AuditLog.logId lastLog)
                 (World.auditLogs w))) as [message Hv].
  { rewrite length_findLogs. by apply filter_unique_logId. }
  exists message. by rewrite Hv.
Qed.


(** ** The consent controller: refusals, frames and compositions *)

(** The four outcomes of [updateConsent]. *)
Lemma updateConsent_outcome (user : User.t) (consentId : string)
    (body : UpdateBody.t) (w : World.t) :
  let r := updateConsent user consentId body w in
  let below :=
    from_option belowMinimum false
      (truthyNumber (UpdateBody.consentDuration body)) in
  let valid := validUpdate (buildUpdateData consentId body w) in
  (below = true
   /\ r = (Ok (Json 400
                (ErrorBody ("Consent duration must be at least "
                            ++ minHoursText ++ " hour(s)"))), w))
  \/ (below = false /\ valid = false
      /\ r = (Ok (Next "Validation failed"), w))
  \/ (below = false /\ valid = true
      /\ findConsent consentId (World.consents w) = None
      /\ r = (Ok (Json 404 (ErrorBody "No consent found with that ID")), w))
  \/ exists i consent,
       findConsent consentId (World.consents w) = Some (i, consent)
       /\ let updated :=
            applyUpdate (buildUpdateData consentId body w) consent in
          World.consents r.2 = <[i := updated]> (World.consents w)
          /\ ((notPermitted user consent = true
               /\ r.1 = Ok (Json 403 (ErrorBody
                       "You do not have permission to update this consent")))
              \/ (notPermitted user consent = false
                  /\ r.1 = Ok (Json 200 (ConsentBody updated)))).
Proof.
  intros r below valid. subst r below valid.
  destruct (from_option belowMinimum false
              (truthyNumber (UpdateBody.consentDuration body))) eqn:Hmin.
  { left. split; [done|]. unfold updateConsent. by rewrite Hmin. }
  destruct (validUpdate (buildUpdateData consentId body w)) eqn:Hvalid;
    cycle 1.
  { right; left. do 2 (split; [done|]). unfold updateConsent. rewrite Hmin.
    unfold tryCatch, mbind, M_bind, bind. cbn [gets].
    unfold findOneAndUpdate. by rewrite Hvalid. }
  destruct (findConsent consentId (World.consents w)) as [[i consent]|]
    eqn:Hfind; cycle 1.
  { right; right; left. do 3 (split; [done|]).
    unfold updateConsent. rewrite Hmin.
    unfold tryCatch, mbind, M_bind, bind. cbn [gets].
    unfold findOneAndUpdate. rewrite Hvalid. cbn [negb].
    unfold mbind, M_bind, bind. cbn [gets]. by rewrite Hfind. }
  right; right; right. exists i, consent. split; [done|]. cbv zeta.
  rewrite (updateConsent_cases user consentId body w i consent Hfind Hmin
             Hvalid). cbv zeta.
  destruct (notPermitted user consent).
  - split; [done|]. by left.
  - unfold tryCatch.
    match goal with
    | |- context [(logEvent ?ev;; _) ?w1] =>
        destruct (consent_response "consent_updated" user
                    (applyUpdate (buildUpdateData consentId body w) consent)
                    (Consent.status
                       (applyUpdate (buildUpdateData consentId body w)
                          consent)) w1)
          as (w' & Hrun & Hcons)
    end.
    rewrite Hrun. cbn [fst snd]. split; [by rewrite Hcons|]. by right.
Qed.

(** The three outcomes of [revokeConsent]. *)
Lemma revokeConsent_outcome (user : User.t) (consentId : string)
    (w : World.t) :
  let r := revokeConsent user consentId w in
  (findConsent consentId (World.consents w) = None
   /\ r = (Ok (Json 404 (ErrorBody "No consent found with that ID")), w))
  \/ (exists i consent,
        findConsent consentId (World.consents w) = Some (i, consent)
        /\ notPermitted user consent = true
        /\ r = (Ok (Json 403 (ErrorBody
                  "You do not have permission to revoke this consent")), w))
  \/ (exists i consent,
        findConsent consentId (World.consents w) = Some (i, consent)
        /\ notPermitted user consent = false
        /\ r.1 = Ok (Json 200 (ConsentBody (revoked (World.now w) consent)))
        /\ World.consents r.2
           = <[i := revoked (World.now w) consent]> (World.consents w)).
Proof.
  intros r. subst r.
  destruct (findConsent consentId (World.consents w)) as [[i consent]|]
    eqn:Hfind; cycle 1.
  { left. split; [done|]. unfold revokeConsent, tryCatch, mbind, M_bind, bind.
    cbn [gets]. by rewrite Hfind. }
  destruct (notPermitted user consent) eqn:Hperm.
  - right; left. exists i, consent. split; [done|]. split; [done|].
    unfold revokeConsent, tryCatch, mbind, M_bind, bind.
    cbn [gets]. by rewrite Hfind, Hperm.
  - right; right. exists i, consent. split; [done|]. split; [done|].
    destruct (revokeConsent_run user consentId w i consent Hfind Hperm)
      as (w' & Hrun & Hcons).
    rewrite Hrun. by split.
Qed.

(** X10. [revokeConsent] checks before it writes: when it answers with
    an error, which is 404 for a consent that does not exist and 403 for
    a user who is neither an administrator nor the customer of the
    consent, the state is exactly the state before the request. *)
Theorem revokeConsent_refusal_writes_nothing (user : User.t)
    (consentId : string) (w : World.t) (status : nat) (message : string) :
  (revokeConsent user consentId w).1
  = Ok (Json status (ErrorBody message)) ->
  (revokeConsent user consentId w).2 = w
  /\ ((status = 404
       /\ findConsent consentId (World.consents w) = None)
      \/ (status = 403
          /\ exists i consent,
               findConsent consentId (World.consents w) = Some (i, consent)
               /\ notPermitted user consent = true)).
Proof.
  intros Hr.
  destruct (revokeConsent_outcome user consentId w)
    as [(Hfind & Hrun)|[(i & consent & Hfind & Hperm & Hrun)
                       |(i & consent & Hfind & Hperm & Hrun & _)]].
  - rewrite Hrun in Hr |- *. cbn in Hr. injection Hr as <- <-.
    split; [done|]. by left.
  - rewrite Hrun in Hr |- *. cbn in Hr. injection Hr as <- <-.
    split; [done|]. right. split; [done|]. by exists i, consent.
  - rewrite Hrun in Hr. discriminate.
Qed.

(** X11. Of the refusals of [updateConsent] only the 403 comes after the
    write: when the request is answered with another error (400 for a
    duration below the minimum, 404 for a consent that does not exist) or
    is handed to the error handler (a value the schema's validators
    reject), the state is exactly the state before the request. *)
Theorem updateConsent_other_refusals_write_nothing (user : User.t)
    (consentId : string) (body : UpdateBody.t) (w : World.t) :
  let r := updateConsent user consentId body w in
  (forall status message,
     r.1 = Ok (Json status (ErrorBody message)) -> status ≠ 403 ->
     r.2 = w /\ (status = 400 \/ status = 404))
  /\ (forall error,
        r.1 = Ok (Next error) -> r.2 = w /\ error = "Validation failed")
  /\ (forall error, r.1 ≠ Throw error).
Proof.
  intros r. subst r.
  destruct (updateConsent_outcome user consentId body w)
    as [(_ & Hrun)|[(_ & _ & Hrun)|[(_ & _ & _ & Hrun)
                                   |(i & consent & Hfind & Hrun)]]];
    cbv zeta in Hrun.
  - rewrite Hrun. cbn. split; [|split]; [| |done].
    + intros status message [= <- _] _. split; [done|]. by left.
    + intros error [=].
  - rewrite Hrun. cbn. split; [|split]; [| |done].
    + intros status message [=].
    + by intros error [= <-].
  - rewrite Hrun. cbn. split; [|split]; [| |done].
    + intros status message [= <- _] _. split; [done|]. by right.
    + intros error [=].
  - destruct Hrun as [_ [[_ Hrun]|[_ Hrun]]]; rewrite Hrun;
      (split; [|split]); try done.
    + by intros status message [= <- _] Hne.
Qed.

(** X12. No update changes who a consent belongs to: whatever the body
    and whoever the user, after [updateConsent] the stored consents have,
    position by position, the [_id], [consentId], [customerId],
    [partnerId], [contractId] and [createdAt] they had, and every consent
    of another identifier is untouched. *)
Theorem updateConsent_keeps_identity (user : User.t) (consentId : string)
    (body : UpdateBody.t) (w : World.t) :
  let r := updateConsent user consentId body w in
  identityOf <$> World.consents r.2 = identityOf <$> World.consents w
  /\ (forall j c,
        World.consents w !! j = Some c ->
        Consent.consentId c ≠ consentId ->
        World.consents r.2 !! j = Some c).
Proof.
  intros r. subst r.
  destruct (updateConsent_outcome user consentId body w)
    as [(_ & Hrun)|[(_ & _ & Hrun)|[(_ & _ & _ & Hrun)
                                   |(i & consent & Hfind & Hrun)]]];
    cbv zeta in Hrun; try (by rewrite Hrun).
  destruct Hrun as [Hcons _]. rewrite Hcons.
  apply findConsent_lookup in Hfind as [Hi Hid].
  split.
  - rewrite list_fmap_insert.
    apply list_insert_id. by rewrite list_lookup_fmap, Hi.
  - intros j c Hj Hc. rewrite list_lookup_insert_ne; [done|].
    intros ->. rewrite Hi in Hj. injection Hj as ->. by apply Hc.
Qed.

(** X13. How [updateConsent] recomputes the expiry: a duration given in
    the body is stored and moves the expiry to the time of the request
    plus that duration, not to the creation time plus it; a retention
    period given in the same body overrides this with the creation date
    plus that many days, while the duration is stored all the same; a
    body with neither leaves the expiry as it was. The new values are
    stored whether the user is permitted or not. *)
Theorem updateConsent_expiry (user : User.t) (consentId : string)
    (body : UpdateBody.t) (w : World.t) (i : nat) (consent : Consent.t) :
  findConsent consentId (World.consents w) = Some (i, consent) ->
  from_option belowMinimum false
    (truthyNumber (UpdateBody.consentDuration body)) = false ->
  validUpdate (buildUpdateData consentId body w) = true ->
  exists updated,
    World.consents (updateConsent user consentId body w).2 !! i
    = Some updated
    /\ Consent.expiresAt updated
       = match truthyNumber (UpdateBody.retentionPeriod body),
               truthyNumber (UpdateBody.consentDuration body) with
         | Some days, _ => addDays (Consent.createdAt consent) days
         | None, Some duration => (World.now w + duration)%Z
         | None, None => Consent.expiresAt consent
         end
    /\ Consent.consentDuration updated
       = default (Consent.consentDuration consent)
           (truthyNumber (UpdateBody.consentDuration body))
    /\ Consent.retentionPeriod updated
       = default (Consent.retentionPeriod consent)
           (truthyNumber (UpdateBody.retentionPeriod body))
    /\ Consent.updatedAt updated = World.now w.
Proof.
  intros Hfind Hmin Hvalid.
  exists (applyUpdate (buildUpdateData consentId body w) consent).
  split.
  - destruct (updateConsent_outcome user consentId body w)
      as [(Hbelow & _)|[(_ & Hinvalid & _)|[(_ & _ & Hnone & _)
                       |(i' & consent' & Hfind' & Hrun)]]];
      cbv zeta in *.
    + congruence.
    + congruence.
    + congruence.
    + rewrite Hfind in Hfind'. injection Hfind' as <- <-.
      destruct Hrun as [-> _].
      apply findConsent_lookup in Hfind as [Hi _].
      apply list_lookup_insert_eq. by apply lookup_lt_Some in Hi.
  - unfold buildUpdateData. rewrite Hfind.
    destruct (truthyNumber (UpdateBody.retentionPeriod body));
      destruct (truthyNumber (UpdateBody.consentDuration body));
      by cbn.
Qed.

Lemma findActiveConsent_replaced (consentId partnerId : string)
    (consents : list Consent.t) (i : nat) (consent consent' : Consent.t) :
  NoDup (Consent.consentId <$> consents) ->
  consents !! i = Some consent ->
  Consent.consentId consent = consentId ->
  Consent.status consent' ≠ "active" ->
  findActiveConsent consentId partnerId (<[i := consent']> consents) = None.
Proof.
  intros Hnodup Hi Hid Hstatus. unfold findActiveConsent.
  apply list_find_None, Forall_lookup. intros j x Hj (Hx & _ & Hactive).
  destruct (decide (j = i)) as [->|Hne].
  - rewrite list_lookup_insert_eq in Hj by (by apply lookup_lt_Some in Hi).
    injection Hj as <-. by apply Hstatus.
  - rewrite list_lookup_insert_ne in Hj by done.
    apply Hne.
    apply (NoDup_lookup (Consent.consentId <$> consents) j i consentId);
      [done| |]; rewrite list_lookup_fmap.
    + by rewrite Hj; cbn; rewrite Hx.
    + by rewrite Hi; cbn; rewrite Hid.
Qed.

(** X14. Revocation ends disclosure: once [revokeConsent] has succeeded
    for a consent, whose identifier is unique in the collection, a data
    request that names this consent is refused, for every partner and
    every list of fields, with 404 [No active consent found] (or 403 for
    a partner that is blocked anyway); no request is recorded and nothing
    is pushed. *)
Theorem revoked_consent_is_not_disclosed (user : User.t)
    (consentId : string) (w : World.t) (i : nat) (consent : Consent.t)
    (partner : Partner.t) (body : RequestBody.t) :
  NoDup (Consent.consentId <$> World.consents w) ->
  findConsent consentId (World.consents w) = Some (i, consent) ->
  notPermitted user consent = false ->
  RequestBody.consentId body = consentId ->
  let w' := (revokeConsent user consentId w).2 in
  let r := partnerDataRequest partner body w' in
  (r.1 = Ok (Json 404 (ErrorBody "No active consent found"))
   \/ r.1 = Ok (Json 403 (ErrorBody
            "Partner is not active or does not have an approved contract")))
  /\ World.dataRequests r.2 = World.dataRequests w'
  /\ World.pushed r.2 = World.pushed w'.
Proof.
  intros Hnodup Hfind Hperm Hbody w' r. subst r w'.
  destruct (revokeConsent_run user consentId w i consent Hfind Hperm)
    as (w' & Hrun & Hcons).
  rewrite Hrun. cbn [snd].
  apply findConsent_lookup in Hfind as [Hi Hid].
  rewrite partnerDataRequest_cases. cbv zeta.
  rewrite Hcons, Hbody.
  rewrite (findActiveConsent_replaced consentId (Partner.partnerId partner)
             (World.consents w) i consent) by done.
  destruct (partnerBlocked partner); cbn [fst snd].
  - split; [by right|]. unfold afterRequestId.
    by destruct (RequestBody.requestId body).
  - split; [by left|]. unfold afterRequestId.
    by destruct (RequestBody.requestId body).
Qed.

(** X15. An expiry is detected once: the request that finds the consent
    expired is refused with 403 [Consent expired], and every later
    request for this consent, whose identifier is unique in the
    collection, is refused with 404 [No active consent found]. *)
Theorem expired_consent_is_not_found_again (partner : Partner.t)
    (body body' : RequestBody.t) (w : World.t) (i : nat)
    (consent : Consent.t) :
  NoDup (Consent.consentId <$> World.consents w) ->
  partnerBlocked partner = false ->
  findActiveConsent (RequestBody.consentId body) (Partner.partnerId partner)
    (World.consents w) = Some (i, consent) ->
  (Consent.expiresAt consent < World.now w)%Z ->
  RequestBody.consentId body' = RequestBody.consentId body ->
  let r := partnerDataRequest partner body w in
  let r' := partnerDataRequest partner body' r.2 in
  r.1 = Ok (Json 403 (ErrorBody "Consent expired"))
  /\ r'.1 = Ok (Json 404 (ErrorBody "No active consent found"))
  /\ World.consents r'.2 = World.consents r.2.
Proof.
  intros Hnodup Hgate Hfind Hexp Hbody r r'. subst r' r.
  rewrite (partnerDataRequest_cases partner body w). cbv zeta.
  rewrite Hgate, Hfind. rewrite (proj2 (Z.ltb_lt _ _) Hexp). cbn [fst snd].
  split; [done|].
  apply findActiveConsent_lookup in Hfind as (Hi & Hid & _ & _).
  rewrite partnerDataRequest_cases. cbv zeta. rewrite Hgate, Hbody.
  cbn [World.consents World.setConsents].
  rewrite (findActiveConsent_replaced (RequestBody.consentId body)
             (Partner.partnerId partner) (World.consents w) i consent);
    [| done | | done | done].
  - cbn [fst snd]. split; [done|]. by rewrite afterRequestId_consents.
  - exact Hi.
Qed.

(** X16. Neither a revocation nor a data request rewrites the terms of
    a consent: after [revokeConsent] and after [partnerDataRequest],
    whatever they answer, every stored consent has the allowed fields,
    the purpose, the parties, the dates of creation and expiry and every
    other path it had; only [status] and [updatedAt] can differ. *)
Theorem consent_terms_are_kept (user : User.t) (consentId : string)
    (partner : Partner.t) (body : RequestBody.t) (w : World.t) :
  termsOf <$> World.consents (revokeConsent user consentId w).2
  = termsOf <$> World.consents w
  /\ termsOf <$> World.consents (partnerDataRequest partner body w).2
     = termsOf <$> World.consents w.
Proof.
  split.
  - destruct (revokeConsent_outcome user consentId w)
      as [(_ & Hrun)|[(i & consent & _ & _ & Hrun)
                     |(i & consent & Hfind & _ & _ & Hcons)]];
      try (by rewrite Hrun).
    rewrite Hcons, list_fmap_insert.
    apply findConsent_lookup in Hfind as [Hi _].
    apply list_insert_id. by rewrite list_lookup_fmap, Hi.
  - rewrite partnerDataRequest_cases. cbv zeta.
    destruct (partnerBlocked partner);
      [by cbn; rewrite afterRequestId_consents|].
    destruct (findActiveConsent _ _ _) as [[i consent]|] eqn:Hfind;
      [|by cbn; rewrite afterRequestId_consents].
    destruct (Consent.expiresAt consent <? World.now w)%Z.
    + cbn. rewrite list_fmap_insert. cbn.
      apply findActiveConsent_lookup in Hfind as [Hi _].
      apply list_insert_id. by rewrite list_lookup_fmap, Hi.
    + destruct (negb _); [by cbn; rewrite afterRequestId_consents|].
      by rewrite fulfil_keeps_consents, afterRequestId_consents.
Qed.


(** ** The disclosure request: what is recorded, what is disclosed *)

Ltac frame_step :=
  match goal with
  | |- preserves _ (mret _) => apply preserves_ret
  | |- preserves _ (throw _) => apply preserves_throw
  | |- preserves _ (liftR _) => apply preserves_liftR
  | |- preserves _ (gets _) => apply preserves_gets
  | |- preserves _ (_ ≫= _) => apply preserves_bind; [|intros ?]
  | |- preserves _ (tryCatch _ _) => apply preserves_tryCatch; [|intros ?]
  | |- preserves _ (liftRng _) => apply preserves_liftRng; by intros
  | |- preserves _ (post _ _ _) => apply preserves_modify; by intros
  | |- preserves _ (if ?b then _ else _) => destruct b
  | |- preserves _ (match ?x with _ => _ end) => destruct x
  | |- preserves _ (let '(_, _) := ?x in _) => destruct x
  end.

Ltac refused :=
  cbn; split; [by intros ? [=] | split; [by intros ? [=] | done]].

Lemma disclose_dataRequests (partner : Partner.t) (consent : Consent.t)
    (customer : gmap string string) (requestedFields : list string) :
  preserves World.dataRequests
    (disclose partner consent customer requestedFields).
Proof.
  unfold disclose, encryptResponse, notifyPartnerContractStatus, logEvent.
  repeat frame_step.
Qed.

Lemma encryptResponse_returns (publicKey : option string)
    (responseData fullyDecryptedData : gmap string string) :
  returns (encryptResponse publicKey responseData fullyDecryptedData).
Proof. unfold encryptResponse. repeat returns_step. Qed.

(** [disclose] always answers 200 with a disclosure. *)
Lemma disclose_answers (partner : Partner.t) (consent : Consent.t)
    (customer : gmap string string) (requestedFields : list string)
    (w : World.t) :
  exists encrypted data w',
    disclose partner consent customer requestedFields w
    = (Ok (Json 200 (DisclosureBody encrypted data
                       (deliveryMessage (Partner.callbackUrl partner)))), w').
Proof.
  unfold disclose.
  unfold mbind at 1, M_bind at 1, bind at 1.
  destruct (encryptResponse_returns (Partner.publicKey partner)
              (buildResponseData customer requestedFields)
              (map_fold decryptStored ∅
                 (buildResponseData customer requestedFields)) w)
    as [[encryptedResponse encryptionMethod] Henc].
  destruct (encryptResponse _ _ _ w) as [[x|e] w1]; [|discriminate].
  cbn in Henc. injection Henc as ->.
  unfold mbind at 1, M_bind at 1, bind at 1. cbn [gets].
  unfold mbind at 1, M_bind at 1, bind at 1.
  match goal with
  | |- context [tryCatch ?m ?h ?w1] =>
      destruct (returns_tryCatch m h (fun e => returns_ret tt) w1)
        as [u Hu];
      destruct (tryCatch m h w1) as [[u'|e] w2]; [|discriminate]
  end.
  destruct encryptedResponse as [package|]; by do 3 eexists.
Qed.

(** The outcomes of [fulfil]: the request is recorded and the data
    disclosed, or the state is left as it was. *)
Lemma fulfil_outcome (partner : Partner.t) (body : RequestBody.t)
    (requestId : string) (consent : Consent.t) (w : World.t) :
  let r := tryCatch (fulfil partner body requestId consent)
             (fun error => mret (Next error)) w in
  ((requestId ∉ map DataRequest.requestId (World.dataRequests w))
   /\ (exists encrypted data,
         r.1 = Ok (Json 200 (DisclosureBody encrypted data
                     (deliveryMessage (Partner.callbackUrl partner)))))
   /\ World.dataRequests r.2
      = (World.dataRequests w
         ++ [approvedRequest partner body requestId (World.now w)])%list)
  \/ ((forall response, r.1 ≠ Ok (Json 200 response))
      /\ (forall e, r.1 ≠ Throw e)
      /\ r.2 = w).
Proof.
  intros r. subst r. unfold tryCatch.
  destruct (signatureAccepted partner requestId (RequestBody.consentId body)
              (RequestBody.requestedFields body) (RequestBody.signature body))
    as [[|]|e] eqn:Hsig; cycle 1.
  { right. unfold fulfil, mbind, M_bind, bind, liftR. rewrite Hsig.
    refused. }
  { right. unfold fulfil, mbind, M_bind, bind, liftR. rewrite Hsig.
    refused. }
  destruct (World.customers w !! Consent.customerId consent)
    as [customer|] eqn:Hcustomer; cycle 1.
  { right. unfold fulfil, mbind, M_bind, bind, liftR, gets.
    rewrite Hsig. cbn [negb]. rewrite Hcustomer. refused. }
  destruct (decide (requestId
                    ∈ map DataRequest.requestId (World.dataRequests w)))
    as [Htaken|Hfresh].
  { right. unfold fulfil, createDataRequest, mbind, M_bind, bind, liftR, gets.
    rewrite Hsig. cbn [negb]. rewrite Hcustomer.
    rewrite bool_decide_eq_true_2 by exact Htaken. refused. }
  left. split; [done|].
  rewrite (fulfil_run partner body requestId consent customer w Hsig
             Hcustomer Hfresh).
  destruct (disclose_answers partner consent customer
              (RequestBody.requestedFields body)
              (recorded partner body requestId w))
    as (encrypted & data & w' & Hd).
  pose proof (disclose_dataRequests partner consent customer
                (RequestBody.requestedFields body)
                (recorded partner body requestId w)) as Hkeep.
  rewrite Hd in Hkeep |- *. cbn [fst snd] in *.
  split; [by exists encrypted, data|]. by rewrite Hkeep.
Qed.

Lemma afterRequestId_pushed (body : RequestBody.t) (w : World.t) :
  World.pushed (afterRequestId body w) = World.pushed w.
Proof. unfold afterRequestId. by destruct (RequestBody.requestId body). Qed.

(** The outcomes of [partnerDataRequest] for the recorded requests. *)
Lemma partnerDataRequest_outcome (partner : Partner.t) (body : RequestBody.t)
    (w : World.t) :
  let r := partnerDataRequest partner body w in
  ((requestIdAt body w ∉ map DataRequest.requestId (World.dataRequests w))
   /\ (exists encrypted data,
         r.1 = Ok (Json 200 (DisclosureBody encrypted data
                     (deliveryMessage (Partner.callbackUrl partner)))))
   /\ World.dataRequests r.2
      = (World.dataRequests w
         ++ [approvedRequest partner body (requestIdAt body w)
               (World.now w)])%list)
  \/ ((forall response, r.1 ≠ Ok (Json 200 response))
      /\ (forall e, r.1 ≠ Throw e)
      /\ World.dataRequests r.2 = World.dataRequests w
      /\ World.pushed r.2 = World.pushed w).
Proof.
  intros r. subst r. rewrite partnerDataRequest_cases. cbv zeta.
  destruct (partnerBlocked partner).
  { right. cbn. by rewrite afterRequestId_dataRequests, afterRequestId_pushed. }
  destruct (findActiveConsent _ _ _) as [[i consent]|].
  2: { right. cbn.
       by rewrite afterRequestId_dataRequests, afterRequestId_pushed. }
  destruct (Consent.expiresAt consent <? World.now w)%Z.
  { right. cbn. by rewrite afterRequestId_dataRequests, afterRequestId_pushed. }
  destruct (negb _).
  { right. cbn. by rewrite afterRequestId_dataRequests, afterRequestId_pushed. }
  destruct (fulfil_outcome partner body (requestIdAt body w) consent
              (afterRequestId body w))
    as [(Hfresh & Hr & Hrec)|(Hno & Hthrow & Hsame)]; cbv zeta in *.
  - left. rewrite afterRequestId_dataRequests, afterRequestId_now in *.
    done.
  - right. rewrite Hsame.
    by rewrite afterRequestId_dataRequests, afterRequestId_pushed.
Qed.

(** X17. The collection of data requests records exactly the requests
    that were granted: [partnerDataRequest] answers every request without
    throwing; when it answers 200 it has appended one record, with the
    request's identifier, consent, partner and fields and the status
    [approved]; when it answers anything else it has recorded nothing and
    pushed nothing to the partner. The identifiers of the records stay
    unique. *)
Theorem data_requests_record_the_granted (partner : Partner.t)
    (body : RequestBody.t) (w : World.t) :
  let r := partnerDataRequest partner body w in
  let record :=
    approvedRequest partner body (requestIdAt body w) (World.now w) in
  (forall e, r.1 ≠ Throw e)
  /\ (forall response,
        r.1 = Ok (Json 200 response) ->
        World.dataRequests r.2 = (World.dataRequests w ++ [record])%list)
  /\ ((forall response, r.1 ≠ Ok (Json 200 response)) ->
      World.dataRequests r.2 = World.dataRequests w
      /\ World.pushed r.2 = World.pushed w)
  /\ (NoDup (DataRequest.requestId <$> World.dataRequests w) ->
      NoDup (DataRequest.requestId <$> World.dataRequests r.2)).
Proof.
  intros r record. subst r record.
  destruct (partnerDataRequest_outcome partner body w)
    as [(Hfresh & (encrypted & data & Hr) & Hrec)
       |(Hno & Hthrow & Hsame & Hpushed)]; cbv zeta in *.
  - split; [by rewrite Hr|]. split; [done|]. split.
    + intros Hnot. by destruct (Hnot _ Hr).
    + intros Hnodup. rewrite Hrec, fmap_app. cbn.
      apply NoDup_app. split; [done|]. split.
      * intros x Hx ->%list_elem_of_singleton. by apply Hfresh.
      * apply NoDup_singleton.
  - split; [done|]. split; [|split].
    + intros response Hr. by destruct (Hno response).
    + done.
    + by rewrite Hsame.
Qed.

(** X18. A request identifier is granted at most once: after a request
    that was answered 200 under an identifier of its own, every request
    that carries the same identifier, from whatever partner and for
    whatever consent and fields, is not answered 200; it records nothing
    and pushes nothing. *)
Theorem request_identifier_is_granted_once (partner partner' : Partner.t)
    (body body' : RequestBody.t) (w : World.t) (requestId : string)
    (response : Body) :
  RequestBody.requestId body = Some requestId ->
  RequestBody.requestId body' = Some requestId ->
  (partnerDataRequest partner body w).1 = Ok (Json 200 response) ->
  let w' := (partnerDataRequest partner body w).2 in
  let r' := partnerDataRequest partner' body' w' in
  (forall response', r'.1 ≠ Ok (Json 200 response'))
  /\ World.dataRequests r'.2 = World.dataRequests w'
  /\ World.pushed r'.2 = World.pushed w'.
Proof.
  intros Hid Hid' Hr w' r'. subst r' w'.
  destruct (partnerDataRequest_outcome partner body w)
    as [(_ & _ & Hrec)|(Hno & _)]; cbv zeta in *;
    [|by destruct (Hno response)].
  destruct (partnerDataRequest_outcome partner' body'
              (partnerDataRequest partner body w).2)
    as [(Hfresh & _)|(Hno & _ & Hsame & Hpushed)]; cbv zeta in *;
    [|done].
  exfalso. apply Hfresh. rewrite Hrec.
  unfold requestIdAt. rewrite Hid'.
  rewrite map_app. apply elem_of_app. right. cbn.
  unfold requestIdAt. rewrite Hid. apply list_elem_of_here.
Qed.


Lemma addField_storedValue (customer responseData : gmap string string)
    (field : string) :
  addField customer responseData field
  = match storedValue customer field with
    | Some value => <[field := value]> responseData
    | None => responseData
    end.
Proof.
  unfold addField, storedValue.
  destruct (customer !! field); [done|].
  by destruct (fieldMap !! field).
Qed.

Lemma foldl_addField_lookup (customer : gmap string string)
    (requestedFields : list string) (responseData : gmap string string)
    (k : string) :
  foldl (addField customer) responseData requestedFields !! k
  = match (if bool_decide (k ∈ requestedFields)
           then storedValue customer k else None) with
    | Some value => Some value
    | None => responseData !! k
    end.
Proof.
  revert responseData.
  induction requestedFields as [|field rest IH]; intros responseData.
  - by rewrite bool_decide_eq_false_2 by apply not_elem_of_nil.
  - cbn [foldl]. rewrite IH, addField_storedValue.
    destruct (decide (k = field)) as [->|Hne].
    + rewrite (bool_decide_eq_true_2 (field ∈ field :: rest))
        by apply list_elem_of_here.
      destruct (storedValue customer field) as [value|] eqn:Hstored.
      * rewrite lookup_insert_eq. by destruct (bool_decide _).
      * by destruct (bool_decide _).
    + assert (Hiff : bool_decide (k ∈ field :: rest)
                     = bool_decide (k ∈ rest)).
      { apply bool_decide_ext. rewrite elem_of_cons.
        split; [by intros [?|?] | by right]. }
      rewrite Hiff.
      destruct (if bool_decide (k ∈ rest) then storedValue customer k
                else None); [done|].
      destruct (storedValue customer field); [|done].
      by rewrite lookup_insert_ne.
Qed.

(** When some requested field is held by the customer document, the
    response holds exactly the requested fields that the document
    holds. *)
Lemma buildResponseData_match (customer : gmap string string)
    (requestedFields : list string) (field value : string) :
  field ∈ requestedFields -> storedValue customer field = Some value ->
  forall k,
    buildResponseData customer requestedFields !! k
    = if bool_decide (k ∈ requestedFields) then storedValue customer k
      else None.
Proof.
  intros Hin Hstored k. unfold buildResponseData.
  rewrite bool_decide_eq_false_2.
  - rewrite foldl_addField_lookup, lookup_empty.
    by destruct (if bool_decide _ then _ else _).
  - intros Hsize. apply map_size_empty_iff in Hsize.
    assert (Hl : foldl (addField customer) ∅ requestedFields !! field
                 = Some value).
    { rewrite foldl_addField_lookup, bool_decide_eq_true_2 by done.
      by rewrite Hstored. }
    by rewrite Hsize, lookup_empty in Hl.
Qed.

Lemma decryptStored_loop (m : gmap string string) :
  map_fold decryptStored ∅ m = decryptedValue <$> m.
Proof.
  apply (map_fold_weak_ind (fun r m => r = decryptedValue <$> m)).
  - by rewrite fmap_empty.
  - intros i x m' r Hi ->. rewrite fmap_insert.
    unfold decryptStored, decryptedValue.
    destruct (looksEncrypted x); [|done]. by destruct (rbind _ _).
Qed.


(** ** A public key that RSA cannot use *)

Lemma encryptWithPublicKey_unusable (data pk : string) (c : nat) :
  (forall seed m, exists e, rsa_oaep_encrypt (toPem pk) seed m = Throw e) ->
  encryptWithPublicKey data pk c
  = (Throw "Failed to encrypt data with public key", c + 80).
Proof.
  intros Hbad.
  unfold encryptWithPublicKey, tryCatch, mbind, M_bind, bind, liftR.
  cbn [randomBytes].
  rewrite createCipheriv_drawn by (by rewrite ?length_drawn).
  destruct (gcmEncrypt _ _) as [encrypted authTag].
  destruct (Hbad (drawn (c + 32 + 16) 32) (drawn c 32)) as [e ->].
  unfold throw. f_equal. lia.
Qed.

Lemma encryptCustomerFieldsSecure_unusable (F : gmap string string)
    (pk : string) (c : nat) :
  (forall seed m, exists e, rsa_oaep_encrypt (toPem pk) seed m = Throw e) ->
  encryptCustomerFieldsSecure F pk c
  = (Throw "Failed to encrypt customer data securely", c + 128).
Proof.
  intros Hbad.
  unfold encryptCustomerFieldsSecure, tryCatch, mbind, M_bind, bind, liftR.
  cbn [randomBytes].
  rewrite encrypt_loop by (by rewrite ?length_drawn).
  rewrite encryptWithPublicKey_unusable by done.
  unfold throw. f_equal. lia.
Qed.

Lemma encryptResponse_unusable (pk : string)
    (responseData fullyDecryptedData : gmap string string) (w : World.t) :
  truthy pk = true ->
  (forall seed m, exists e, rsa_oaep_encrypt (toPem pk) seed m = Throw e) ->
  encryptResponse (Some pk) responseData fullyDecryptedData w
  = (Ok (None, "none"), World.setCursor (World.cursor w + 208) w).
Proof.
  intros Hpk Hbad. unfold encryptResponse. rewrite Hpk.
  unfold tryCatch, mbind, M_bind, bind, liftRng.
  rewrite encryptCustomerFieldsSecure_unusable by done.
  cbn [World.cursor World.setCursor].
  rewrite encryptWithPublicKey_unusable by done.
  cbn [mret M_ret ret]. f_equal.
  unfold World.setCursor. cbn. f_equal. lia.
Qed.

(** X20. A partner key that RSA cannot use does not stop a disclosure:
    both encryptions fail, the request is still answered 200, with
    [encrypted: false] and the data in clear, and the notification pushed
    to the partner's callback carries the same data in clear. *)
Theorem unusable_key_falls_back_to_clear (partner : Partner.t)
    (consent : Consent.t) (customer : gmap string string)
    (requestedFields : list string) (w : World.t) (pk : string) :
  Partner.publicKey partner = Some pk ->
  truthy pk = true ->
  (forall seed m, exists e, rsa_oaep_encrypt (toPem pk) seed m = Throw e) ->
  let responseData := buildResponseData customer requestedFields in
  exists w',
    disclose partner consent customer requestedFields w
    = (Ok (Json 200
             (DisclosureBody false (Plain responseData)
                (deliveryMessage (Partner.callbackUrl partner)))), w')
    /\ (forall url,
          Partner.callbackUrl partner = Some url -> truthy url = true ->
          World.pushed w'
          = (World.pushed w
             ++ [clearPush partner consent requestedFields responseData
                   (World.now w)])%list)
    /\ (Partner.callbackUrl partner = None ->
        World.pushed w' = World.pushed w).
Proof.
  intros Hkey Hpk Hbad responseData. subst responseData.
  unfold disclose. rewrite Hkey.
  unfold mbind at 1, M_bind at 1, bind at 1.
  rewrite encryptResponse_unusable by done.
  unfold mbind at 1, M_bind at 1, bind at 1. cbn [gets].
  unfold mbind at 1, M_bind at 1, bind at 1.
  rewrite (bool_decide_eq_false_2 ("none" = secureType)) by done.
  unfold notifyPartnerContractStatus, clearPush.
  destruct (Partner.callbackUrl partner) as [url|].
  - destruct (truthy url) eqn:Hurl; cbn [negb].
    + rewrite Hpk.
      rewrite (bool_decide_eq_true_2
                 ("customer_data_shared" = "customer_data_shared"))
        by done.
      cbn [andb].
      unfold tryCatch, mbind, M_bind, bind, liftRng, gets, post, modify,
        logEvent.
      cbn [World.cursor World.setCursor World.now PushData.customerData].
      rewrite encryptCustomerFieldsSecure_unusable by done.
      cbn. eexists. split; [reflexivity|]. split; [|done].
      by intros ? [= <-] _.
    + cbn. eexists. split; [reflexivity|]. split; [|done].
      intros ? [= <-]. by rewrite Hurl.
  - cbn. eexists. split; [reflexivity|]. by split.
Qed.


(** ** Signatures and notifications *)

(** X21. Signature round trip: a signature service that holds the two
    halves of a key pair signs every text, and [verifySignature] accepts
    the signature for that text, under the service's own public key when
    no key (or an empty one) is given, and under any public half of the
    private key when that one is given. *)
Theorem verifySignature_signData (this : SignatureService)
    (pub priv data : string) :
  signingPrivateKey this = Some priv ->
  signingPublicKey this = Some pub ->
  rsa_keypair pub priv ->
  exists signature,
    signData this data = Ok signature
    /\ verifySignature this (Some data) (Some signature) None = Ok true
    /\ verifySignature this (Some data) (Some signature) (Some "") = Ok true
    /\ (forall other,
          truthy other = true -> rsa_keypair other priv ->
          verifySignature this (Some data) (Some signature) (Some other)
          = Ok true).
Proof using Type rsa_sign_correct fromBase64_toBase64.
  intros Hpriv Hpub Hpair.
  exists (toBase64 (rsa_sign priv (sha256 (utf8 data)))).
  unfold signData, verifySignature. rewrite Hpriv, Hpub.
  cbn [truthy]. rewrite fromBase64_toBase64.
  split; [done|]. split; [by apply rsa_sign_correct|].
  split; [by apply rsa_sign_correct|].
  intros other Hother Hpair'. rewrite Hother. by apply rsa_sign_correct.
Qed.

(** X22. A revocation is told to the partner, in clear: after a
    successful [revokeConsent], when the partner of the consent is active
    and has a callback URL, exactly one request has been posted to that
    URL, which carries the consent's identifier, its customer and the
    status [revoked] unencrypted; otherwise nothing has been posted. *)
Theorem revocation_is_pushed (user : User.t) (consentId : string)
    (w : World.t) (i : nat) (consent : Consent.t) :
  findConsent consentId (World.consents w) = Some (i, consent) ->
  notPermitted user consent = false ->
  World.pushed (revokeConsent user consentId w).2
  = (World.pushed w
     ++ match callbackOf (Consent.partnerId consent) (World.partners w) with
        | Some url =>
            [consentPush url "consent_revoked" consent "revoked"
               (World.now w)]
        | None => []
        end)%list.
Proof.
  intros Hfind Hperm.
  unfold revokeConsent, tryCatch.
  unfold mbind at 1, M_bind at 1, bind at 1. cbn [gets].
  rewrite Hfind, Hperm.
  unfold callbackOf, consentPush, notifyConsentChange, notifyPartner,
    saveConsent, logEvent, post, modify, liftRng, uuidv4, randomBytes,
    mbind, M_bind, bind, gets.
  cbn [World.partners World.setConsents World.now World.cursor
       World.setCursor World.pushed World.setPushed mret M_ret ret
       Consent.partnerId Consent.setUpdatedAt Consent.setStatus
       Consent.consentId Consent.customerId].
  destruct (list_find _ (World.partners w)) as [[j partner]|];
    [|by cbn; rewrite app_nil_r].
  destruct (bool_decide (Partner.status partner = "active"));
    [|by cbn; rewrite app_nil_r].
  destruct (Partner.callbackUrl partner) as [url|];
    [|by cbn; rewrite app_nil_r].
  destruct (truthy url); cbn; [done|by rewrite app_nil_r].
Qed.


(** ** The customer controller *)

Lemma truthyText_truthy (value : option string) (v : string) :
  truthyText value = Some v -> value = Some v /\ truthy v = true.
Proof.
  unfold truthyText. destruct value as [x|]; [|done].
  destruct (truthy x) eqn:Hx; [|done]. by intros [= <-].
Qed.

Lemma looksEncrypted_truthy (text : string) :
  looksEncrypted text = true -> truthy text = true.
Proof. by destruct text. Qed.

Lemma decryptField_encryptOne (iv : bytes) (v : string) :
  length (key encryptionService) = 32 -> length iv ≠ 0 ->
  decryptField encryptionService
    (encryptOne (key encryptionService) iv v) = Ok v.
Proof using Type gcm_keystream_length.
  intros Hk Hiv. unfold decryptField, encryptOne.
  cbn [EncryptedField.iv EncryptedField.authTag
       EncryptedField.encryptedValue].
  by rewrite decrypt_hex_roundtrip.
Qed.

Lemma encryptField_encryptOne (v : string) (c : nat) :
  length (key encryptionService) = 32 ->
  encryptField encryptionService v c
  = (Ok (encryptOne (key encryptionService) (drawn c 16) v), c + 16).
Proof.
  intros Hk. rewrite encryptField_eval by done. reflexivity.
Qed.

Lemma inWorld_logEvent (event : Event.t) (r : Registry.t) :
  inWorld (logEvent event) r
  = (Ok {| MockLog.logId := uuidText (drawn (Registry.cursor r) 16);
           MockLog.eventType := Event.eventType event;
           MockLog.actorType := Event.actorType event;
           MockLog.actorId := Event.actorId event;
           MockLog.timestamp := toISOString (Registry.now r) |},
     Registry.setCursor (Registry.cursor r + 16) r).
Proof. by destruct r. Qed.

Lemma rng_encryptProvided (value : option string) (r : Registry.t) :
  length (key encryptionService) = 32 ->
  rng (encryptProvided value) r
  = (Ok (storedPath (Registry.cursor r) value),
     Registry.setCursor (Registry.cursor r + drawsOf value) r).
Proof.
  intros Hk. unfold rng, encryptProvided, storedPath, drawsOf.
  destruct (truthyText value) as [v|]; cbn.
  - unfold mbind, M_bind, bind. by rewrite encryptField_encryptOne.
  - rewrite Nat.add_0_r. by destruct r.
Qed.

(** A stored path decrypts to the truthy text it was made from. *)
Lemma decryptPath_storedPath (c : nat) (value : option string) :
  length (key encryptionService) = 32 ->
  decryptPath (storedPath c value) = truthyText value.
Proof using Type gcm_keystream_length parseEncryptedField_stringifyEncryptedField stringifyEncryptedField_keys.
  intros Hk. unfold decryptPath, storedPath.
  destruct (truthyText value) as [v|]; [|done]. cbn.
  rewrite (looksEncrypted_truthy _ (stringifyEncryptedField_keys _)).
  rewrite parseEncryptedField_stringifyEncryptedField. cbn [rbind].
  by rewrite decryptField_encryptOne by (by rewrite ?length_drawn).
Qed.



(** ** From the stored customer to the partner *)

Lemma lookup_putPath_ne (name : string) (value : option string)
    (m : gmap string string) (k : string) :
  k ≠ name -> putPath name value m !! k = m !! k.
Proof.
  intros Hne. unfold putPath. destruct value; [|done].
  by rewrite lookup_insert_ne.
Qed.

Lemma lookup_putPath_eq (name : string) (value : option string)
    (m : gmap string string) :
  m !! name = None -> putPath name value m !! name = value.
Proof.
  intros Hnone. unfold putPath. destruct value; [|done].
  by rewrite lookup_insert_eq.
Qed.

Ltac path_lookup :=
  repeat (rewrite lookup_putPath_ne by done);
  first
    [ rewrite lookup_insert_ne by done; apply lookup_empty
    | rewrite lookup_putPath_eq; [reflexivity | path_lookup] ].

(** The encrypted counterpart of a field in a customer document. *)
Lemma storedValue_pathsOf (doc : CustomerDoc.t) :
  storedValue (pathsOf doc) "phone" = CustomerDoc.encryptedPhone doc
  /\ storedValue (pathsOf doc) "email" = CustomerDoc.encryptedEmail doc
  /\ storedValue (pathsOf doc) "pan" = CustomerDoc.encryptedPan doc
  /\ storedValue (pathsOf doc) "address" = CustomerDoc.encryptedAddress doc
  /\ storedValue (pathsOf doc) "name" = CustomerDoc.encryptedName doc.
Proof.
  assert (Hmap : fieldMap !! "phone" = Some "encryptedPhone"
                 /\ fieldMap !! "email" = Some "encryptedEmail"
                 /\ fieldMap !! "pan" = Some "encryptedPan"
                 /\ fieldMap !! "address" = Some "encryptedAddress"
                 /\ fieldMap !! "name" = Some "encryptedName")
    by (by vm_compute).
  destruct Hmap as (Hphone & Hemail & Hpan & Haddress & Hname).
  assert (H1 : pathsOf doc !! "phone" = None) by (unfold pathsOf; path_lookup).
  assert (H2 : pathsOf doc !! "email" = None) by (unfold pathsOf; path_lookup).
  assert (H3 : pathsOf doc !! "pan" = None) by (unfold pathsOf; path_lookup).
  assert (H4 : pathsOf doc !! "address" = None)
    by (unfold pathsOf; path_lookup).
  assert (H5 : pathsOf doc !! "name" = None) by (unfold pathsOf; path_lookup).
  unfold storedValue.
  rewrite H1, H2, H3, H4, H5, Hphone, Hemail, Hpan, Haddress, Hname.
  unfold pathsOf. repeat split; path_lookup.
Qed.

Lemma plaintextOf_stored (body : CustomerBody.t) (c : nat) (t : Z)
    (field v : string) :
  length (key encryptionService) = 32 ->
  plaintextOf body field = Some v ->
  exists text,
    storedValue (pathsOf (customerAt body c t)) field = Some text
    /\ decryptedValue text = v
    /\ v ≠ "".
Proof using Type gcm_keystream_length parseEncryptedField_stringifyEncryptedField stringifyEncryptedField_keys.
  intros Hk Hplain.
  destruct (storedValue_pathsOf (customerAt body c t))
    as (Hphone & Hemail & Hpan & Haddress & Hname).
  assert (Hstored : forall c' value,
            truthyText value = Some v ->
            exists text,
              storedPath c' value = Some text
              /\ decryptedValue text = v /\ v ≠ "").
  { intros c' value Hvalue. unfold storedPath. rewrite Hvalue. cbn.
    eexists. split; [reflexivity|].
    apply truthyText_truthy in Hvalue as [_ Hv].
    split; [|by apply truthy_spec].
    unfold decryptedValue. rewrite stringifyEncryptedField_keys.
    rewrite parseEncryptedField_stringifyEncryptedField. cbn [rbind].
    by rewrite decryptField_encryptOne by (by rewrite ?length_drawn). }
  unfold plaintextOf in Hplain.
  repeat match type of Hplain with
         | (if bool_decide (field = ?name) then _ else _) = _ =>
             destruct (decide (field = name)) as [->|?];
             [rewrite bool_decide_eq_true_2 in Hplain by done
             |rewrite bool_decide_eq_false_2 in Hplain by done]
         end; try done.
  - rewrite Hphone. by apply Hstored.
  - rewrite Hemail. by apply Hstored.
  - rewrite Hpan. by apply Hstored.
  - rewrite Haddress. by apply Hstored.
  - rewrite Hname. by apply Hstored.
Qed.

(** A request that passes every check of [partnerDataRequest] runs the
    disclosure in the state in which the request is recorded. *)
Lemma partnerDataRequest_granted (partner : Partner.t) (body : RequestBody.t)
    (w : World.t) (i : nat) (consent : Consent.t)
    (customer : gmap string string) :
  partnerBlocked partner = false ->
  findActiveConsent (RequestBody.consentId body) (Partner.partnerId partner)
    (World.consents w) = Some (i, consent) ->
  ~ (Consent.expiresAt consent < World.now w)%Z ->
  RequestBody.requestedFields body ⊆ Consent.allowedDataFields consent ->
  signatureAccepted partner (requestIdAt body w) (RequestBody.consentId body)
    (RequestBody.requestedFields body) (RequestBody.signature body)
  = Ok true ->
  World.customers w !! Consent.customerId consent = Some customer ->
  requestIdAt body w ∉ map DataRequest.requestId (World.dataRequests w) ->
  partnerDataRequest partner body w
  = tryCatch
      (disclose partner consent customer (RequestBody.requestedFields body))
      (fun error => mret (Next error))
      (recorded partner body (requestIdAt body w) (afterRequestId body w)).
Proof.
  intros Hgate Hfind Hexp Hsub Hsig Hcustomer Hfresh.
  rewrite partnerDataRequest_cases. cbv zeta. rewrite Hgate, Hfind.
  rewrite (proj2 (Z.ltb_ge _ _)) by lia.
  rewrite (proj2 (invalidFields_nil consent _) Hsub). cbn [negb].
  unfold tryCatch. rewrite (fulfil_run _ _ _ _ customer);
    [reflexivity | exact Hsig | |].
  - by rewrite afterRequestId_customers.
  - by rewrite afterRequestId_dataRequests.
Qed.



Lemma fulfil_without_customer (partner : Partner.t) (body : RequestBody.t)
    (requestId : string) (consent : Consent.t) (w : World.t) :
  World.customers w !! Consent.customerId consent = None ->
  let r := tryCatch (fulfil partner body requestId consent)
             (fun error => mret (Next error)) w in
  (forall response, r.1 ≠ Ok (Json 200 response))
  /\ (forall e, r.1 ≠ Throw e)
  /\ r.2 = w
  /\ (signatureAccepted partner requestId (RequestBody.consentId body)
        (RequestBody.requestedFields body) (RequestBody.signature body)
      = Ok true ->
      r.1 = Ok (Json 404 (ErrorBody "Customer not found"))).
Proof.
  intros Hnone r. subst r.
  unfold tryCatch, fulfil, mbind, M_bind, bind, liftR, gets.
  destruct (signatureAccepted _ _ _ _ _) as [[|]|e]; cbn [negb].
  - rewrite Hnone. cbn. by repeat split.
  - cbn. by repeat split.
  - cbn. by repeat split.
Qed.

(** X25. Deleting a customer does not touch its consents, yet ends the
    disclosure of its data: [deleteCustomer] of an existing customer
    answers 204 and removes the document only; the consents stay as they
    were, active ones included; and a data request under a consent of
    that customer is never answered 200, records nothing and pushes
    nothing, its answer being 404 [Customer not found] when it passes
    every check before the customer is looked up. *)
Theorem deleted_customer_is_not_disclosed (user : User.t)
    (customerId : string) (r : Registry.t) (doc : CustomerDoc.t)
    (partner : Partner.t) (request : RequestBody.t) (i : nat)
    (consent : Consent.t) :
  Registry.customers r !! customerId = Some doc ->
  findActiveConsent (RequestBody.consentId request)
    (Partner.partnerId partner) (Registry.consents r) = Some (i, consent) ->
  Consent.customerId consent = customerId ->
  let r1 := (deleteCustomer user customerId r).2 in
  let answer := inWorld (partnerDataRequest partner request) r1 in
  (deleteCustomer user customerId r).1 = Ok (Sent 204 tt)
  /\ Registry.customers r1 = delete customerId (Registry.customers r)
  /\ Registry.consents r1 = Registry.consents r
  /\ (forall response, answer.1 ≠ Ok (Json 200 response))
  /\ Registry.dataRequests answer.2 = Registry.dataRequests r1
  /\ Registry.pushed answer.2 = Registry.pushed r1
  /\ (partnerBlocked partner = false ->
      ~ (Consent.expiresAt consent < Registry.now r)%Z ->
      RequestBody.requestedFields request
      ⊆ Consent.allowedDataFields consent ->
      signatureAccepted partner (requestIdAt request (worldOf r1))
        (RequestBody.consentId request)
        (RequestBody.requestedFields request)
        (RequestBody.signature request) = Ok true ->
      answer.1 = Ok (Json 404 (ErrorBody "Customer not found"))).
Proof.
  intros Hdoc Hfind Hcustomer r1 answer. subst answer r1.
  assert (Hrun : deleteCustomer user customerId r
                 = (Ok (Sent 204 tt),
                    Registry.setCursor (Registry.cursor r + 16)
                      (Registry.setCustomers
                         (delete customerId (Registry.customers r)) r))).
  { unfold deleteCustomer, tryCatch.
    unfold mbind at 1, M_bind at 1, bind at 1. cbn [gets]. rewrite Hdoc.
    unfold mbind at 1, M_bind at 1, bind at 1. cbn [modify].
    unfold mbind at 1, M_bind at 1, bind at 1.
    by rewrite inWorld_logEvent. }
  rewrite Hrun. cbn [fst snd].
  set (r1 := Registry.setCursor _ _).
  assert (Hconsents : World.consents (worldOf r1) = Registry.consents r)
    by reflexivity.
  assert (Hnow : World.now (worldOf r1) = Registry.now r) by reflexivity.
  assert (Hgone : World.customers (afterRequestId request (worldOf r1))
                  !! Consent.customerId consent = None).
  { rewrite afterRequestId_customers. cbn [worldOf World.customers].
    rewrite lookup_fmap. subst r1.
    cbn [Registry.customers Registry.setCursor Registry.setCustomers].
    by rewrite Hcustomer, lookup_delete_eq. }
  split; [done|]. split; [done|]. split; [done|].
  unfold inWorld.
  rewrite partnerDataRequest_cases. cbv zeta.
  rewrite Hconsents, Hnow, Hfind.
  destruct (fulfil_without_customer partner request
              (requestIdAt request (worldOf r1)) consent
              (afterRequestId request (worldOf r1)) Hgone)
    as (Hnot & _ & Hsame & Hanswer).
  cbv zeta in Hnot, Hsame, Hanswer.
  destruct (partnerBlocked partner).
  { cbn. rewrite afterRequestId_dataRequests, afterRequestId_pushed.
    by repeat split. }
  destruct (Consent.expiresAt consent <? Registry.now r)%Z eqn:Hexp.
  { cbn. rewrite afterRequestId_dataRequests, afterRequestId_pushed.
    repeat split; try done.
    intros _ Hlater. apply Z.ltb_lt in Hexp. by destruct Hlater. }
  destruct (negb _) eqn:Hinvalid.
  { cbn. rewrite afterRequestId_dataRequests, afterRequestId_pushed.
    repeat split; try done.
    intros _ _ Hsub.
    apply (invalidFields_nil consent) in Hsub.
    by rewrite Hsub in Hinvalid. }
  destruct (tryCatch _ _ _) as [answer w'] eqn:Hanswered.
  cbn [fst snd] in *. subst w'.
  cbn [absorb Registry.dataRequests Registry.pushed].
  rewrite afterRequestId_dataRequests, afterRequestId_pushed.
  repeat split; try done; intros _ _ _ Hsig; by apply Hanswer.
Qed.


(** ** The creation of a consent *)

Lemma createConsentDocument_run (_id customerId partnerId : string)
    (contract : ContractData.t) (consentDuration : Z) (r : Registry.t) :
  truthy customerId = true -> truthy partnerId = true ->
  validContract contract = true ->
  durationValid consentDuration = true ->
  uuidText (drawn (Registry.cursor r) 16)
  ∉ map Consent.consentId (Registry.consents r) ->
  let consent :=
    consentOf _id customerId partnerId contract consentDuration
      (Registry.now r) (uuidText (drawn (Registry.cursor r) 16)) in
  createConsentDocument _id customerId partnerId contract consentDuration
    (Registry.now r + consentDuration)%Z r
  = (Ok consent,
     Registry.setConsents (Registry.consents r ++ [consent])%list
       (Registry.setCursor (Registry.cursor r + 16) r)).
Proof.
  intros Hcustomer Hpartner Hvalid Hduration Hfresh consent. subst consent.
  unfold validContract in Hvalid.
  apply andb_prop in Hvalid as [Hvalid Hid].
  apply andb_prop in Hvalid as [Hvalid Htext].
  apply andb_prop in Hvalid as [Hvalid Hretention].
  apply andb_prop in Hvalid as [Harray Hpurpose].
  apply bool_decide_eq_true_1 in Hretention as [retention Hretention].
  unfold createConsentDocument, consentOf.
  destruct (ContractData.purpose contract) as [purpose|]; [|done].
  destruct (ContractData.contractText contract) as [text|]; [|done].
  destruct (ContractData.contractId contract) as [contractId|]; [|done].
  rewrite Hretention. cbn in Hpurpose, Htext, Hid.
  unfold mbind, M_bind, bind, rng, uuidv4, gets, modify.
  cbn [randomBytes mret M_ret ret Registry.cursor Registry.setCursor
       Registry.now Registry.consents].
  unfold mbind, M_bind, bind. cbn [randomBytes mret M_ret ret].
  rewrite Hcustomer, Hpartner, Harray, Hpurpose, Htext, Hid, Hduration.
  cbn [andb].
  by rewrite bool_decide_eq_false_2.
Qed.

(** What follows the creation of the document answers 201 and leaves
    the collections as they are. *)
Lemma createConsent_tail (user : User.t) (partner : PartnerDoc.t)
    (partnerId customerId : string) (newConsent : Consent.t)
    (r : Registry.t) :
  exists r',
    (inWorld (logEvent (consentEvent "consent_created" user newConsent));;
     match truthyText (PartnerDoc.callbackUrl partner) with
     | Some url =>
         if bool_decide (PartnerDoc.status partner = "active")
         then
           inWorld
             (notifyPartner partnerId (Some url) "consent_created"
                (ConsentNotice (Consent.consentId newConsent) customerId
                   (Consent.status newConsent)))
         else mret tt
     | None => mret tt
     end;;
     mret (Json 201 (ConsentBody newConsent))) r
    = (Ok (Json 201 (ConsentBody newConsent)), r')
    /\ Registry.consents r' = Registry.consents r
    /\ Registry.customers r' = Registry.customers r
    /\ Registry.partners r' = Registry.partners r
    /\ Registry.dataRequests r' = Registry.dataRequests r.
Proof.
  unfold mbind at 1, M_bind at 1, bind at 1. rewrite inWorld_logEvent.
  unfold mbind at 1, M_bind at 1, bind at 1.
  destruct (truthyText (PartnerDoc.callbackUrl partner)) as [url|];
    [|by eexists].
  destruct (bool_decide (PartnerDoc.status partner = "active"));
    [|by eexists].
  unfold inWorld, notifyPartner.
  destruct (truthy url); cbn [negb]; [|by eexists].
  unfold mbind, M_bind, bind, gets, post, modify, logEvent, liftRng.
  cbn. by eexists.
Qed.

Lemma durationValid_not_below (d : Z) :
  durationValid d = true -> belowMinimum d = false.
Proof.
  unfold durationValid, belowMinimum. destruct minDuration as [m|]; [|done].
  intros Hle. apply Z.leb_le in Hle. apply Z.ltb_ge. lia.
Qed.

(** X26. A consent takes its terms from the partner's approved contract,
    not from the request: for an existing customer and a partner whose
    contract is approved and complete, [createConsent] answers 201 and
    appends one consent whose allowed fields, purpose, retention period
    and contract identifier are those of the contract, whose expiry is
    the time of the request plus the duration asked, and whose status is
    [active]; it is the consent a data request of that partner under the
    new identifier finds. *)
Theorem createConsent_takes_terms_from_contract (user : User.t)
    (_id : string) (body : ConsentBody.t) (r : Registry.t)
    (customerId partnerId : string) (doc : CustomerDoc.t) (j : nat)
    (partner : PartnerDoc.t) (contract : ContractData.t) (duration : Z) :
  ConsentBody.customerId body = Some customerId ->
  truthy customerId = true ->
  Registry.customers r !! customerId = Some doc ->
  ConsentBody.partnerId body = Some partnerId ->
  truthy partnerId = true ->
  list_find (fun p => PartnerDoc.partnerId p = partnerId)
    (Registry.partners r) = Some (j, partner) ->
  PartnerDoc.approvedContract partner = true ->
  PartnerDoc.contractData partner = Some contract ->
  validContract contract = true ->
  truthyNumber (ConsentBody.consentDuration body) = Some duration ->
  durationValid duration = true ->
  let consentId := uuidText (drawn (Registry.cursor r) 16) in
  consentId ∉ map Consent.consentId (Registry.consents r) ->
  let consent :=
    consentOf _id customerId partnerId contract duration (Registry.now r)
      consentId in
  exists r',
    createConsent user _id body r = (Ok (Json 201 (ConsentBody consent)), r')
    /\ Registry.consents r' = (Registry.consents r ++ [consent])%list
    /\ Consent.allowedDataFields consent
       = ContractData.allowedDataFields contract
    /\ Consent.expiresAt consent = (Registry.now r + duration)%Z
    /\ Consent.status consent = "active"
    /\ Registry.customers r' = Registry.customers r
    /\ Registry.partners r' = Registry.partners r
    /\ findActiveConsent consentId partnerId (Registry.consents r')
       = Some (length (Registry.consents r), consent).
Proof.
  intros Hcid Hcustomer Hdoc Hpid Hpartner Hfind Happroved Hcontract Hvalid
    Hduration Hdvalid consentId Hfresh consent.
  unfold createConsent, tryCatch. rewrite Hduration.
  rewrite (durationValid_not_below _ Hdvalid).
  unfold mbind at 1, M_bind at 1, bind at 1. cbn [gets].
  rewrite Hcid. cbn [mbind option_bind]. rewrite Hdoc. cbn [fmap option_fmap option_map].
  unfold mbind at 1, M_bind at 1, bind at 1. cbn [gets].
  rewrite Hpid. cbn [mbind option_bind]. rewrite Hfind.
  cbn [mbind option_bind snd].
  rewrite Happroved, Hcontract.
  unfold mbind at 1, M_bind at 1, bind at 1. cbn [gets].
  unfold mbind at 1, M_bind at 1, bind at 1.
  rewrite (createConsentDocument_run _id customerId partnerId contract
             duration r Hcustomer Hpartner Hvalid Hdvalid Hfresh).
  cbv zeta. fold consentId. fold consent.
  match goal with
  | |- context [(inWorld (logEvent ?ev);; _) ?r2] =>
      destruct (createConsent_tail user partner partnerId customerId consent
                  r2)
        as (r' & Hrun & Hconsents & Hcustomers & Hpartners & _)
  end.
  exists r'. rewrite Hrun.
  split; [done|]. rewrite Hconsents, Hcustomers, Hpartners.
  cbn [Registry.consents Registry.customers Registry.partners
       Registry.setConsents Registry.setCursor].
  do 6 (split; [done|]).
  unfold findActiveConsent. apply list_find_Some.
  split; [|split].
  - by rewrite lookup_app_r, Nat.sub_diag.
  - done.
  - intros k c Hk Hlt [Hc _].
    rewrite lookup_app_l in Hk by done.
    apply Hfresh. rewrite <- Hc.
    apply list_elem_of_fmap_2. by eapply list_elem_of_lookup_2.
Qed.


Lemma createConsentDocument_outcome (_id customerId partnerId : string)
    (contract : ContractData.t) (consentDuration : Z) (r : Registry.t) :
  let run :=
    createConsentDocument _id customerId partnerId contract consentDuration
      (Registry.now r + consentDuration)%Z r in
  (exists e,
     run = (Throw e, Registry.setCursor (Registry.cursor r + 16) r))
  \/ (validContract contract = true
      /\ durationValid consentDuration = true
      /\ let consent :=
           consentOf _id customerId partnerId contract consentDuration
             (Registry.now r) (uuidText (drawn (Registry.cursor r) 16)) in
         run = (Ok consent,
                Registry.setConsents (Registry.consents r ++ [consent])%list
                  (Registry.setCursor (Registry.cursor r + 16) r))).
Proof.
  intros run. subst run.
  unfold createConsentDocument, validContract, consentOf, mbind, M_bind, bind,
    rng, uuidv4, gets, modify.
  unfold mbind, M_bind, bind.
  cbn [randomBytes mret M_ret ret Registry.cursor Registry.setCursor
       Registry.now Registry.consents].
  destruct (ContractData.purpose contract) as [purpose|];
    [|left; by eexists].
  destruct (ContractData.retentionPeriod contract) as [retention|];
    [|left; by eexists].
  destruct (ContractData.contractText contract) as [text|];
    [|left; by eexists].
  destruct (ContractData.contractId contract) as [contractId|];
    [|left; by eexists].
  cbn [from_option default].
  rewrite (bool_decide_eq_true_2 (is_Some (Some retention))) by done.
  destruct (truthy customerId && truthy partnerId
            && requiredArrayOk (ContractData.allowedDataFields contract)
            && truthy purpose && truthy text && truthy contractId
            && durationValid consentDuration) eqn:Hall;
    [|left; by eexists].
  apply andb_prop in Hall as [Hall Hduration].
  apply andb_prop in Hall as [Hall Hid].
  apply andb_prop in Hall as [Hall Htext].
  apply andb_prop in Hall as [Hall Hpurpose].
  apply andb_prop in Hall as [Hall Harray].
  destruct (bool_decide _) eqn:Htaken; [left; by eexists|].
  right. rewrite Harray, Hpurpose, Htext, Hid, Hduration.
  by repeat split.
Qed.

(** The outcomes of [createConsent]. *)
Lemma createConsent_outcome (user : User.t) (_id : string)
    (body : ConsentBody.t) (r : Registry.t) :
  let answer := createConsent user _id body r in
  (exists status message,
     answer = (Ok (Json status (ErrorBody message)), r)
     /\ (status = 400 \/ status = 404 \/ status = 403))
  \/ (exists e,
        answer = (Ok (Next e),
                  Registry.setCursor (Registry.cursor r + 16) r))
  \/ (exists customerId partnerId j partner contract duration r',
        ConsentBody.customerId body = Some customerId
        /\ is_Some (Registry.customers r !! customerId)
        /\ ConsentBody.partnerId body = Some partnerId
        /\ list_find (fun p => PartnerDoc.partnerId p = partnerId)
             (Registry.partners r) = Some (j, partner)
        /\ PartnerDoc.approvedContract partner = true
        /\ PartnerDoc.contractData partner = Some contract
        /\ validContract contract = true
        /\ truthyNumber (ConsentBody.consentDuration body) = Some duration
        /\ durationValid duration = true
        /\ let consent :=
             consentOf _id customerId partnerId contract duration
               (Registry.now r) (uuidText (drawn (Registry.cursor r) 16)) in
           answer = (Ok (Json 201 (ConsentBody consent)), r')
           /\ Registry.consents r' = (Registry.consents r ++ [consent])%list
           /\ Registry.customers r' = Registry.customers r
           /\ Registry.partners r' = Registry.partners r
           /\ Registry.dataRequests r' = Registry.dataRequests r).
Proof.
  intros answer.
  assert (Hstep : forall A B (m : M Registry.t A) (k : A -> M Registry.t B)
                    s, (m ≫= k) s
                       = match m s with
                         | (Ok a, s') => k a s'
                         | (Throw e, s') => (Throw e, s')
                         end) by done.
  destruct (truthyNumber (ConsentBody.consentDuration body)) as [duration|]
    eqn:Hduration; cycle 1.
  { left. do 2 eexists. split; [|by left].
    subst answer. unfold createConsent, tryCatch. by rewrite Hduration. }
  destruct (belowMinimum duration) eqn:Hbelow.
  { left. do 2 eexists. split; [|by left].
    subst answer. unfold createConsent, tryCatch.
    by rewrite Hduration, Hbelow. }
  destruct (ConsentBody.customerId body) as [customerId|] eqn:Hcid; cycle 1.
  { left. do 2 eexists. split; [|by right; left].
    subst answer. unfold createConsent, tryCatch.
    rewrite Hduration, Hbelow, Hstep. cbn [gets]. by rewrite Hcid. }
  destruct (Registry.customers r !! customerId) as [doc|] eqn:Hdoc; cycle 1.
  { left. do 2 eexists. split; [|by right; left].
    subst answer. unfold createConsent, tryCatch.
    rewrite Hduration, Hbelow, Hstep. cbn [gets]. rewrite Hcid.
    cbn [mbind option_bind]. by rewrite Hdoc. }
  destruct (ConsentBody.partnerId body) as [partnerId|] eqn:Hpid; cycle 1.
  { left. do 2 eexists. split; [|by right; left].
    subst answer. unfold createConsent, tryCatch.
    rewrite Hduration, Hbelow, Hstep. cbn [gets]. rewrite Hcid.
    cbn [mbind option_bind]. rewrite Hdoc.
    cbn [fmap option_fmap option_map]. rewrite Hstep. cbn [gets].
    by rewrite Hpid. }
  destruct (list_find (fun p => PartnerDoc.partnerId p = partnerId)
              (Registry.partners r)) as [[j partner]|] eqn:Hfind; cycle 1.
  { left. do 2 eexists. split; [|by right; left].
    subst answer. unfold createConsent, tryCatch.
    rewrite Hduration, Hbelow, Hstep. cbn [gets]. rewrite Hcid.
    cbn [mbind option_bind]. rewrite Hdoc.
    cbn [fmap option_fmap option_map]. rewrite Hstep. cbn [gets].
    rewrite Hpid. cbn [mbind option_bind]. by rewrite Hfind. }
  assert (Hfound :
    answer
    = match (if PartnerDoc.approvedContract partner
             then PartnerDoc.contractData partner else None) with
      | None =>
          (Ok (Json 403 (ErrorBody
             "This partner does not have an approved contract yet")), r)
      | Some contract =>
          match createConsentDocument _id customerId partnerId contract
                  duration (Registry.now r + duration)%Z r with
          | (Ok newConsent, r2) =>
              tryCatch
                (inWorld (logEvent (consentEvent "consent_created" user
                                      newConsent));;
                 match truthyText (PartnerDoc.callbackUrl partner) with
                 | Some url =>
                     if bool_decide (PartnerDoc.status partner = "active")
                     then
                       inWorld
                         (notifyPartner partnerId (Some url)
                            "consent_created"
                            (ConsentNotice (Consent.consentId newConsent)
                               customerId (Consent.status newConsent)))
                     else mret tt
                 | None => mret tt
                 end;;
                 mret (Json 201 (ConsentBody newConsent)))
                (fun error => mret (Next error)) r2
          | (Throw e, r2) => (Ok (Next e), r2)
          end
      end).
  { subst answer. unfold createConsent, tryCatch.
    rewrite Hduration, Hbelow, Hstep. cbn [gets]. rewrite Hcid.
    cbn [mbind option_bind]. rewrite Hdoc.
    cbn [fmap option_fmap option_map]. rewrite Hstep. cbn [gets].
    rewrite Hpid. cbn [mbind option_bind]. rewrite Hfind.
    cbn [mbind option_bind snd].
    destruct (if PartnerDoc.approvedContract partner
              then PartnerDoc.contractData partner else None)
      as [contract|]; [|done].
    rewrite Hstep. cbn [gets]. rewrite Hstep.
    by destruct (createConsentDocument _ _ _ _ _ _ r) as [[newConsent|e] r2]. }
  destruct (PartnerDoc.approvedContract partner) eqn:Happroved; cycle 1.
  { left. do 2 eexists. split; [exact Hfound|]. by right; right. }
  destruct (PartnerDoc.contractData partner) as [contract|] eqn:Hcontract;
    cycle 1.
  { left. do 2 eexists. split; [exact Hfound|]. by right; right. }
  destruct (createConsentDocument_outcome _id customerId partnerId contract
              duration r)
    as [[e Hrun]|(Hvalid & Hdvalid & Hrun)]; cbv zeta in Hrun;
    rewrite Hrun in Hfound.
  { right; left. by exists e. }
  right; right.
  match type of Hfound with
  | context [tryCatch (inWorld (logEvent ?ev);; _) _ ?r2] =>
      match ev with
      | consentEvent _ _ ?consent =>
          destruct (createConsent_tail user partner partnerId customerId
                      consent r2)
            as (r' & Htail & Hconsents & Hcustomers & Hpartners & Hrequests)
      end
  end.
  unfold tryCatch in Hfound. rewrite Htail in Hfound.
  exists customerId, partnerId, j, partner, contract, duration, r'.
  rewrite Hconsents, Hcustomers, Hpartners, Hrequests.
  assert (Hbelow' := durationValid_not_below _ Hdvalid).
  by repeat split.
Qed.

(** X27. No consent without an approved contract, and no write without
    a consent: when [createConsent] answers 201, the customer exists, the
    partner named has an approved contract, the consent stored has the
    allowed fields of that contract and a duration the schema accepts,
    and exactly this consent has been appended; when it answers with an
    error (400, 404 or 403) the state is the state before the request;
    when the document is rejected by the validators or the unique index
    only the random source has advanced. *)
Theorem createConsent_needs_an_approved_contract (user : User.t)
    (_id : string) (body : ConsentBody.t) (r : Registry.t) :
  let answer := createConsent user _id body r in
  (forall consent,
     answer.1 = Ok (Json 201 (ConsentBody consent)) ->
     exists j partner contract,
       list_find (fun p => PartnerDoc.partnerId p = Consent.partnerId consent)
         (Registry.partners r) = Some (j, partner)
       /\ PartnerDoc.approvedContract partner = true
       /\ PartnerDoc.contractData partner = Some contract
       /\ Consent.allowedDataFields consent
          = ContractData.allowedDataFields contract
       /\ is_Some (Registry.customers r !! Consent.customerId consent)
       /\ durationValid (Consent.consentDuration consent) = true
       /\ Consent.expiresAt consent
          = (Registry.now r + Consent.consentDuration consent)%Z
       /\ Registry.consents answer.2 = (Registry.consents r ++ [consent])%list)
  /\ (forall status message,
        answer.1 = Ok (Json status (ErrorBody message)) ->
        answer.2 = r /\ (status = 400 \/ status = 404 \/ status = 403))
  /\ (forall e,
        answer.1 = Ok (Next e) ->
        answer.2 = Registry.setCursor (Registry.cursor r + 16) r)
  /\ (forall e, answer.1 ≠ Throw e).
Proof.
  intros answer. subst answer.
  destruct (createConsent_outcome user _id body r)
    as [(status & message & Hrun & Hstatus)
       |[(e & Hrun)
        |(customerId & partnerId & j & partner & contract & duration & r'
          & Hcid & Hdoc & Hpid & Hfind & Happroved & Hcontract & Hvalid
          & Hduration & Hdvalid & Hrun)]]; cbv zeta in Hrun.
  - rewrite Hrun. cbn [fst snd]. split; [|split; [|split]]; try done.
    by intros status' message' [= <- <-].
  - rewrite Hrun. cbn [fst snd]. split; [|split; [|split]]; try done.
  - destruct Hrun as (Hrun & Hconsents & _). rewrite Hrun. cbn [fst snd].
    split; [|split; [|split]]; try done.
    intros consent [= <-].
    exists j, partner, contract. by repeat split.
Qed.


(** ** The authentication of partners *)

Lemma untilSpace_byte (x : byte) (s : string) :
  untilSpace (String (hexDigit (Byte.to_N x / 16)%N)
                (String (hexDigit (Byte.to_N x mod 16)%N) s))
  = String (hexDigit (Byte.to_N x / 16)%N)
      (String (hexDigit (Byte.to_N x mod 16)%N) (untilSpace s)).
Proof. destruct x; reflexivity. Qed.

Lemma untilSpace_toHex (b : bytes) : untilSpace (toHex b) = toHex b.
Proof.
  induction b as [|x b IH]; [reflexivity|].
  cbn [toHex]. by rewrite untilSpace_byte, IH.
Qed.

Lemma substring_all (s : string) : String.substring 0 (String.length s) s = s.
Proof. induction s as [|a s IH]; cbn; by rewrite ?IH. Qed.

Lemma tokenOf_bearer (token : string) :
  tokenOf ("Bearer " ++ token) = untilSpace token.
Proof.
  unfold tokenOf, String.append. cbn.
  assert (Hprefix : String.prefix "" token = true) by (by destruct token).
  rewrite Hprefix, Nat.sub_0_r. by rewrite substring_all.
Qed.

Lemma truthyText_Some (value : option string) (v : string) :
  truthyText value = Some v <-> value = Some v /\ v ≠ "".
Proof.
  unfold truthyText. destruct value as [x|]; [|by split; [|intros [? _]]].
  destruct x as [|a x]; cbn.
  - split; [done|]. by intros [[= <-] ?].
  - split; [by intros [= <-]|]. by intros [[= <-] _].
Qed.

(** The headers and the partner that [partnerProtect] accepts. *)
Lemma partnerProtect_lets_through (headers : gmap string string)
    (partners : list PartnerDoc.t) (partner : PartnerDoc.t)
    (tokenHeader partnerId : string) (j : nat) :
  headers !! "authorization" = Some tokenHeader ->
  tokenHeader ≠ "" ->
  headers !! "x-partner-id" = Some partnerId ->
  partnerId ≠ "" ->
  list_find (fun p => PartnerDoc.partnerId p = partnerId) partners
  = Some (j, partner) ->
  PartnerDoc.apiTokenHash partner = Some (hashApiToken (tokenOf tokenHeader)) ->
  partnerProtect headers partners = Authenticated partner.
Proof.
  intros Htoken Hne Hid Hne' Hfind Hhash. unfold partnerProtect.
  rewrite (proj2 (truthyText_Some _ tokenHeader)) by done.
  rewrite (proj2 (truthyText_Some _ partnerId)) by done.
  rewrite Hfind. by rewrite bool_decide_eq_true_2.
Qed.

(** Whom [partnerProtect] lets through: a request is authenticated
    as a partner exactly when it carries an [authorization] header and an
    [x-partner-id] header that are not empty, the partner is the first
    one of that identifier, and the SHA-256 digest of the token, in
    hexadecimal, is the partner's [apiTokenHash]; the token is the header
    itself, or the text between the first and the second space of a
    header that starts with [Bearer ]. *)
Theorem partnerProtect_authenticates_iff (headers : gmap string string)
    (partners : list PartnerDoc.t) (partner : PartnerDoc.t) :
  partnerProtect headers partners = Authenticated partner
  <-> exists tokenHeader partnerId j,
        headers !! "authorization" = Some tokenHeader
        /\ tokenHeader ≠ ""
        /\ headers !! "x-partner-id" = Some partnerId
        /\ partnerId ≠ ""
        /\ list_find (fun p => PartnerDoc.partnerId p = partnerId) partners
           = Some (j, partner)
        /\ PartnerDoc.apiTokenHash partner
           = Some (hashApiToken (tokenOf tokenHeader)).
Proof.
  split.
  - unfold partnerProtect, hashApiToken.
    destruct (truthyText (headers !! "authorization")) as [tokenHeader|]
      eqn:Htoken; [|done].
    destruct (truthyText (headers !! "x-partner-id")) as [partnerId|]
      eqn:Hid; [|done].
    apply truthyText_Some in Htoken as [Htoken Hne].
    apply truthyText_Some in Hid as [Hid Hne'].
    destruct (list_find _ partners) as [[j found]|] eqn:Hfind; [|done].
    destruct (bool_decide _) eqn:Hhash; [|done].
    apply bool_decide_eq_true_1 in Hhash.
    intros [= <-]. by exists tokenHeader, partnerId, j.
  - intros (tokenHeader & partnerId & j & Htoken & Hne & Hid & Hne' & Hfind
            & Hhash).
    by apply (partnerProtect_lets_through headers partners partner
                tokenHeader partnerId j).
Qed.

(** X28. A token issued as [registerPartner] issues it opens the door:
    [generateApiToken] draws 32 bytes and returns their hexadecimal text;
    [verifyApiToken] accepts it against its [hashApiToken]; and a partner
    that stores this digest is authenticated by [partnerProtect] when the
    token is sent after [Bearer ], or as the whole header, with the
    partner's identifier. *)
Theorem issued_token_authenticates (c : nat) (partners : list PartnerDoc.t)
    (j : nat) (partner : PartnerDoc.t) (others : gmap string string) :
  let token := toHex (drawn c 32) in
  PartnerDoc.partnerId partner ≠ "" ->
  list_find (fun p => PartnerDoc.partnerId p = PartnerDoc.partnerId partner)
    partners = Some (j, partner) ->
  PartnerDoc.apiTokenHash partner = Some (hashApiToken token) ->
  generateApiToken c = (Ok token, c + 32)
  /\ verifyApiToken token (hashApiToken token) = true
  /\ partnerProtect
       (<["authorization" := "Bearer " ++ token]>
          (<["x-partner-id" := PartnerDoc.partnerId partner]> others))
       partners = Authenticated partner
  /\ partnerProtect
       (<["authorization" := token]>
          (<["x-partner-id" := PartnerDoc.partnerId partner]> others))
       partners = Authenticated partner.
Proof.
  intros token Hid Hfind Hhash.
  assert (Htoken : token ≠ "").
  { subst token. unfold drawn. cbn [seq map toHex]. done. }
  split; [reflexivity|].
  split; [by apply bool_decide_eq_true_2|].
  assert (Hraw : tokenOf token = token).
  { unfold tokenOf. destruct (String.prefix "Bearer " token) eqn:Hprefix;
      [|done].
    subst token. unfold drawn in Hprefix. cbn [seq map toHex] in Hprefix.
    cbn [String.prefix] in Hprefix.
    destruct (entropy c); discriminate Hprefix. }
  split.
  - apply partnerProtect_lets_through with (tokenHeader := "Bearer " ++ token)
      (partnerId := PartnerDoc.partnerId partner) (j := j);
      rewrite ?lookup_insert_eq, ?tokenOf_bearer; try done.
    + by rewrite lookup_insert_ne, lookup_insert_eq.
    + subst token. by rewrite untilSpace_toHex.
  - apply partnerProtect_lets_through with (tokenHeader := token)
      (partnerId := PartnerDoc.partnerId partner) (j := j);
      rewrite ?lookup_insert_eq, ?Hraw; try done.
    by rewrite lookup_insert_ne, lookup_insert_eq.
Qed.

(** X29. The partner backend's own data request never reaches the
    controller: it sends the token in an [X-API-Token] header, while
    [partnerProtect] reads the [authorization] header only, so that the
    route hands the error [Missing partner token or partner ID] to the
    error handler and leaves the database as it is, whatever the token
    and the request; with the same token in the [authorization] header
    instead, the route runs [partnerDataRequest] for that partner. *)
Theorem partner_backend_request_is_refused (partnerId apiToken : string)
    (others : gmap string string) (body : RequestBody.t) (r : Registry.t) :
  others !! "authorization" = None ->
  let headers := partnerBackendHeaders partnerId apiToken ∪ others in
  dataRequestRoute headers body r
  = (Ok (Next "Missing partner token or partner ID"), r)
  /\ (forall partner,
        partnerProtect (<["authorization" := apiToken]> headers)
          (Registry.partners r) = Authenticated partner ->
        dataRequestRoute (<["authorization" := apiToken]> headers) body r
        = inWorld (partnerDataRequest (PartnerDoc.view partner) body) r).
Proof.
  intros Hnone headers.
  assert (Hmissing : headers !! "authorization" = None).
  { subst headers. apply lookup_union_None. split; [|done].
    unfold partnerBackendHeaders.
    by rewrite !lookup_insert_ne, lookup_empty. }
  unfold dataRequestRoute, mbind, M_bind, bind, gets. split.
  - unfold partnerProtect. by rewrite Hmissing.
  - intros partner Hauth. by rewrite Hauth.
Qed.


End SecureShare.

(** ** The small instance satisfies the laws of the parameters *)

Lemma Toy_keystream_length (key iv : bytes) (n : nat) :
  length (Toy.gcm_keystream key iv n) = n.
Proof. apply repeat_length. Qed.

Lemma Toy_ofDigits_digits (p : positive) : Toy.ofDigits (Toy.digits p) = Some p.
Proof. induction p as [p IH|p IH|]; cbn; by rewrite ?IH. Qed.

Lemma Toy_parse_stringify {A} `{Countable A} (a : A) :
  Toy.parse (Toy.stringify a) = Ok a.
Proof.
  unfold Toy.parse, Toy.stringify. rewrite Toy_ofDigits_digits. cbn.
  by rewrite decode_encode.
Qed.

Lemma Toy_rsa_oaep_correct (pub priv : string) (seed m : bytes) :
  Toy.rsa_keypair pub priv -> length m = 32 ->
  exists c, Toy.rsa_oaep_encrypt pub seed m = Ok c
            /\ Toy.rsa_oaep_decrypt priv c = Ok m.
Proof. intros _ _. by exists m. Qed.

Lemma Toy_tagDetectsBitFlips (key : bytes) :
  tagDetectsBitFlips Toy.gcm_tag key.
Proof. intros iv c i j Hi Hj. by apply flipBit_neq. Qed.

(** ** The services on the small instance *)

Abbreviation toy_encryptField :=
  (encryptField Toy.entropy Toy.gcm_keystream Toy.gcm_tag Toy.sha256).
Abbreviation toy_decryptField :=
  (decryptField Toy.gcm_keystream Toy.gcm_tag).
Abbreviation toy_encryptCustomerFieldsSecure :=
  (encryptCustomerFieldsSecure Toy.entropy Toy.gcm_keystream Toy.gcm_tag
     Toy.sha256 Toy.rsa_oaep_encrypt toHex Toy.stringify).
Abbreviation toy_decryptHybridData :=
  (decryptHybridData Toy.gcm_keystream Toy.gcm_tag Toy.rsa_oaep_decrypt
     fromHex).
Abbreviation toy_decryptSecureData :=
  (decryptSecureData Toy.gcm_keystream Toy.gcm_tag Toy.rsa_oaep_decrypt
     fromHex Toy.parse).

(** The bank's service with a 32-character key. *)
Abbreviation toy_bank :=
  {| key := utf8 "0123456789abcdef0123456789abcdef" |}.


Lemma decryptField_detects_bit_flip_witness :
  let e :=
    {| EncryptedField.encryptedValue := "515c595355705548515d405c551e535f5d";
       EncryptedField.iv := "000102030405060708090a0b0c0d0e0f";
       EncryptedField.authTag := "515c595355705548515d405c551e535f5d";
       EncryptedField.hash := "616c696365406578616d706c652e636f6d" |} in
  toy_encryptField toy_bank "alice@example.com" 0 = (Ok e, 16)
  /\ (3 < length (fromHex (EncryptedField.encryptedValue e)) ->
      toy_decryptField toy_bank (flipCiphertextBit e 3 5)
      = Throw "Failed to decrypt data")
  /\ (3 < length (fromHex (EncryptedField.authTag e)) ->
      toy_decryptField toy_bank (flipAuthTagBit e 3 5)
      = Throw "Failed to decrypt data").
Proof.
  intros e. split; [vm_compute; reflexivity|].
  apply (decryptField_detects_bit_flip Toy.entropy Toy.gcm_keystream
           Toy.gcm_tag Toy.sha256 toy_bank "alice@example.com" 0 16 e 3 5).
  - reflexivity.
  - apply Toy_tagDetectsBitFlips.
  - vm_compute; reflexivity.
  - lia.
Defined.



Abbreviation toy_signer :=
  {| signingPrivateKey := Some "bank-sk"; signingPublicKey := Some "bank-pk" |}.
Abbreviation toy_verifySignature :=
  (verifySignature Toy.sha256 Toy.rsa_verify fromHex).
Abbreviation toy_verifyLogs := (verifyLogs Toy.sha256 Toy.rsa_verify fromHex).
Abbreviation toy_verifyLogIntegrity :=
  (verifyLogIntegrity Toy.sha256 Toy.rsa_verify fromHex).
Abbreviation toy_partnerDataRequest :=
  (partnerDataRequest Toy.entropy Toy.gcm_keystream Toy.gcm_tag Toy.sha256
     Toy.rsa_oaep_encrypt Toy.rsa_verify toHex fromHex Toy.stringify Toy.parse
     Toy.stringify Toy.stringifySignaturePayload Toy.uuidText Toy.toISOString
     toy_bank toy_signer).
Abbreviation toy_updateConsent :=
  (updateConsent Toy.entropy Toy.uuidText Toy.toISOString Toy.addDays
     Toy.minDuration Toy.requiredArrayOk "1").
Abbreviation toy_revokeConsent :=
  (revokeConsent Toy.entropy Toy.uuidText Toy.toISOString).

Lemma verifyLogIntegrity_skips_first_signature_witness :
  let w :=
    {| World.consents := [];
       World.customers := ∅;
       World.partners := [];
       World.dataRequests := [];
       World.auditLogs := [Toy.secondLog; Toy.firstLog];
       World.pushed := [];
       World.now := 3000;
       World.cursor := 0 |} in
  findLogs "a1" "a2" (World.auditLogs w) = [Toy.firstLog; Toy.secondLog]
  /\ toy_verifySignature toy_signer (AuditLog.eventHash Toy.firstLog)
       (AuditLog.digitalSignature Toy.firstLog) None = Ok false
  /\ AuditLog.previousHash Toy.secondLog = AuditLog.eventHash Toy.firstLog
  /\ toy_verifySignature toy_signer (AuditLog.eventHash Toy.secondLog)
       (AuditLog.digitalSignature Toy.secondLog) None = Ok true
  /\ toy_verifyLogIntegrity toy_signer "a1" "a2" w
     = (Ok {| Verdict.valid := true;
              Verdict.message := "Log chain integrity verified" |}, w)
  /\ toy_verifyLogs toy_signer [Toy.firstLog]
     = Ok {| Verdict.valid := true;
             Verdict.message := "Log chain integrity verified" |}
  /\ ~ Forall (fun log =>
                toy_verifySignature toy_signer (AuditLog.eventHash log)
                  (AuditLog.digitalSignature log) None = Ok true)
         (findLogs "a1" "a2" (World.auditLogs w)).
Proof.
  intros w.
  assert (H0 : findLogs "a1" "a2" (World.auditLogs w)
               = [Toy.firstLog; Toy.secondLog]) by (vm_compute; reflexivity).
  assert (H1 : toy_verifySignature toy_signer (AuditLog.eventHash Toy.firstLog)
                 (AuditLog.digitalSignature Toy.firstLog) None = Ok false)
    by (vm_compute; reflexivity).
  assert (H2 : AuditLog.previousHash Toy.secondLog
               = AuditLog.eventHash Toy.firstLog) by reflexivity.
  assert (H3 : toy_verifySignature toy_signer
                 (AuditLog.eventHash Toy.secondLog)
                 (AuditLog.digitalSignature Toy.secondLog) None = Ok true)
    by (vm_compute; reflexivity).
  split; [exact H0|]. split; [exact H1|]. split; [exact H2|].
  split; [exact H3|].
  exact (verifyLogIntegrity_skips_first_signature Toy.sha256 Toy.rsa_verify
           fromHex toy_signer "a1" "a2" w Toy.firstLog Toy.secondLog
           H0 H1 H2 H3).
Defined.

Lemma fields_not_allowed_iff_witness :
  let body := Toy.request ["phone"; "ssn"] in
  let w := Toy.world [Toy.consent] 2000 in
  let r := toy_partnerDataRequest Toy.partner body w in
  partnerBlocked Toy.partner = false
  /\ findActiveConsent "c1" "p1" (World.consents w) = Some (0, Toy.consent)
  /\ ~ (Consent.expiresAt Toy.consent < World.now w)%Z
  /\ ~ ["phone"; "ssn"] ⊆ Consent.allowedDataFields Toy.consent
  /\ r.1 = Ok (Json 403 (ErrorBody "Fields not allowed: ssn"))
  /\ Consent.allowedDataFields <$> World.consents r.2
     = Consent.allowedDataFields <$> World.consents w.
Proof.
  intros body w r.
  assert (H1 : partnerBlocked Toy.partner = false) by reflexivity.
  assert (H2 : findActiveConsent (RequestBody.consentId body)
                 (Partner.partnerId Toy.partner) (World.consents w)
               = Some (0, Toy.consent)) by (vm_compute; reflexivity).
  assert (H3 : ~ (Consent.expiresAt Toy.consent < World.now w)%Z)
    by (cbn; lia).
  assert (H4 : ~ ["phone"; "ssn"] ⊆ Consent.allowedDataFields Toy.consent).
  { intros Hsub. assert (Hin : "ssn" ∈ ["phone"; "ssn"]) by (right; left).
    apply Hsub in Hin. revert Hin.
    by apply (bool_decide_eq_false_1
                ("ssn" ∈ Consent.allowedDataFields Toy.consent)). }
  destruct (fields_not_allowed_iff Toy.entropy Toy.gcm_keystream Toy.gcm_tag
              Toy.sha256 Toy.rsa_oaep_encrypt Toy.rsa_verify toHex fromHex
              Toy.stringify Toy.parse Toy.stringify
              Toy.stringifySignaturePayload Toy.uuidText Toy.toISOString
              toy_bank toy_signer Toy.partner body w 0 Toy.consent H1 H2 H3)
    as ([_ Hif] & _ & _ & Hkeep).
  split; [exact H1|]. split; [exact H2|]. split; [exact H3|].
  split; [exact H4|]. split; [exact (Hif H4) | exact Hkeep].
Defined.

Lemma consent_expired_iff_witness :
  let body := Toy.request ["phone"] in
  let w := Toy.world [Toy.consent] 6000000 in
  let r := toy_partnerDataRequest Toy.partner body w in
  r.1 = Ok (Json 403 (ErrorBody "Consent expired"))
  /\ World.consents r.2 !! 0 = Some (expire 6000000 Toy.consent)
  /\ Consent.status (expire 6000000 Toy.consent) = "expired".
Proof.
  intros body w r.
  assert (H1 : partnerBlocked Toy.partner = false) by reflexivity.
  assert (H2 : findActiveConsent (RequestBody.consentId body)
                 (Partner.partnerId Toy.partner) (World.consents w)
               = Some (0, Toy.consent)) by (vm_compute; reflexivity).
  assert (H3 : (Consent.expiresAt Toy.consent < World.now w)%Z)
    by (cbn; lia).
  destruct (consent_expired_iff Toy.entropy Toy.gcm_keystream Toy.gcm_tag
              Toy.sha256 Toy.rsa_oaep_encrypt Toy.rsa_verify toHex fromHex
              Toy.stringify Toy.parse Toy.stringify
              Toy.stringifySignaturePayload Toy.uuidText Toy.toISOString
              toy_bank toy_signer Toy.partner body w)
    as ([_ Hif] & Hstore & _).
  split.
  - apply Hif. split; [exact H1|]. exists 0, Toy.consent. by split.
  - destruct (Hstore 0 Toy.consent H1 H2 H3) as (_ & Hi & Hs). by split.
Defined.

(** A request against a consent that is revoked and past its expiry date
    is not answered [Consent expired]: the consent is not found. *)
Lemma revoked_expired_consent_is_not_found :
  let body := Toy.request ["phone"] in
  let w := Toy.world [Toy.revokedConsent] 6000000 in
  let r := toy_partnerDataRequest Toy.partner body w in
  (Consent.expiresAt Toy.revokedConsent < World.now w)%Z
  /\ r.1 = Ok (Json 404 (ErrorBody "No active consent found"))
  /\ r.1 ≠ Ok (Json 403 (ErrorBody "Consent expired")).
Proof.
  intros body w r. split; [cbn; lia|].
  assert (Hr : r.1 = Ok (Json 404 (ErrorBody "No active consent found")))
    by (vm_compute; reflexivity).
  split; [exact Hr|]. rewrite Hr. discriminate.
Qed.

Lemma consent_status_not_terminal_witness :
  let w := Toy.world [Toy.revokedConsent] 2000 in
  let reactivated :=
    applyUpdate
      (buildUpdateData Toy.addDays "c1" (statusOnly "active") w)
      Toy.revokedConsent in
  findConsent "c1" (World.consents w) = Some (0, Toy.revokedConsent)
  /\ notPermitted Toy.admin Toy.revokedConsent = false
  /\ (exists w',
        toy_revokeConsent Toy.admin "c1" w
        = (Ok (Json 200 (ConsentBody (revoked 2000 Toy.revokedConsent))), w'))
  /\ (exists w',
        toy_updateConsent Toy.admin "c1" (statusOnly "active") w
        = (Ok (Json 200 (ConsentBody reactivated)), w')
        /\ World.consents w' = [reactivated]
        /\ Consent.status reactivated = "active").
Proof.
  intros w reactivated.
  assert (H1 : findConsent "c1" (World.consents w)
               = Some (0, Toy.revokedConsent)) by (vm_compute; reflexivity).
  assert (H2 : notPermitted Toy.admin Toy.revokedConsent = false)
    by reflexivity.
  destruct (consent_status_not_terminal Toy.entropy Toy.uuidText
              Toy.toISOString Toy.addDays Toy.minDuration Toy.requiredArrayOk
              "1" Toy.admin "c1" w 0 Toy.revokedConsent H1 H2)
    as ((w1 & Hrevoke & _) & Hupdate).
  split; [exact H1|]. split; [exact H2|]. split; [by exists w1|].
  assert (Hin : "active" ∈ statusEnum) by left.
  destruct (Hupdate "active" Hin) as (w2 & Hrun & Hcons & Hstatus).
  exists w2. split; [exact Hrun|]. split; [exact Hcons | exact Hstatus].
Defined.

(** A revoked consent leaves the status [revoked]: an admin's update with
    status [active] is accepted and stored; and revoking the revoked
    consent is accepted with 200. *)
Lemma revoked_consent_is_reactivated :
  let w := Toy.world [Toy.revokedConsent] 2000 in
  let updated := toy_updateConsent Toy.admin "c1" (statusOnly "active") w in
  let again := toy_revokeConsent Toy.admin "c1" w in
  Consent.status <$> World.consents w = ["revoked"]
  /\ Consent.status <$> World.consents updated.2 = ["active"]
  /\ (exists consent, updated.1 = Ok (Json 200 (ConsentBody consent)))
  /\ (exists consent, again.1 = Ok (Json 200 (ConsentBody consent))).
Proof.
  intros w updated again.
  split; [reflexivity|]. split; [vm_compute; reflexivity|].
  split; eexists; vm_compute; reflexivity.
Qed.

Lemma updateConsent_writes_before_permission_check_witness :
  let w := Toy.world [Toy.consent] 2000 in
  let body := statusOnly "revoked" in
  let updated :=
    applyUpdate (buildUpdateData Toy.addDays "c1" body w) Toy.consent in
  let r := toy_updateConsent Toy.stranger "c1" body w in
  notPermitted Toy.stranger Toy.consent = true
  /\ r = (Ok (Json 403 (ErrorBody
                "You do not have permission to update this consent")),
          World.setConsents [updated] w)
  /\ Consent.status updated = "revoked"
  /\ World.consents r.2 ≠ World.consents w.
Proof.
  intros w body updated r.
  assert (H1 : findConsent "c1" (World.consents w) = Some (0, Toy.consent))
    by (vm_compute; reflexivity).
  assert (H2 : from_option (belowMinimum Toy.minDuration) false
                 (truthyNumber (UpdateBody.consentDuration body)) = false)
    by reflexivity.
  assert (H3 : validUpdate Toy.minDuration Toy.requiredArrayOk
                 (buildUpdateData Toy.addDays "c1" body w) = true)
    by (vm_compute; reflexivity).
  assert (H4 : notPermitted Toy.stranger Toy.consent = true)
    by (vm_compute; reflexivity).
  destruct (updateConsent_writes_before_permission_check Toy.entropy
              Toy.uuidText Toy.toISOString Toy.addDays Toy.minDuration
              Toy.requiredArrayOk "1" Toy.stranger "c1" body w 0 Toy.consent
              H1 H2 H3 H4) as (Hr & _ & _ & Hstatus & Hchanged).
  split; [exact H4|]. split; [exact Hr|].
  split; [exact (Hstatus "revoked" eq_refl)|].
  apply Hchanged. discriminate.
Defined.


(** ** More laws of the small instance *)

Lemma Toy_rsa_sign_correct (pub priv : string) (m : bytes) :
  Toy.rsa_keypair pub priv ->
  Toy.rsa_verify pub m (Toy.rsa_sign priv m) = Ok true.
Proof.
  intros _. unfold Toy.rsa_verify, Toy.rsa_sign.
  by rewrite bool_decide_eq_true_2.
Qed.

Lemma Toy_stripPrefix_app (p s : string) :
  Toy.stripPrefix p (p ++ s) = Some s.
Proof.
  induction p as [|a p IH]; [done|].
  unfold String.append in *. cbn. by rewrite Ascii.eqb_refl.
Qed.

Lemma Toy_parseField_stringifyField (e : EncryptedField.t) :
  Toy.parseField (Toy.stringifyField e) = Ok e.
Proof.
  unfold Toy.parseField, Toy.stringifyField.
  rewrite Toy_stripPrefix_app. apply Toy_parse_stringify.
Qed.

Lemma Toy_stringifyField_keys (e : EncryptedField.t) :
  looksEncrypted (Toy.stringifyField e) = true.
Proof.
  unfold looksEncrypted, Toy.stringifyField, Toy.fieldKeys, quoted,
    String.append.
  generalize (Toy.stringify e). by intros [|a rest].
Qed.

(** ** The further operations on the small instance *)

Abbreviation toy_encryptWithPublicKey :=
  (encryptWithPublicKey Toy.entropy Toy.gcm_keystream Toy.gcm_tag
     Toy.rsa_oaep_encrypt toHex).


Lemma decryptHybridData_detects_bit_flip_witness :
  Toy.rsa_keypair (toPem "pk") "sk"
  /\ tagDetectsBitFlips Toy.gcm_tag (drawn Toy.entropy 0 32)
  /\ 5 < 8
  /\ exists package,
       toy_encryptWithPublicKey "hello" "pk" 0 = (Ok package, 0 + 80)
       /\ toy_decryptHybridData (fun data : string => Ok data)
            {| privateKey := Some "sk" |}
            (flipPackageDataBit toHex fromHex package 3 5)
          = Throw ("Failed to decrypt data: "
                   ++ "Unsupported state or unable to authenticate data").
Proof.
  assert (H1 : Toy.rsa_keypair (toPem "pk") "sk") by exact I.
  assert (H2 : tagDetectsBitFlips Toy.gcm_tag (drawn Toy.entropy 0 32))
    by apply Toy_tagDetectsBitFlips.
  assert (H3 : 5 < 8) by lia.
  repeat (split; [assumption|]).
  destruct (decryptHybridData_detects_bit_flip Toy.entropy
              Toy.gcm_keystream Toy.gcm_tag Toy.rsa_oaep_encrypt
              Toy.rsa_oaep_decrypt Toy.rsa_keypair toHex fromHex
              Toy_keystream_length fromHex_toHex Toy_rsa_oaep_correct
              (fun data : string => Ok data) "hello" "pk" "sk" 0 3 5
              H1 H2 H3)
    as (package & Hpackage & _ & Hdata & _).
  exists package. split; [exact Hpackage|]. apply Hdata. cbn. lia.
Defined.


Lemma encrypted_hash_is_createHash_witness :
  length (key toy_bank) = 32
  /\ exists e e',
       toy_encryptField toy_bank "alice@example.com" 0 = (Ok e, 0 + 16)
       /\ toy_encryptField toy_bank "alice@example.com" 16 = (Ok e', 16 + 16)
       /\ EncryptedField.hash e' = EncryptedField.hash e
       /\ EncryptedField.hash e = createHash Toy.sha256 "alice@example.com".
Proof.
  split; [reflexivity|].
  destruct (encrypted_hash_is_createHash Toy.entropy Toy.gcm_keystream
              Toy.gcm_tag Toy.sha256 toHex toy_bank "alice@example.com" 0 16
              eq_refl)
    as (e & e' & He & He' & Hhash & Hsame & _).
  exists e, e'. repeat split; assumption.
Defined.

Lemma secure_envelope_fields_share_key_stream_witness :
  let F : gmap string string := {[ "email" := "ab"; "name" := "cd" ]} in
  Toy.rsa_keypair (toPem "pk") "sk"
  /\ exists envelope payload field1 field2,
       toy_encryptCustomerFieldsSecure F "pk" 0 = (Ok envelope, 0 + 128)
       /\ Payload.encryptedFields payload !! "email" = Some field1
       /\ Payload.encryptedFields payload !! "name" = Some field2
       /\ EncryptedField.iv field1 = EncryptedField.iv field2
       /\ xorBytes (fromHex (EncryptedField.encryptedValue field1))
            (fromHex (EncryptedField.encryptedValue field2))
          = xorBytes (utf8 "ab") (utf8 "cd").
Proof.
  intros F. split; [exact I|].
  destruct (secure_envelope_fields_share_key_stream Toy.entropy
              Toy.gcm_keystream Toy.gcm_tag Toy.sha256 Toy.rsa_oaep_encrypt
              Toy.rsa_oaep_decrypt Toy.rsa_keypair toHex fromHex
              Toy.stringify Toy.parse Toy_keystream_length fromHex_toHex
              Toy_parse_stringify Toy_rsa_oaep_correct F "pk" "sk" 0 I)
    as (envelope & payload & Henvelope & _ & Hfields).
  destruct (Hfields "email" "name" "ab" "cd" eq_refl eq_refl)
    as (field1 & field2 & H1 & H2 & Hiv & Hxor); [discriminate..|].
  exists envelope, payload, field1, field2.
  repeat (split; [assumption|]). apply Hxor. reflexivity.
Defined.

Lemma verifyLogs_first_failure_witness :
  toy_verifyLogs toy_signer ([Toy.firstLog] ++ [Toy.secondLog])
  = Ok chainVerified
  /\ toy_verifyLogs toy_signer
       [Toy.firstLog; Toy.secondLog; Toy.thirdLog; Toy.firstLog]
     = Ok {| Verdict.valid := false;
             Verdict.message := "Chain broken between logs a2 and a3" |}.
Proof.
  assert (H1 : toy_verifyLogs toy_signer ([Toy.firstLog] ++ [Toy.secondLog])
               = Ok chainVerified) by (vm_compute; reflexivity).
  split; [exact H1|].
  apply (verifyLogs_first_failure Toy.sha256 Toy.rsa_verify fromHex
           toy_signer [Toy.firstLog] [Toy.firstLog] Toy.secondLog
           Toy.thirdLog H1).
  unfold linked. discriminate.
Defined.

Lemma verifyLogIntegrity_reversed_range_witness :
  let w := Toy.worldOfLogs [Toy.firstLog; Toy.secondLog; Toy.thirdLog] in
  String.leb "a3" "a1" = false
  /\ toy_verifyLogIntegrity toy_signer "a3" "a1" w
     = (Ok {| Verdict.valid := true;
              Verdict.message := "No logs to verify" |}, w).
Proof.
  intros w. split; [reflexivity|].
  apply (verifyLogIntegrity_reversed_range Toy.sha256 Toy.rsa_verify fromHex
           toy_signer "a3" "a1" w).
  reflexivity.
Defined.

Lemma integrityCheckOfPage_is_vacuous_witness :
  let w := Toy.worldOfLogs [Toy.firstLog; Toy.secondLog; Toy.thirdLog] in
  let page := [Toy.thirdLog; Toy.secondLog; Toy.firstLog] in
  NoDup (AuditLog.logId <$> World.auditLogs w)
  /\ length page <= 100
  /\ (exists message,
        integrityCheckOfPage Toy.sha256 Toy.rsa_verify fromHex toy_signer
          page w
        = (Ok {| Verdict.valid := true; Verdict.message := message |}, w))
  /\ toy_verifyLogIntegrity toy_signer "a1" "a3" w
     = (Ok {| Verdict.valid := false;
              Verdict.message := "Chain broken between logs a2 and a3" |},
        w).
Proof.
  intros w page.
  assert (H1 : NoDup (AuditLog.logId <$> World.auditLogs w))
    by (apply (bool_decide_unpack _); vm_compute; exact I).
  assert (H2 : length page <= 100) by (cbn; lia).
  split; [exact H1|]. split; [exact H2|].
  split; [|vm_compute; reflexivity].
  exact (integrityCheckOfPage_is_vacuous Toy.sha256 Toy.rsa_verify fromHex
           toy_signer page w H1 H2).
Defined.

Lemma revokeConsent_refusal_writes_nothing_witness :
  let w := Toy.world [Toy.consent] 2000 in
  (toy_revokeConsent Toy.stranger "c1" w).1
  = Ok (Json 403
          (ErrorBody "You do not have permission to revoke this consent"))
  /\ (toy_revokeConsent Toy.stranger "c1" w).2 = w.
Proof.
  intros w.
  assert (H1 : (toy_revokeConsent Toy.stranger "c1" w).1
               = Ok (Json 403
                       (ErrorBody
                          "You do not have permission to revoke this consent")))
    by (vm_compute; reflexivity).
  split; [exact H1|].
  apply (revokeConsent_refusal_writes_nothing Toy.entropy Toy.uuidText
           Toy.toISOString Toy.stranger "c1" w 403
           "You do not have permission to revoke this consent" H1).
Defined.

Lemma updateConsent_expiry_witness :
  let w := Toy.world [Toy.consent] 2000 in
  let body :=
    {| UpdateBody.allowedDataFields := None;
       UpdateBody.purpose := None;
       UpdateBody.retentionPeriod := None;
       UpdateBody.consentDuration := Some 7200000%Z;
       UpdateBody.status := None |} in
  findConsent "c1" (World.consents w) = Some (0, Toy.consent)
  /\ from_option (belowMinimum Toy.minDuration) false
       (truthyNumber (UpdateBody.consentDuration body)) = false
  /\ validUpdate Toy.minDuration Toy.requiredArrayOk
       (buildUpdateData Toy.addDays "c1" body w) = true
  /\ exists updated,
       World.consents (toy_updateConsent Toy.admin "c1" body w).2 !! 0
       = Some updated
       /\ Consent.expiresAt updated = 7202000%Z
       /\ Consent.createdAt updated = 1000%Z.
Proof.
  intros w body.
  assert (H1 : findConsent "c1" (World.consents w) = Some (0, Toy.consent))
    by (vm_compute; reflexivity).
  assert (H2 : from_option (belowMinimum Toy.minDuration) false
                 (truthyNumber (UpdateBody.consentDuration body)) = false)
    by reflexivity.
  assert (H3 : validUpdate Toy.minDuration Toy.requiredArrayOk
                 (buildUpdateData Toy.addDays "c1" body w) = true)
    by (vm_compute; reflexivity).
  repeat (split; [assumption|]).
  destruct (updateConsent_expiry Toy.entropy Toy.uuidText Toy.toISOString
              Toy.addDays Toy.minDuration Toy.requiredArrayOk "1" Toy.admin
              "c1" body w 0 Toy.consent H1 H2 H3)
    as (updated & Hupdated & Hexpiry & _).
  exists updated. split; [exact Hupdated|]. split; [exact Hexpiry|].
  vm_compute in Hupdated. by injection Hupdated as <-.
Defined.

Lemma revoked_consent_is_not_disclosed_witness :
  let w := Toy.world [Toy.consent] 2000 in
  let body := Toy.request ["phone"] in
  let w' := (toy_revokeConsent Toy.admin "c1" w).2 in
  let r := toy_partnerDataRequest Toy.partner body w' in
  NoDup (Consent.consentId <$> World.consents w)
  /\ findConsent "c1" (World.consents w) = Some (0, Toy.consent)
  /\ notPermitted Toy.admin Toy.consent = false
  /\ RequestBody.consentId body = "c1"
  /\ (r.1 = Ok (Json 404 (ErrorBody "No active consent found"))
      \/ r.1 = Ok (Json 403 (ErrorBody
              "Partner is not active or does not have an approved contract")))
  /\ World.dataRequests r.2 = World.dataRequests w'
  /\ World.pushed r.2 = World.pushed w'.
Proof.
  intros w body w' r.
  assert (H1 : NoDup (Consent.consentId <$> World.consents w))
    by (apply (bool_decide_unpack _); vm_compute; exact I).
  assert (H2 : findConsent "c1" (World.consents w) = Some (0, Toy.consent))
    by (vm_compute; reflexivity).
  assert (H3 : notPermitted Toy.admin Toy.consent = false) by reflexivity.
  assert (H4 : RequestBody.consentId body = "c1") by reflexivity.
  repeat (split; [assumption|]).
  exact (revoked_consent_is_not_disclosed Toy.entropy Toy.gcm_keystream
           Toy.gcm_tag Toy.sha256 Toy.rsa_oaep_encrypt Toy.rsa_verify toHex
           fromHex Toy.stringify Toy.parse Toy.stringify
           Toy.stringifySignaturePayload Toy.uuidText Toy.toISOString
           toy_bank toy_signer Toy.admin "c1" w 0 Toy.consent Toy.partner
           body H1 H2 H3 H4).
Defined.

Lemma expired_consent_is_not_found_again_witness :
  let w := Toy.world [Toy.consent] 6000000 in
  let body := Toy.request ["phone"] in
  let r := toy_partnerDataRequest Toy.partner body w in
  let r' := toy_partnerDataRequest Toy.partner body r.2 in
  NoDup (Consent.consentId <$> World.consents w)
  /\ partnerBlocked Toy.partner = false
  /\ findActiveConsent (RequestBody.consentId body)
       (Partner.partnerId Toy.partner) (World.consents w)
     = Some (0, Toy.consent)
  /\ (Consent.expiresAt Toy.consent < World.now w)%Z
  /\ r.1 = Ok (Json 403 (ErrorBody "Consent expired"))
  /\ r'.1 = Ok (Json 404 (ErrorBody "No active consent found"))
  /\ World.consents r'.2 = World.consents r.2.
Proof.
  intros w body r r'.
  assert (H1 : NoDup (Consent.consentId <$> World.consents w))
    by (apply (bool_decide_unpack _); vm_compute; exact I).
  assert (H2 : partnerBlocked Toy.partner = false) by reflexivity.
  assert (H3 : findActiveConsent (RequestBody.consentId body)
                 (Partner.partnerId Toy.partner) (World.consents w)
               = Some (0, Toy.consent)) by (vm_compute; reflexivity).
  assert (H4 : (Consent.expiresAt Toy.consent < World.now w)%Z)
    by (cbn; lia).
  repeat (split; [assumption|]).
  exact (expired_consent_is_not_found_again Toy.entropy Toy.gcm_keystream
           Toy.gcm_tag Toy.sha256 Toy.rsa_oaep_encrypt Toy.rsa_verify toHex
           fromHex Toy.stringify Toy.parse Toy.stringify
           Toy.stringifySignaturePayload Toy.uuidText Toy.toISOString
           toy_bank toy_signer Toy.partner body body w 0 Toy.consent
           H1 H2 H3 H4 eq_refl).
Defined.

Lemma request_identifier_is_granted_once_witness :
  let w := Toy.world [Toy.consent] 2000 in
  let body := Toy.request ["phone"; "email"] in
  let response :=
    DisclosureBody false (Plain testData)
      "Data sent via API response and pushed to partner endpoint" in
  let w' := (toy_partnerDataRequest Toy.keylessPartner body w).2 in
  let r' := toy_partnerDataRequest Toy.partner body w' in
  RequestBody.requestId body = Some "r1"
  /\ (toy_partnerDataRequest Toy.keylessPartner body w).1
     = Ok (Json 200 response)
  /\ (forall response', r'.1 ≠ Ok (Json 200 response'))
  /\ World.dataRequests r'.2 = World.dataRequests w'
  /\ World.pushed r'.2 = World.pushed w'.
Proof.
  intros w body response w' r'.
  assert (H1 : RequestBody.requestId body = Some "r1") by reflexivity.
  assert (H2 : (toy_partnerDataRequest Toy.keylessPartner body w).1
               = Ok (Json 200 response)) by (vm_compute; reflexivity).
  repeat (split; [assumption|]).
  exact (request_identifier_is_granted_once Toy.entropy Toy.gcm_keystream
           Toy.gcm_tag Toy.sha256 Toy.rsa_oaep_encrypt Toy.rsa_verify toHex
           fromHex Toy.stringify Toy.parse Toy.stringify
           Toy.stringifySignaturePayload Toy.uuidText Toy.toISOString
           toy_bank toy_signer Toy.keylessPartner Toy.partner body body w
           "r1" response H1 H1 H2).
Defined.


Lemma unusable_key_falls_back_to_clear_witness :
  let unusable :=
    fun (_ : string) (_ _ : bytes) =>
      Throw (A := bytes) "error:0909006C:PEM routines:get_name:no start line" in
  let w := Toy.worldWith Toy.customerWithEmail [Toy.consent] 2000 in
  let responseData := buildResponseData Toy.customerWithEmail ["email"] in
  Partner.publicKey Toy.partner = Some "pk"
  /\ truthy "pk" = true
  /\ (forall seed m, exists e, unusable (toPem "pk") seed m = Throw e)
  /\ exists w',
       disclose Toy.entropy Toy.gcm_keystream Toy.gcm_tag Toy.sha256
         unusable toHex Toy.stringify Toy.parse Toy.stringify Toy.uuidText
         Toy.toISOString toy_bank Toy.partner Toy.consent
         Toy.customerWithEmail ["email"] w
       = (Ok (Json 200
                (DisclosureBody false (Plain responseData)
                   (deliveryMessage (Partner.callbackUrl Toy.partner)))), w')
       /\ length (World.pushed w') = 1.
Proof.
  intros unusable w responseData.
  assert (H1 : Partner.publicKey Toy.partner = Some "pk") by reflexivity.
  assert (H2 : truthy "pk" = true) by reflexivity.
  assert (H3 : forall seed m, exists e, unusable (toPem "pk") seed m = Throw e)
    by (intros seed m; eexists; reflexivity).
  repeat (split; [assumption|]).
  destruct (unusable_key_falls_back_to_clear Toy.entropy Toy.gcm_keystream
              Toy.gcm_tag Toy.sha256 unusable toHex Toy.stringify Toy.parse
              Toy.stringify Toy.uuidText Toy.toISOString toy_bank Toy.partner
              Toy.consent Toy.customerWithEmail ["email"] w "pk" H1 H2 H3)
    as (w' & Hanswer & Hpushed & _).
  exists w'. split; [exact Hanswer|].
  by rewrite (Hpushed "https://partner.example/hook" eq_refl eq_refl).
Defined.

Lemma verifySignature_signData_witness :
  signingPrivateKey toy_signer = Some "bank-sk"
  /\ signingPublicKey toy_signer = Some "bank-pk"
  /\ Toy.rsa_keypair "bank-pk" "bank-sk"
  /\ exists signature,
       signData Toy.sha256 Toy.rsa_sign toHex toy_signer "r1c1phone"
       = Ok signature
       /\ toy_verifySignature toy_signer (Some "r1c1phone") (Some signature)
            None = Ok true.
Proof.
  do 3 (split; [done|]).
  destruct (verifySignature_signData Toy.sha256 Toy.rsa_keypair Toy.rsa_sign
              Toy.rsa_verify toHex fromHex fromHex_toHex Toy_rsa_sign_correct
              toy_signer "bank-pk" "bank-sk" "r1c1phone" eq_refl eq_refl I)
    as (signature & Hsigned & Hverified & _).
  by exists signature.
Defined.

Lemma revocation_is_pushed_witness :
  let w := Toy.world [Toy.consent] 2000 in
  findConsent "c1" (World.consents w) = Some (0, Toy.consent)
  /\ notPermitted Toy.admin Toy.consent = false
  /\ World.pushed (toy_revokeConsent Toy.admin "c1" w).2
     = [consentPush Toy.toISOString "https://partner.example/hook"
          "consent_revoked" Toy.consent "revoked" 2000].
Proof.
  intros w.
  assert (H1 : findConsent "c1" (World.consents w) = Some (0, Toy.consent))
    by (vm_compute; reflexivity).
  assert (H2 : notPermitted Toy.admin Toy.consent = false) by reflexivity.
  repeat (split; [assumption|]).
  exact (revocation_is_pushed Toy.entropy Toy.uuidText Toy.toISOString
           Toy.admin "c1" w 0 Toy.consent H1 H2).
Defined.

Abbreviation toy_customerAt :=
  (customerAt Toy.entropy Toy.gcm_keystream Toy.gcm_tag Toy.sha256
     Toy.uuidText toy_bank Toy.stringifyField).
Abbreviation toy_createCustomer :=
  (createCustomer Toy.entropy Toy.gcm_keystream Toy.gcm_tag Toy.sha256
     Toy.parseField Toy.uuidText Toy.toISOString toy_bank
     Toy.stringifyField).
Abbreviation toy_getCustomer :=
  (getCustomer Toy.gcm_keystream Toy.gcm_tag Toy.parseField toy_bank).
Abbreviation toy_deleteCustomer :=
  (deleteCustomer Toy.entropy Toy.uuidText Toy.toISOString).
Abbreviation toy_createConsent :=
  (createConsent Toy.entropy Toy.uuidText Toy.toISOString Toy.minDuration
     Toy.requiredArrayOk "1").
(** The data request of a bank whose customers were stored by
    [createCustomer]. *)
Abbreviation toy_storedDataRequest :=
  (partnerDataRequest Toy.entropy Toy.gcm_keystream Toy.gcm_tag Toy.sha256
     Toy.rsa_oaep_encrypt Toy.rsa_verify toHex fromHex Toy.stringify
     Toy.parseField Toy.stringify Toy.stringifySignaturePayload Toy.uuidText
     Toy.toISOString toy_bank toy_signer).
Abbreviation toy_dataRequestRoute :=
  (dataRequestRoute Toy.entropy Toy.gcm_keystream Toy.gcm_tag Toy.sha256
     Toy.rsa_oaep_encrypt Toy.rsa_verify toHex fromHex Toy.stringify
     Toy.parse Toy.stringify Toy.stringifySignaturePayload Toy.uuidText
     Toy.toISOString toy_bank toy_signer).



Lemma deleted_customer_is_not_disclosed_witness :
  let request := Toy.request ["email"] in
  let r := Toy.registry {[ "cust1" := Toy.customerDoc ]} [Toy.consent] 2000 in
  let r1 := (toy_deleteCustomer Toy.admin "cust1" r).2 in
  let answer := inWorld (toy_partnerDataRequest Toy.partner request) r1 in
  Registry.customers r !! "cust1" = Some Toy.customerDoc
  /\ findActiveConsent (RequestBody.consentId request)
       (Partner.partnerId Toy.partner) (Registry.consents r)
     = Some (0, Toy.consent)
  /\ (toy_deleteCustomer Toy.admin "cust1" r).1 = Ok (Sent 204 tt)
  /\ Registry.consents r1 = [Toy.consent]
  /\ answer.1 = Ok (Json 404 (ErrorBody "Customer not found"))
  /\ Registry.dataRequests answer.2 = Registry.dataRequests r1.
Proof.
  intros request r r1 answer.
  assert (H1 : Registry.customers r !! "cust1" = Some Toy.customerDoc)
    by (vm_compute; reflexivity).
  assert (H2 : findActiveConsent (RequestBody.consentId request)
                 (Partner.partnerId Toy.partner) (Registry.consents r)
               = Some (0, Toy.consent)) by (vm_compute; reflexivity).
  assert (H3 : Consent.customerId Toy.consent = "cust1") by reflexivity.
  repeat (split; [assumption|]).
  destruct (deleted_customer_is_not_disclosed Toy.entropy Toy.gcm_keystream
              Toy.gcm_tag Toy.sha256 Toy.rsa_oaep_encrypt Toy.rsa_verify
              toHex fromHex Toy.stringify Toy.parse Toy.stringify
              Toy.stringifySignaturePayload Toy.uuidText Toy.toISOString
              toy_bank toy_signer Toy.admin "cust1" r Toy.customerDoc
              Toy.partner request 0 Toy.consent H1 H2 H3)
    as (Hdeleted & _ & Hconsents & _ & Hrequests & _ & Hanswer).
  split; [exact Hdeleted|]. split; [exact Hconsents|].
  split; [|exact Hrequests].
  apply Hanswer.
  - reflexivity.
  - cbn; lia.
  - intros x Hx. apply list_elem_of_singleton in Hx as ->.
    apply (bool_decide_unpack _). vm_compute. exact I.
  - reflexivity.
Defined.

Lemma createConsent_takes_terms_from_contract_witness :
  let r := Toy.registry {[ "cust1" := Toy.customerDoc ]} [] 2000 in
  Registry.customers r !! "cust1" = Some Toy.customerDoc
  /\ list_find (fun p => PartnerDoc.partnerId p = "p1") (Registry.partners r)
     = Some (0, Toy.partnerDoc)
  /\ validContract Toy.requiredArrayOk Toy.contract = true
  /\ durationValid Toy.minDuration 7200000 = true
  /\ exists r' consent,
       toy_createConsent Toy.admin "64b7f2" Toy.consentBody r
       = (Ok (Json 201 (ConsentBody consent)), r')
       /\ Registry.consents r' = [consent]
       /\ Consent.allowedDataFields consent = ["phone"; "email"]
       /\ Consent.expiresAt consent = 7202000%Z
       /\ Consent.status consent = "active".
Proof.
  intros r.
  assert (H1 : Registry.customers r !! "cust1" = Some Toy.customerDoc)
    by (vm_compute; reflexivity).
  assert (H2 : list_find (fun p => PartnerDoc.partnerId p = "p1")
                 (Registry.partners r) = Some (0, Toy.partnerDoc))
    by (vm_compute; reflexivity).
  assert (H3 : validContract Toy.requiredArrayOk Toy.contract = true)
    by reflexivity.
  assert (H4 : durationValid Toy.minDuration 7200000 = true)
    by reflexivity.
  repeat (split; [assumption|]).
  destruct (createConsent_takes_terms_from_contract Toy.entropy Toy.uuidText
              Toy.toISOString Toy.minDuration Toy.requiredArrayOk "1"
              Toy.admin "64b7f2" Toy.consentBody r "cust1" "p1"
              Toy.customerDoc 0 Toy.partnerDoc Toy.contract 7200000%Z
              eq_refl eq_refl H1 eq_refl eq_refl H2 eq_refl eq_refl H3
              eq_refl H4 (not_elem_of_nil _))
    as (r' & Hcreated & Hconsents & Hfields & Hexpiry & Hstatus & _).
  eexists r', _. split; [exact Hcreated|].
  split; [exact Hconsents|]. split; [exact Hfields|].
  split; [exact Hexpiry|]. exact Hstatus.
Defined.

Lemma issued_token_authenticates_witness :
  let token := toHex (drawn Toy.entropy 0 32) in
  PartnerDoc.partnerId Toy.partnerDoc ≠ ""
  /\ list_find
       (fun p => PartnerDoc.partnerId p = PartnerDoc.partnerId Toy.partnerDoc)
       [Toy.partnerDoc] = Some (0, Toy.partnerDoc)
  /\ PartnerDoc.apiTokenHash Toy.partnerDoc
     = Some (hashApiToken Toy.sha256 token)
  /\ generateApiToken Toy.entropy 0 = (Ok token, 0 + 32)
  /\ partnerProtect Toy.sha256
       (<["authorization" := "Bearer " ++ token]>
          (<["x-partner-id" := "p1"]> ∅)) [Toy.partnerDoc]
     = Authenticated Toy.partnerDoc.
Proof.
  intros token.
  assert (H1 : PartnerDoc.partnerId Toy.partnerDoc ≠ "") by discriminate.
  assert (H2 : list_find
                 (fun p =>
                    PartnerDoc.partnerId p
                    = PartnerDoc.partnerId Toy.partnerDoc)
                 [Toy.partnerDoc] = Some (0, Toy.partnerDoc))
    by (vm_compute; reflexivity).
  assert (H3 : PartnerDoc.apiTokenHash Toy.partnerDoc
               = Some (hashApiToken Toy.sha256 token)) by reflexivity.
  repeat (split; [assumption|]).
  destruct (issued_token_authenticates Toy.entropy Toy.sha256 0
              [Toy.partnerDoc] 0 Toy.partnerDoc ∅ H1 H2 H3)
    as (Hissued & _ & Hbearer & _).
  split; [exact Hissued|]. exact Hbearer.
Defined.

Lemma partner_backend_request_is_refused_witness :
  let r := Toy.registry {[ "cust1" := Toy.customerDoc ]} [Toy.consent] 2000 in
  let token := toHex (drawn Toy.entropy 0 32) in
  let headers := partnerBackendHeaders "p1" token ∪ ∅ in
  (∅ : gmap string string) !! "authorization" = None
  /\ toy_dataRequestRoute headers (Toy.request ["email"]) r
     = (Ok (Next "Missing partner token or partner ID"), r).
Proof.
  intros r token headers.
  assert (H1 : (∅ : gmap string string) !! "authorization" = None)
    by reflexivity.
  split; [exact H1|].
  apply (partner_backend_request_is_refused Toy.entropy Toy.gcm_keystream
           Toy.gcm_tag Toy.sha256 Toy.rsa_oaep_encrypt Toy.rsa_verify toHex
           fromHex Toy.stringify Toy.parse Toy.stringify
           Toy.stringifySignaturePayload Toy.uuidText Toy.toISOString
           toy_bank toy_signer "p1" token ∅ (Toy.request ["email"]) r H1).
Defined.
